(** * xxsmux / muxify: a builder for Go's [http.ServeMux]

    A shallow embedding of the three generations of the router that the
    repository holds, and the properties of its prefix and middleware
    handling:

    - [Mux]             (muxify.go, the thin wrapper around [http.ServeMux]);
    - [ServeMuxBuilder] (muxify.go, the tree of builders flattened by [Build]);
    - [XXSMux]          (main.go, the first prototype of that tree).

    Go strings are byte strings ([string]); pointers to builders are indices
    into a heap of nodes; the maps [map[string]http.Handler] are [gmap]s. *)

From Stdlib Require Import Ascii String.
From stdpp Require Import gmap strings list.

Local Open Scope string_scope.
Local Open Scope list_scope.
Local Open Scope nat_scope.

(** ** Go's [strings] and [regexp] functions used by the builders *)

Module GoStrings.

(** [strings.Split(s, sep)] for a one-byte separator: the fields between
    the separators, so [n] separators give [n + 1] fields and the empty
    string gives one empty field. *)
Fixpoint Split (s : string) (sep : ascii) : list string :=
  match s with
  | EmptyString => [EmptyString]
  | String c rest =>
      if Ascii.eqb c sep then EmptyString :: Split rest sep
      else match Split rest sep with
           | field :: fields => String c field :: fields
           | [] => [String c EmptyString]
           end
  end.

(** [len(s) > 0 && s[0] == c] *)
Definition starts_with (c : ascii) (s : string) : bool :=
  match s with
  | String c' _ => Ascii.eqb c' c
  | EmptyString => false
  end.

(** [regexp.MustCompile(`//+`).ReplaceAllString(text, "/")]: every maximal
    run of two or more slashes is one match (leftmost, greedy) and is
    replaced by one slash.  The function drops each slash that is followed
    by another one, which leaves the last slash of every run. *)
Fixpoint removeDoubleSlash (text : string) : string :=
  match text with
  | EmptyString => EmptyString
  | String c rest =>
      match rest with
      | String c' _ =>
          if Ascii.eqb c "/"%char && Ascii.eqb c' "/"%char then removeDoubleSlash rest
          else String c (removeDoubleSlash rest)
      | EmptyString => String c EmptyString
      end
  end.

(** [strings.Contains(s, "//")] *)
Fixpoint has_double_slash (s : string) : bool :=
  match s with
  | EmptyString => false
  | String c rest =>
      (Ascii.eqb c "/"%char && starts_with "/"%char rest) || has_double_slash rest
  end.

(** [strings.IndexByte(s, c) >= 0] *)
Fixpoint has_byte (c : ascii) (s : string) : bool :=
  match s with
  | EmptyString => false
  | String c' rest => Ascii.eqb c' c || has_byte c rest
  end.

End GoStrings.

(** ** Handlers and middleware *)

Module Http.

(** What a handler is to the builders: [ServeHTTP(w, r)] reads the request
    and writes to the response writer.  The writer is the list of lines
    written so far. *)
Definition Request := string.
Definition ResponseWriter := list string.
Definition Handler := Request → ResponseWriter → ResponseWriter.

(** [type Middleware func(http.Handler) http.Handler] *)
Definition Middleware := Handler → Handler.

(** The dispatcher the builders register into.  [Handle] panics on some
    registrations ([net/http] does so on a pattern that conflicts with a
    registered one); [None] is that panic. *)
Class Dispatcher (ServeMux : Type) := {
  NewServeMux : ServeMux;
  Handle : ServeMux → string → Handler → option ServeMux
}.

(** A dispatcher that keeps every registration, in the order of the
    [Handle] calls. *)
Definition recording : Dispatcher (list (string * Handler)) :=
  {| NewServeMux := [];
     Handle := λ mux pattern handler, Some (mux ++ [(pattern, handler)]) |}.

(** What the builders can rely on of the [ServeMux] of [net/http]: it holds
    the patterns that were registered ([held], in the order of the calls),
    and [Handle] panics on a pattern that it holds already.  The one of
    [net/http] panics on more: on a pattern that is not valid, and on one
    that conflicts with a different pattern that it holds. *)
Class RefusesRepeats {ServeMux : Type} `{Dispatcher ServeMux}
    (held : ServeMux → list string) : Prop := {
  held_NewServeMux : held NewServeMux = [];
  held_Handle mux pattern handler mux' :
    Handle mux pattern handler = Some mux' → held mux' = held mux ++ [pattern];
  Handle_held mux pattern handler :
    pattern ∈ held mux → Handle mux pattern handler = None
}.

(** The least of these dispatchers: it panics on a pattern it holds already
    and on nothing else.  It is not the one of [net/http]. *)
Definition strict : Dispatcher (list (string * Handler)) :=
  {| NewServeMux := [];
     Handle := λ mux pattern handler,
       if bool_decide (pattern ∈ mux.*1) then None
       else Some (mux ++ [(pattern, handler)]) |}.

(** A middleware in the style of main.go's [Middleware1] ... [Middleware4]:
    write a line, then call the next handler. *)
Definition announce (line : string) : Middleware :=
  λ next r w, next r (w ++ [line]).

(** A handler that writes one line. *)
Definition say (line : string) : Handler :=
  λ r w, w ++ [line].

End Http.

Import GoStrings Http.

(** ** muxify.go, first version: [Mux] *)

Module Mux.

(** [newHandler]: [for i := len(mw) - 1; i >= 0; i-- { h = mw[i](h) }].
    [n] is [i + 1]. *)
Fixpoint newHandler_loop (mw : list Middleware) (n : nat) (h : Handler) : Handler :=
  match n with
  | 0 => h
  | S i =>
      match mw !! i with
      | Some m => newHandler_loop mw i (m h)
      | None => h
      end
  end.

Definition newHandler (mw : list Middleware) : Handler → Handler :=
  λ h, newHandler_loop mw (length mw) h.

(** [splitPattern]: the method with its trailing space, and the path. *)
Definition splitPattern (pattern : string) : string * string :=
  match Split pattern " "%char with
  | [m; p] => (m +:+ " ", p)
  | p :: _ => ("", p)
  | [] => ("", "")
  end.

(** A [Mux] value.  The [*http.ServeMux] and the [*[]string] of registered
    patterns are shared by a mux and its subrouters: they live in
    [shared]. *)
Record Mux := mkMux {
  patternPrefix : string;
  middlewares : list Middleware
}.

Record shared (ServeMux : Type) := mkShared {
  muxify : ServeMux;
  registeredPatterns : list string
}.
Arguments mkShared {_} _ _.
Arguments muxify {_} _.
Arguments registeredPatterns {_} _.

Definition NewMux `{Dispatcher ServeMux} : Mux * shared ServeMux :=
  (mkMux "" [], mkShared NewServeMux []).

(** [Handle]: [None] when the dispatcher panics. *)
Definition Handle `{Dispatcher ServeMux}
    (mux : Mux) (pattern : string) (handler : Handler)
    (st : shared ServeMux) : option (shared ServeMux) :=
  let '(method, patternPath) := splitPattern pattern in
  let pattern := method +:+ patternPrefix mux +:+ patternPath in
  m ← Http.Handle (muxify st) pattern (newHandler (middlewares mux) handler);
  Some (mkShared m (registeredPatterns st ++ [pattern])).

(** [Subrouter]: the sub mux starts from the prefix and the middlewares of
    its parent. *)
Definition Subrouter (mux : Mux) : Mux :=
  mkMux (patternPrefix mux) (middlewares mux).

(** [Prefix]: a leading slash is put before a non-empty prefix that lacks
    one; the result is appended to the prefix of the mux. *)
Definition Prefix (mux : Mux) (prefix : string) : Mux :=
  let prefix :=
    if bool_decide (0 < String.length prefix) then
      if negb (starts_with "/"%char prefix) then "/" +:+ prefix else prefix
    else prefix in
  mkMux (patternPrefix mux +:+ prefix) (middlewares mux).

End Mux.

(** ** A heap of builder nodes

    [*ServeMuxBuilder] and [*XXSMux] are pointers: several fields of several
    nodes point to the same node, and [Pattern] puts a node into its own
    list of subrouters.  A heap is the list of the nodes allocated so far and
    a pointer is an index into it.  A computation threads the heap and
    yields [None] when it dereferences a pointer that is nil or points
    nowhere (Go panics). *)

Module HeapMonad.

Section Ops.
Context {node : Type}.

Definition M (A : Type) : Type := list node → option (A * list node).

Definition ret {A} (a : A) : M A := λ h, Some (a, h).

Definition bind {A B} (m : M A) (k : A → M B) : M B :=
  λ h, match m h with
       | Some (a, h') => k a h'
       | None => None
       end.

(** [b.f] *)
Definition get {A} (f : node → A) (b : nat) : M A :=
  λ h, match h !! b with
       | Some n => Some (f n, h)
       | None => None
       end.

(** [b.f = v], as an update of the node [*b] *)
Definition modify (b : nat) (f : node → node) : M unit :=
  λ h, match h !! b with
       | Some n => Some (tt, <[b := f n]> h)
       | None => None
       end.

(** [&node{...}]: the new node may hold its own address. *)
Definition alloc (mk : nat → node) : M nat :=
  λ h, Some (length h, h ++ [mk (length h)]).

(** [for _, x := range l { body }] *)
Fixpoint for_each {A} (l : list A) (body : A → M unit) : M unit :=
  match l with
  | [] => ret tt
  | x :: l => bind (body x) (λ _, for_each l body)
  end.

(** The heap a computation leaves. *)
Definition exec {A} (m : M A) (h : list node) : option (list node) :=
  snd <$> m h.

End Ops.

#[global] Instance M_ret {node} : MRet (@M node) := @ret node.
#[global] Instance M_bind {node} : MBind (@M node) := λ A B k m, bind m k.

End HeapMonad.

Import HeapMonad.

(** ** muxify.go, second version: [ServeMuxBuilder] *)

Module ServeMuxBuilder.

Abbreviation ptr := nat.

Record node := mkNode {
  Patterns : gmap string Handler;
  PatternPrefix : string;
  Middlewares : list Middleware;
  Root : ptr;
  Parent : ptr;
  SubServeMuxBuilder : list ptr;
  executedBuild : bool;
  registeredPatterns : list string
}.

Abbreviation heap := (list node).

Definition set_Patterns v n :=
  mkNode v (PatternPrefix n) (Middlewares n) (Root n) (Parent n)
         (SubServeMuxBuilder n) (executedBuild n) (registeredPatterns n).
Definition set_PatternPrefix v n :=
  mkNode (Patterns n) v (Middlewares n) (Root n) (Parent n)
         (SubServeMuxBuilder n) (executedBuild n) (registeredPatterns n).
Definition set_Middlewares v n :=
  mkNode (Patterns n) (PatternPrefix n) v (Root n) (Parent n)
         (SubServeMuxBuilder n) (executedBuild n) (registeredPatterns n).
Definition set_Root v n :=
  mkNode (Patterns n) (PatternPrefix n) (Middlewares n) v (Parent n)
         (SubServeMuxBuilder n) (executedBuild n) (registeredPatterns n).
Definition set_Parent v n :=
  mkNode (Patterns n) (PatternPrefix n) (Middlewares n) (Root n) v
         (SubServeMuxBuilder n) (executedBuild n) (registeredPatterns n).
Definition set_SubServeMuxBuilder v n :=
  mkNode (Patterns n) (PatternPrefix n) (Middlewares n) (Root n) (Parent n)
         v (executedBuild n) (registeredPatterns n).
Definition set_executedBuild v n :=
  mkNode (Patterns n) (PatternPrefix n) (Middlewares n) (Root n) (Parent n)
         (SubServeMuxBuilder n) v (registeredPatterns n).
Definition set_registeredPatterns v n :=
  mkNode (Patterns n) (PatternPrefix n) (Middlewares n) (Root n) (Parent n)
         (SubServeMuxBuilder n) (executedBuild n) v.

(** [NewServeMuxBuilder]: root and parent of a new builder are itself. *)
Definition NewServeMuxBuilder : M (node:=node) ptr :=
  alloc (λ b, mkNode ∅ "" [] b b [] false []).

(** [newHandler]: [for i := len(mw) - 1; i >= 0; i-- { h = mw[i](h) }].
    [n] is [i + 1]. *)
Fixpoint newHandler_loop (mw : list Middleware) (n : nat) (h : Handler) : Handler :=
  match n with
  | 0 => h
  | S i =>
      match mw !! i with
      | Some m => newHandler_loop mw i (m h)
      | None => h
      end
  end.

Definition newHandler (mw : list Middleware) : Handler → Handler :=
  λ h, newHandler_loop mw (length mw) h.

(** The switch on [len(tmpPattern)] inside [Pattern]: the method with its
    trailing space, and the path. *)
Definition method_and_path (pattern : string) : string * string :=
  let tmpPattern := Split pattern " "%char in
  match tmpPattern with
  | [m; p] => (m +:+ " ", p)
  | p :: _ => ("", p)
  | [] => ("", "")
  end.

(** The key under which [Pattern] stores a registration string, given the
    prefix of the builder. *)
Definition pattern_key (PatternPrefix pattern : string) : string :=
  let '(method, patternPath) := method_and_path pattern in
  method +:+ removeDoubleSlash (PatternPrefix +:+ patternPath).

(** [Pattern].  The two nested loops assign to [b.PatternPrefix] while they
    read the prefixes of the nodes they range over, [b] may be among them. *)
Definition Pattern (b : ptr) (patterns : gmap string Handler) : M (node:=node) unit :=
  patternPrefix ← get PatternPrefix b;
  modify b (set_PatternPrefix "");;
  root ← get Root b;
  rootPrefix ← get PatternPrefix root;
  modify b (set_PatternPrefix rootPrefix);;
  parent ← get Parent b;
  subBuilders ← get SubServeMuxBuilder parent;
  for_each subBuilders (λ subBuilder,
    parent ← get Parent b;
    root ← get Root b;
    if bool_decide (parent ≠ root) then
      subSubBuilders ← get SubServeMuxBuilder subBuilder;
      for_each subSubBuilders (λ subSubBuilder,
        p ← get PatternPrefix subSubBuilder;
        modify b (set_PatternPrefix p))
    else mret tt);;
  modify b (λ n, set_PatternPrefix (PatternPrefix n +:+ patternPrefix) n);;
  for_each (map_to_list patterns) (λ '(pattern, handler),
    prefix ← get PatternPrefix b;
    modify b (λ n, set_Patterns (<[pattern_key prefix pattern := handler]> (Patterns n)) n));;
  modify b (λ n, set_SubServeMuxBuilder (SubServeMuxBuilder n ++ [b]) n).

(** [Use] *)
Definition Use (b : ptr) (middleware : list Middleware) : M (node:=node) unit :=
  modify b (λ n, set_Middlewares (Middlewares n ++ middleware) n).

(** [Prefix] *)
Definition Prefix (b : ptr) (prefix : string) : M (node:=node) unit :=
  let prefix :=
    if bool_decide (0 < String.length prefix) then
      if negb (starts_with "/"%char prefix) then "/" +:+ prefix else prefix
    else prefix in
  modify b (set_PatternPrefix prefix).

(** [Subrouter] *)
Definition Subrouter (b : ptr) : M (node:=node) ptr :=
  subBuilder ← NewServeMuxBuilder;
  modify subBuilder (set_Parent b);;
  root ← get Root b;
  modify subBuilder (set_Root root);;
  parent ← get Parent subBuilder;
  root ← get Root b;
  (if bool_decide (parent ≠ root) then
     mws ← get Middlewares parent;
     modify subBuilder (λ n, set_Middlewares (Middlewares n ++ mws) n)
   else
     mws ← get Middlewares root;
     modify subBuilder (λ n, set_Middlewares (Middlewares n ++ mws) n));;
  modify b (λ n, set_SubServeMuxBuilder (SubServeMuxBuilder n ++ [subBuilder]) n);;
  mret subBuilder.

(** [PrintRegisteredPatterns]: the patterns it prints between its two
    banner lines, [None] when it prints nothing. *)
Definition PrintRegisteredPatterns (b : ptr) (h : heap) : option (list string) :=
  match h !! b with
  | Some n =>
      match h !! Root n with
      | Some r => if executedBuild r then Some (registeredPatterns r) else None
      | None => None
      end
  | None => None
  end.

Section Build.
Context `{Dispatcher ServeMux}.

(** How a run of [Build] ends. *)
Inductive BuildResult :=
  | Built (h : heap) (mux : ServeMux)
  | HandlePanic (h : heap) (pattern : string)
  | NilDeref
  | OutOfFuel.

(** The loop over [current.Patterns]; [entries] are the entries still to
    come, in the order the [range] yields them. *)
Fixpoint Build_register (b current : ptr) (entries : list (string * Handler))
    (mux : ServeMux) (h : heap) : BuildResult :=
  match entries with
  | [] => Built h mux
  | (pattern, handler) :: entries =>
      match exec (root ← get Root b;
                  modify root (λ n, set_registeredPatterns
                                      (registeredPatterns n ++ [pattern]) n)) h with
      | None => NilDeref
      | Some h =>
          match h !! current with
          | None => NilDeref
          | Some cur =>
              match Handle mux pattern (newHandler (Middlewares cur) handler) with
              | None => HandlePanic h pattern
              | Some mux => Build_register b current entries mux h
              end
          end
      end
  end.

(** The loop over the queue.  The map [visited] holds only [true] values:
    it is the set of its keys.  [current.Patterns != nil] holds for every
    builder made by [NewServeMuxBuilder], and a [range] over a nil map has no
    turn: the test is not in the model. *)
Fixpoint Build_loop (fuel : nat) (b : ptr) (queue : list ptr)
    (visited : gset ptr) (mux : ServeMux) (h : heap) : BuildResult :=
  match fuel with
  | 0 => OutOfFuel
  | S fuel =>
      match queue with
      | [] => Built h mux
      | current :: queue =>
          if bool_decide (current ∈ visited) then
            Build_loop fuel b queue visited mux h
          else
            let visited := {[current]} ∪ visited in
            match h !! current with
            | None => NilDeref
            | Some cur =>
                match Build_register b current (map_to_list (Patterns cur)) mux h with
                | Built h mux =>
                    match h !! current with
                    | None => NilDeref
                    | Some cur =>
                        Build_loop fuel b (queue ++ SubServeMuxBuilder cur)
                                   visited mux h
                    end
                | res => res
                end
            end
      end
  end.

(** [Build] with a bound on the number of turns of the queue loop. *)
Definition Build_within (fuel : nat) (b : ptr) (h : heap) : BuildResult :=
  match h !! b with
  | None => NilDeref
  | Some n =>
      match Build_loop fuel b [Root n] ∅ NewServeMux h with
      | Built h mux =>
          match exec (root ← get Root b;
                      modify root (set_executedBuild true)) h with
          | Some h => Built h mux
          | None => NilDeref
          end
      | res => res
      end
  end.

(** Turns that are enough for every heap: each turn takes one pointer from
    the queue, and the queue receives the root and, once for each node, the
    subrouters of the node. *)
Definition Build_fuel (h : heap) : nat :=
  2 + sum_list (length ∘ SubServeMuxBuilder <$> h).

Definition Build (b : ptr) (h : heap) : BuildResult :=
  Build_within (Build_fuel h) b h.

(** Go fixes no order for a [range] over a map, and two loops over the same
    map may take its entries in different orders.  [Build_loop] takes the
    entries of [current.Patterns] in the order of [map_to_list]; the same
    loops follow with the order as a parameter: a run of [Build] takes the
    entries of a map [m] in the order [range m]. *)
Fixpoint Build_loop_ranging (range : gmap string Handler → list (string * Handler))
    (fuel : nat) (b : ptr) (queue : list ptr)
    (visited : gset ptr) (mux : ServeMux) (h : heap) : BuildResult :=
  match fuel with
  | 0 => OutOfFuel
  | S fuel =>
      match queue with
      | [] => Built h mux
      | current :: queue =>
          if bool_decide (current ∈ visited) then
            Build_loop_ranging range fuel b queue visited mux h
          else
            let visited := {[current]} ∪ visited in
            match h !! current with
            | None => NilDeref
            | Some cur =>
                match Build_register b current (range (Patterns cur)) mux h with
                | Built h mux =>
                    match h !! current with
                    | None => NilDeref
                    | Some cur =>
                        Build_loop_ranging range fuel b
                          (queue ++ SubServeMuxBuilder cur) visited mux h
                    end
                | res => res
                end
            end
      end
  end.

Definition Build_within_ranging (range : gmap string Handler → list (string * Handler))
    (fuel : nat) (b : ptr) (h : heap) : BuildResult :=
  match h !! b with
  | None => NilDeref
  | Some n =>
      match Build_loop_ranging range fuel b [Root n] ∅ NewServeMux h with
      | Built h mux =>
          match exec (root ← get Root b;
                      modify root (set_executedBuild true)) h with
          | Some h => Built h mux
          | None => NilDeref
          end
      | res => res
      end
  end.

Definition Build_ranging (range : gmap string Handler → list (string * Handler))
    (b : ptr) (h : heap) : BuildResult :=
  Build_within_ranging range (Build_fuel h) b h.

End Build.

End ServeMuxBuilder.

(** ** main.go: [XXSMux], the prototype *)

Module XXSMux.

Abbreviation ptr := nat.

(** [root] and [parent] are nil ([None]) in a node fresh from [NewXXSMux]. *)
Record node := mkNode {
  patterns : gmap string Handler;
  patternPrefix : string;
  middlewares : list Middleware;
  root : option ptr;
  parent : option ptr;
  subXXSMux : list ptr
}.

Abbreviation heap := (list node).

Definition set_patterns v n :=
  mkNode v (patternPrefix n) (middlewares n) (root n) (parent n) (subXXSMux n).
Definition set_patternPrefix v n :=
  mkNode (patterns n) v (middlewares n) (root n) (parent n) (subXXSMux n).
Definition set_middlewares v n :=
  mkNode (patterns n) (patternPrefix n) v (root n) (parent n) (subXXSMux n).
Definition set_root v n :=
  mkNode (patterns n) (patternPrefix n) (middlewares n) v (parent n) (subXXSMux n).
Definition set_parent v n :=
  mkNode (patterns n) (patternPrefix n) (middlewares n) (root n) v (subXXSMux n).
Definition set_subXXSMux v n :=
  mkNode (patterns n) (patternPrefix n) (middlewares n) (root n) (parent n) v.

(** [p.f] for a pointer that may be nil *)
Definition get_at {A} (f : node → A) (p : option ptr) : M (node:=node) A :=
  match p with
  | Some b => get f b
  | None => λ _, None
  end.

(** [NewXXSMux] *)
Definition NewXXSMux : M (node:=node) ptr :=
  alloc (λ _, mkNode ∅ "" [] None None []).

(** The first lines of [main]: [router := NewXXSMux()],
    [router.root = router], [router.parent = router]. *)
Definition NewRouter : M (node:=node) ptr :=
  router ← NewXXSMux;
  modify router (set_root (Some router));;
  modify router (set_parent (Some router));;
  mret router.

(** [NewHandler]: [for _, m := range mw { next = m(next) }] *)
Definition NewHandler (mw : list Middleware) : Handler → Handler :=
  λ h, foldl (λ next m, m next) h mw.

(** [Pattern].  [strings.Split(pattern, " ")[1]] panics on a pattern
    without a space. *)
Definition Pattern (mux : ptr) (pats : gmap string Handler) : M (node:=node) unit :=
  prefix ← get patternPrefix mux;
  modify mux (set_patternPrefix "");;
  r ← get root mux;
  rootPrefix ← get_at patternPrefix r;
  modify mux (set_patternPrefix (rootPrefix +:+ "/"));;
  p ← get parent mux;
  subMuxes ← get_at subXXSMux p;
  for_each subMuxes (λ subMux,
    p ← get parent mux;
    r ← get root mux;
    if bool_decide (p = r) then
      if bool_decide (subMux = mux) then
        subSubMuxes ← get subXXSMux subMux;
        for_each subSubMuxes (λ subSubMux,
          pp ← get patternPrefix subSubMux;
          modify mux (set_patternPrefix (pp +:+ "/")))
      else mret tt
    else
      subSubMuxes ← get subXXSMux subMux;
      for_each subSubMuxes (λ subSubMux,
        pp ← get patternPrefix subSubMux;
        modify mux (set_patternPrefix (pp +:+ "/"))));;
  modify mux (λ n, set_patternPrefix (patternPrefix n +:+ prefix) n);;
  for_each (map_to_list pats) (λ '(pattern, handler),
    pp ← get patternPrefix mux;
    match Split pattern " "%char !! 1 with
    | Some path =>
        modify mux (λ n, set_patterns
                           (<[removeDoubleSlash (pp +:+ path) := handler]> (patterns n)) n)
    | None => λ _, None
    end);;
  modify mux (λ n, set_subXXSMux (subXXSMux n ++ [mux]) n).

(** [Use] *)
Definition Use (mux : ptr) (middleware : list Middleware) : M (node:=node) unit :=
  modify mux (λ n, set_middlewares (middlewares n ++ middleware) n).

(** [Prefix] *)
Definition Prefix (mux : ptr) (prefix : string) : M (node:=node) unit :=
  modify mux (set_patternPrefix prefix).

(** [Subrouter].  A nil slice and an empty one are the same list. *)
Definition Subrouter (mux : ptr) : M (node:=node) ptr :=
  subMux ← NewXXSMux;
  modify subMux (set_parent (Some mux));;
  r ← get root mux;
  modify subMux (set_root r);;
  r ← get root mux;
  rootMiddlewares ← get_at middlewares r;
  r' ← get root mux;
  (if negb (bool_decide (length rootMiddlewares = 0)) && bool_decide (Some subMux ≠ r')
   then modify subMux (λ n, set_middlewares (middlewares n ++ rootMiddlewares) n)
   else mret tt);;
  modify mux (λ n, set_subXXSMux (subXXSMux n ++ [subMux]) n);;
  mret subMux.

Section Build.
Context `{Dispatcher ServeMux}.

(** How a run of [Build] ends. *)
Inductive BuildResult :=
  | Built (mux : ServeMux)
  | HandlePanic (pattern : string)
  | NilDeref
  | OutOfFuel.

(** The loop over [current.patterns] *)
Fixpoint Build_register (current : ptr) (entries : list (string * Handler))
    (defaultServeMux : ServeMux) (h : heap) : BuildResult :=
  match entries with
  | [] => Built defaultServeMux
  | (pattern, handler) :: entries =>
      match h !! current with
      | None => NilDeref
      | Some cur =>
          match Handle defaultServeMux pattern
                       (NewHandler (middlewares cur) handler) with
          | None => HandlePanic pattern
          | Some m => Build_register current entries m h
          end
      end
  end.

(** The loop over the queue.  [current.patterns != nil] holds for every
    builder made by [NewXXSMux]: the test is not in the model. *)
Fixpoint Build_loop (fuel : nat) (queue : list ptr) (visited : gset ptr)
    (defaultServeMux : ServeMux) (h : heap) : BuildResult :=
  match fuel with
  | 0 => OutOfFuel
  | S fuel =>
      match queue with
      | [] => Built defaultServeMux
      | current :: queue =>
          if bool_decide (current ∈ visited) then
            Build_loop fuel queue visited defaultServeMux h
          else
            let visited := {[current]} ∪ visited in
            match h !! current with
            | None => NilDeref
            | Some cur =>
                match Build_register current (map_to_list (patterns cur))
                                     defaultServeMux h with
                | Built m =>
                    Build_loop fuel (queue ++ subXXSMux cur) visited m h
                | res => res
                end
            end
      end
  end.

Definition Build_within (fuel : nat) (mux : ptr) (defaultServeMux : ServeMux)
    (h : heap) : BuildResult :=
  Build_loop fuel [mux] ∅ defaultServeMux h.

Definition Build_fuel (h : heap) : nat :=
  2 + sum_list (length ∘ subXXSMux <$> h).

Definition Build (mux : ptr) (defaultServeMux : ServeMux) (h : heap) : BuildResult :=
  Build_within (Build_fuel h) mux defaultServeMux h.

End Build.

(** [Wrap]: a handler that calls [next]. *)
Definition Wrap (next : Handler) : Handler :=
  λ r w, next r w.

(** [Chain]: [for _, m := range middleware { base = m(base) }] *)
Definition Chain (base : Handler) (middleware : list Middleware) : Handler :=
  foldl (λ base m, m base) base middleware.

(** [ChainRouter]: [finalHandler] makes a handler that calls [next], and the
    loop is [for _, handler := range handlers { base = finalHandler(handler) }]. *)
Definition finalHandler (next : Handler) : Handler :=
  λ r w, next r w.

Definition ChainRouter (base : Handler) (handlers : list Handler) : Handler :=
  foldl (λ base handler, finalHandler handler) base handlers.

End XXSMux.

(** ** The words of the specification *)

Module Spec.

(** A registration string is ["METHOD /path"] (a method token, one space,
    a path that starts with a slash) or ["/path"]. *)
Definition valid_pattern (p : string) : bool :=
  match Split p " "%char with
  | [path] => starts_with "/"%char path
  | [method; path] => negb (String.eqb method "") && starts_with "/"%char path
  | _ => false
  end.

(** A prefix with a leading slash put before it if it is not empty and has
    none. *)
Definition with_leading_slash (p : string) : string :=
  match p with
  | EmptyString => EmptyString
  | String c _ => if Ascii.eqb c "/"%char then p else String "/"%char p
  end.

(** The effective prefix of a node: the fragments of its ancestor chain,
    the one of the root first, joined by single slashes. *)
Definition effective_prefix (fragments : list string) : string :=
  removeDoubleSlash (foldr (λ fragment rest, "/" +:+ fragment +:+ rest) "" fragments).

End Spec.

(** ** The traversal of [Build], without the heap *)

Module Traversal.

(** The builders that the queue loop of [Build] processes, in the order in
    which it processes them: a builder is skipped when it was processed
    before, else its subrouters join the end of the queue.  [None] when the
    turns run out. *)
Fixpoint bfs (children : nat → list nat) (fuel : nat) (queue : list nat)
    (visited : gset nat) : option (list nat) :=
  match fuel with
  | 0 => None
  | S fuel =>
      match queue with
      | [] => Some []
      | current :: queue =>
          if bool_decide (current ∈ visited) then bfs children fuel queue visited
          else cons current
                 <$> bfs children fuel (queue ++ children current)
                         ({[current]} ∪ visited)
      end
  end.

(** What is left to enqueue: the subrouters of the builders among
    [candidates] that were not processed. *)
Definition weight (children : nat → list nat) (candidates : list nat)
    (visited : gset nat) : nat :=
  sum_list ((λ p, if bool_decide (p ∈ visited) then 0 else length (children p))
              <$> candidates).

(** A builder reached from [p] through lists of subrouters. *)
Definition reaches (children : nat → list nat) : nat → nat → Prop :=
  rtc (λ p c, c ∈ children p).

Section Registration.
Context `{Dispatcher ServeMux}.

(** The [Handle] calls for a list of registrations, in sequence, with the
    log of the patterns written before each call: the dispatcher and the
    log at the end, or the pattern on which [Handle] panics and the log at
    that moment. *)
Fixpoint Handle_all (calls : list (string * Handler)) (mux : ServeMux)
    (log : list string) : ServeMux * list string + string * list string :=
  match calls with
  | [] => inl (mux, log)
  | (pattern, handler) :: calls =>
      match Handle mux pattern handler with
      | None => inr (pattern, log ++ [pattern])
      | Some mux => Handle_all calls mux (log ++ [pattern])
      end
  end.

End Registration.

End Traversal.

(** ** What the operations compute, in closed form *)

Module Closed.
Import ServeMuxBuilder.

(** Every pointer held by a node of the heap points into the heap.  Heaps
    made by [NewServeMuxBuilder] and [Subrouter] are of this kind: Go has
    no dangling pointers. *)
Definition wf (h : heap) : Prop :=
  Forall (λ n, Root n < length h ∧ Parent n < length h
               ∧ Forall (λ c, c < length h) (SubServeMuxBuilder n)) h.

(** The prefix stored at [p], read while [b.PatternPrefix] holds [cur]. *)
Definition prefix_at (h : heap) (b : ptr) (cur : string) (p : ptr) : string :=
  if bool_decide (p = b) then cur
  else match h !! p with
       | Some n => PatternPrefix n
       | None => ""
       end.

Definition subrouters (h : heap) (p : ptr) : list ptr :=
  match h !! p with
  | Some n => SubServeMuxBuilder n
  | None => []
  end.

(** What the inner loop of [Pattern] leaves in [b.PatternPrefix]: the
    prefix of the last node of the list. *)
Definition scan (h : heap) (b : ptr) (cur : string) (l : list ptr) : string :=
  foldl (prefix_at h b) cur l.

(** What [Pattern] leaves in [b.PatternPrefix] before it appends the prefix
    that [b] had: the prefix of the root, replaced by the prefix of the
    last subrouter in the lists of the subrouters of the parent of [b] when
    that parent is not the root. *)
Definition Pattern_base (h : heap) (b : ptr) : string :=
  match h !! b with
  | Some n =>
      let rootPrefix := prefix_at h b "" (Root n) in
      if bool_decide (Parent n ≠ Root n) then
        foldl (λ cur sub, scan h b cur (subrouters h sub)) rootPrefix
              (subrouters h (Parent n))
      else rootPrefix
  | None => ""
  end.

(** The entries of a node after [Pattern] has stored [entries] under the
    prefix [prefix]. *)
Definition store_patterns (prefix : string) (entries : list (string * Handler))
    (m : gmap string Handler) : gmap string Handler :=
  foldl (λ m e, <[pattern_key prefix e.1 := e.2]> m) m entries.

(** The registrations that [Build] makes for the builder [p]: its patterns
    in the order of the [range], each handler wrapped in the middlewares of
    the builder. *)
Definition calls_of (h : heap) (p : ptr) : list (string * Handler) :=
  match h !! p with
  | Some n => (λ e, (e.1, newHandler (Middlewares n) e.2)) <$> map_to_list (Patterns n)
  | None => []
  end.

(** The heap with [log] as the registered patterns of the root [r]. *)
Definition logged (h : heap) (r : ptr) (log : list string) : heap :=
  match h !! r with
  | Some n => <[r := set_registeredPatterns log n]> h
  | None => h
  end.

(** The result of [Build] from the root [r] when the queue loop processes
    the builders of [order]. *)
Definition flatten `{Dispatcher ServeMux} (h : heap) (r : ptr) (order : list ptr)
    : BuildResult :=
  match h !! r with
  | Some n =>
      match Traversal.Handle_all (flat_map (calls_of h) order) NewServeMux
                                 (registeredPatterns n) with
      | inl (mux, log) =>
          Built (<[r := set_executedBuild true (set_registeredPatterns log n)]> h) mux
      | inr (pattern, log) =>
          HandlePanic (<[r := set_registeredPatterns log n]> h) pattern
      end
  | None => NilDeref
  end.

(** The registrations that a run of [Build] makes for the builder [p] when
    its [range] takes the entries of a map [m] in the order [range m]. *)
Definition calls_ranging (range : gmap string Handler → list (string * Handler))
    (h : heap) (p : ptr) : list (string * Handler) :=
  match h !! p with
  | Some n => (λ e, (e.1, newHandler (Middlewares n) e.2)) <$> range (Patterns n)
  | None => []
  end.

(** The builder [p] of the tree of root [r] holds the key. *)
Definition holds (h : heap) (r p : ptr) (key : string) : Prop :=
  Traversal.reaches (subrouters h) r p
  ∧ ∃ np, h !! p = Some np ∧ key ∈ dom (Patterns np).

(** The dispatcher refuses no key of the tree of root [r] for another reason
    than holding it already.  For the [ServeMux] of [net/http] this says
    that every key of the tree is a valid pattern and that no two different
    keys of the tree conflict. *)
Definition refuses_repeats_only `{Dispatcher ServeMux}
    (held : ServeMux → list string) (h : heap) (r : ptr) : Prop :=
  ∀ mux key handler,
    (∃ p, holds h r p key) →
    (∀ k, k ∈ held mux → ∃ p, holds h r p k) →
    Handle mux key handler = None → key ∈ held mux.

End Closed.

(** The same for the prototype. *)
Module ProtoClosed.
Import XXSMux.

Definition wf (h : heap) : Prop :=
  Forall (λ n, Forall (λ c, c < length h) (subXXSMux n)) h.

Definition subrouters (h : heap) (p : ptr) : list ptr :=
  match h !! p with
  | Some n => subXXSMux n
  | None => []
  end.

Definition calls_of (h : heap) (p : ptr) : list (string * Handler) :=
  match h !! p with
  | Some n => (λ e, (e.1, NewHandler (middlewares n) e.2)) <$> map_to_list (patterns n)
  | None => []
  end.

Definition flatten `{Dispatcher ServeMux} (h : heap) (order : list ptr)
    (defaultServeMux : ServeMux) : BuildResult :=
  match Traversal.Handle_all (flat_map (calls_of h) order) defaultServeMux [] with
  | inl (mux, _) => Built mux
  | inr (pattern, _) => HandlePanic pattern
  end.

(** The key that [Pattern] stores for a registration string under a
    prefix: the prefix and the second field of the string, the method left
    out. *)
Definition key (prefix pattern : string) : string :=
  removeDoubleSlash (prefix +:+ default "" (Split pattern " "%char !! 1)).

(** [k] slashes *)
Fixpoint slashes (k : nat) : string :=
  match k with
  | 0 => ""
  | S k => "/" +:+ slashes k
  end.

(** What the scans of [Pattern] on [mux] can leave before the prefix that
    [mux] had: the prefix of another builder, or nothing, followed by one
    slash or more. *)
Definition scanned (h : heap) (mux : ptr) (s : string) : Prop :=
  ∃ x k, s = x +:+ slashes (S k)
         ∧ (x = "" ∨ ∃ p np, p ≠ mux ∧ h !! p = Some np ∧ x = patternPrefix np).

End ProtoClosed.

(** ** Programs that configure a tree *)

Module Script.
Import ServeMuxBuilder.

(** A call of the configuration API on a builder that the program holds. *)
Inductive call :=
  | CallPrefix (b : ptr) (prefix : string)
  | CallUse (b : ptr) (middleware : list Middleware)
  | CallPattern (b : ptr) (patterns : gmap string Handler)
  | CallSubrouter (b : ptr).

(** The receiver of a call. *)
Definition receiver (c : call) : ptr :=
  match c with
  | CallPrefix b _ | CallUse b _ | CallPattern b _ | CallSubrouter b => b
  end.

(** A program holds pointers to allocated builders only: a call on another
    pointer is the end of the run. *)
Definition do_call (c : call) : M (node:=node) unit :=
  _ ← get Root (receiver c);
  match c with
  | CallPrefix b prefix => Prefix b prefix
  | CallUse b middleware => Use b middleware
  | CallPattern b patterns => Pattern b patterns
  | CallSubrouter b => _ ← Subrouter b; mret tt
  end.

(** [NewServeMuxBuilder()] once, then the calls in sequence: the root is
    the builder [0] and the subrouters are numbered in the order of their
    creation. *)
Definition configure (calls : list call) : option heap :=
  exec (_ ← NewServeMuxBuilder; for_each calls do_call) [].

(** The shape of a heap that [configure] leaves.  The builder [0] is the root
    of every builder and its own parent; the parent of another builder was
    made before it and holds it in its list of subrouters; a list of
    subrouters holds the builder itself and builders made from it; nothing is
    built yet. *)
Definition tree_node (h : heap) (p : ptr) (n : node) : Prop :=
  Root n = 0
  ∧ executedBuild n = false ∧ registeredPatterns n = []
  ∧ (p = 0 → Parent n = 0)
  ∧ (p ≠ 0 → Parent n < p ∧ ∃ parent, h !! Parent n = Some parent
                                       ∧ p ∈ SubServeMuxBuilder parent)
  ∧ ∀ c, c ∈ SubServeMuxBuilder n →
         c = p ∨ (c ≠ 0 ∧ ∃ child, h !! c = Some child ∧ Parent child = p).

Definition tree (h : heap) : Prop :=
  0 < length h ∧ ∀ p n, h !! p = Some n → tree_node h p n.

End Script.

(** ** Configurations used as examples *)

Module Examples.

(** A root builder with the prefix ["/v1"], alone in the heap. *)
Definition one_root : ServeMuxBuilder.heap :=
  [ServeMuxBuilder.mkNode ∅ "/v1" [] 0 0 [] false []].

(** The root builder after [Pattern] has registered ["GET /ping"]: it is
    in its own list of subrouters. *)
Definition looped : ServeMuxBuilder.heap :=
  [ServeMuxBuilder.mkNode {["GET /v1/ping" := say "pong"]} "/v1" [] 0 0 [0] false []].

Definition proto_looped : XXSMux.heap :=
  [XXSMux.mkNode {["/v1/ping" := say "pong"]} "/v1" [] (Some 0) (Some 0) [0]].

Section WithServeMuxBuilder.
Import ServeMuxBuilder.

(** Root [Prefix("v1")], a subrouter [Prefix("v2/{id}")], a subrouter of
    that one [Prefix("foobar")], and one registration on the last.
    [early] tells whether the middle builder registers a pattern before, as
    it does in the [main] of the prototype. *)
Definition chain (early : bool) : M (node:=node) ptr :=
  root ← NewServeMuxBuilder;
  Prefix root "v1";;
  child ← Subrouter root;
  Prefix child "v2/{id}";;
  (if early then Pattern child {["GET /test" := say "test"]} else mret tt);;
  grandchild ← Subrouter child;
  Prefix grandchild "foobar";;
  Pattern grandchild {["GET /x" := say "x"]};;
  mret grandchild.

(** The registered keys of the builder that a configuration returns. *)
Definition keys_of (r : option (ptr * heap)) : list string :=
  match r with
  | Some (b, h) =>
      match h !! b with
      | Some n => elements (dom (Patterns n))
      | None => []
      end
  | None => []
  end.

(** Two builders that register the same method and path:
    root [Prefix("v1")] with ["GET /admin/x"], and a subrouter
    [Prefix("admin")] with ["GET /x"]. *)
Definition collision : M (node:=node) ptr :=
  root ← NewServeMuxBuilder;
  Prefix root "v1";;
  Pattern root {["GET /admin/x" := say "root"]};;
  child ← Subrouter root;
  Prefix child "admin";;
  Pattern child {["GET /x" := say "child"]};;
  mret root.

(** Root [Use(A)], a subrouter [Use(B)], and a subrouter of that one: the
    middle builder and the new one. *)
Definition inherit : M (node:=node) (ptr * ptr) :=
  root ← NewServeMuxBuilder;
  Use root [announce "A"];;
  child ← Subrouter root;
  Use child [announce "B"];;
  grandchild ← Subrouter child;
  mret (child, grandchild).

Definition Middlewares_of (h : heap) (b : ptr) : list Middleware :=
  match h !! b with
  | Some n => Middlewares n
  | None => []
  end.

(** The heap that [collision] leaves: both builders hold the key
    ["GET /v1/admin/x"]. *)
Definition collision_root : node :=
  mkNode {["GET /v1/admin/x" := say "root"]} "/v1" [] 0 0 [0; 1] false [].
Definition collision_child : node :=
  mkNode {["GET /v1/admin/x" := say "child"]} "/v1/admin" [] 0 0 [1] false [].
Definition collision_heap : heap := [collision_root; collision_child].

(** A root after [Prefix("v1")] and its subrouter after [Prefix("admin")],
    before any [Pattern]. *)
Definition plain_root : node := mkNode ∅ "/v1" [] 0 0 [1] false [].
Definition plain_child : node := mkNode ∅ "/admin" [] 0 0 [] false [].
Definition plain_heap : heap := [plain_root; plain_child].

(** The calls of [collision] as a program. *)
Definition collision_calls : list Script.call :=
  [Script.CallPrefix 0 "v1";
   Script.CallPattern 0 {["GET /admin/x" := say "root"]};
   Script.CallSubrouter 0;
   Script.CallPrefix 1 "admin";
   Script.CallPattern 1 {["GET /x" := say "child"]}].

End WithServeMuxBuilder.

Section WithXXSMux.
Import XXSMux.

(** The same chain of three builders on the prototype. *)
Definition proto_chain (early : bool) : M (node:=node) ptr :=
  root ← NewRouter;
  Prefix root "v1";;
  child ← Subrouter root;
  Prefix child "v2/{id}";;
  (if early then Pattern child {["GET /test" := say "test"]} else mret tt);;
  grandchild ← Subrouter child;
  Prefix grandchild "foobar";;
  Pattern grandchild {["GET /x" := say "x"]};;
  mret grandchild.

Definition proto_keys_of (r : option (ptr * heap)) : list string :=
  match r with
  | Some (b, h) =>
      match h !! b with
      | Some n => elements (dom (patterns n))
      | None => []
      end
  | None => []
  end.

(** Root [Use(A)], a subrouter [Use(B)], and a subrouter of that one: the
    middlewares of the parent and of the new builder. *)
Definition proto_inherit : M (node:=node) (ptr * ptr) :=
  root ← NewRouter;
  Use root [announce "A"];;
  child ← Subrouter root;
  Use child [announce "B"];;
  grandchild ← Subrouter child;
  mret (child, grandchild).

Definition middlewares_of (h : heap) (b : ptr) : list Middleware :=
  match h !! b with
  | Some n => middlewares n
  | None => []
  end.

End WithXXSMux.

End Examples.

(** * Properties *)

(** ** Strings *)

Section StringFacts.

Lemma append_cons (c : ascii) (s t : string) :
  String c s +:+ t = String c (s +:+ t).
Proof. reflexivity. Qed.

Lemma append_nil_r (s : string) : s +:+ "" = s.
Proof. induction s as [|c s IH]; [done | by rewrite append_cons, IH]. Qed.

Lemma append_assoc (s t u : string) : (s +:+ t) +:+ u = s +:+ t +:+ u.
Proof. induction s as [|c s IH]; [done | by rewrite !append_cons, IH]. Qed.

Lemma append_length (s t : string) :
  String.length (s +:+ t) = String.length s + String.length t.
Proof. induction s as [|c s IH]; [done | by rewrite append_cons; simpl; rewrite IH]. Qed.

Lemma Split_not_nil (s : string) (sep : ascii) : Split s sep ≠ [].
Proof.
  destruct s as [|c s]; simpl; [done |].
  destruct (Ascii.eqb c sep); [done |].
  by destruct (Split s sep).
Qed.

Lemma removeDoubleSlash_cons (c c' : ascii) (r : string) :
  removeDoubleSlash (String c (String c' r))
  = if Ascii.eqb c "/"%char && Ascii.eqb c' "/"%char
    then removeDoubleSlash (String c' r)
    else String c (removeDoubleSlash (String c' r)).
Proof. reflexivity. Qed.

(** The result of [removeDoubleSlash] starts with a slash exactly when the
    text does. *)
Lemma removeDoubleSlash_starts (text : string) :
  starts_with "/"%char (removeDoubleSlash text) = starts_with "/"%char text.
Proof.
  induction text as [|c rest IH]; [done |].
  destruct rest as [|c' r]; [done |].
  rewrite removeDoubleSlash_cons.
  destruct (Ascii.eqb_spec c "/"%char) as [->|Hc];
    destruct (Ascii.eqb_spec c' "/"%char) as [->|Hc']; cbn [andb];
    try (rewrite IH; reflexivity); reflexivity.
Qed.

(** No two slashes in a row are left. *)
Lemma removeDoubleSlash_no_double (text : string) :
  has_double_slash (removeDoubleSlash text) = false.
Proof.
  induction text as [|c rest IH]; [done |].
  destruct rest as [|c' r].
  - simpl. by rewrite andb_false_r.
  - rewrite removeDoubleSlash_cons.
    destruct (Ascii.eqb c "/"%char && Ascii.eqb c' "/"%char) eqn:Hcc; [exact IH |].
    cbn [has_double_slash]. rewrite IH, orb_false_r.
    rewrite removeDoubleSlash_starts. cbn [starts_with].
    apply andb_false_iff in Hcc as [->| ->]; [done | apply andb_false_r].
Qed.

(** A text without two slashes in a row is left as it is. *)
Lemma removeDoubleSlash_id (text : string) :
  has_double_slash text = false → removeDoubleSlash text = text.
Proof.
  induction text as [|c rest IH]; [done |].
  destruct rest as [|c' r]; [done |].
  cbn [has_double_slash starts_with]. intros [Hcc Hrest]%orb_false_iff.
  rewrite removeDoubleSlash_cons, Hcc. by rewrite (IH Hrest).
Qed.

Lemma with_leading_slash_spec (prefix : string) :
  (if bool_decide (0 < String.length prefix) then
     if negb (starts_with "/"%char prefix) then "/" +:+ prefix else prefix
   else prefix) = Spec.with_leading_slash prefix.
Proof.
  destruct prefix as [|c p]; [done |].
  rewrite bool_decide_eq_true_2 by (simpl; lia).
  simpl. by destruct (Ascii.eqb c "/"%char).
Qed.

End StringFacts.

(** ** Middleware composition *)

Section Composition.

(** Both [newHandler] loops nest the middlewares with the first one
    outermost. *)
Lemma Mux_newHandler_loop_take (mw : list Middleware) (n : nat) (h : Handler) :
  (n ≤ length mw)%nat →
  Mux.newHandler_loop mw n h = foldr (λ m next, m next) h (take n mw).
Proof.
  revert h. induction n as [|i IH]; intros h Hn; [done |].
  destruct (lookup_lt_is_Some_2 mw i) as [m Hm]; [lia |].
  simpl. unfold Middleware in *. rewrite Hm, IH by lia.
  rewrite (take_S_r _ _ _ Hm), foldr_app. done.
Qed.

Lemma Mux_newHandler_nested (mw : list Middleware) (h : Handler) :
  Mux.newHandler mw h = foldr (λ m next, m next) h mw.
Proof.
  unfold Mux.newHandler. rewrite Mux_newHandler_loop_take by done.
  by rewrite firstn_all.
Qed.

Lemma newHandler_loop_take (mw : list Middleware) (n : nat) (h : Handler) :
  (n ≤ length mw)%nat →
  ServeMuxBuilder.newHandler_loop mw n h = foldr (λ m next, m next) h (take n mw).
Proof.
  revert h. induction n as [|i IH]; intros h Hn; [done |].
  destruct (lookup_lt_is_Some_2 mw i) as [m Hm]; [lia |].
  simpl. unfold Middleware in *. rewrite Hm, IH by lia.
  rewrite (take_S_r _ _ _ Hm), foldr_app. done.
Qed.

Lemma newHandler_nested (mw : list Middleware) (h : Handler) :
  ServeMuxBuilder.newHandler mw h = foldr (λ m next, m next) h mw.
Proof.
  unfold ServeMuxBuilder.newHandler. rewrite newHandler_loop_take by done.
  by rewrite firstn_all.
Qed.

Lemma nested_announce (lines : list string) (h : Handler) r w :
  foldr (λ m next, m next) h (announce <$> lines) r w = h r (w ++ lines).
Proof.
  revert w. induction lines as [|l lines IH]; intros w; simpl.
  - by rewrite app_nil_r.
  - unfold announce at 1. rewrite IH, <- app_assoc. done.
Qed.

(** On a request, the middlewares composed by [newHandler] write in the
    order of the list, and the handler writes last. *)
Lemma newHandler_order (lines : list string) (last : string) r w :
  ServeMuxBuilder.newHandler (announce <$> lines) (say last) r w
  = w ++ lines ++ [last].
Proof.
  rewrite newHandler_nested, nested_announce. unfold say.
  by rewrite <- app_assoc.
Qed.

Lemma Mux_newHandler_order (lines : list string) (last : string) r w :
  Mux.newHandler (announce <$> lines) (say last) r w = w ++ lines ++ [last].
Proof.
  rewrite Mux_newHandler_nested, nested_announce. unfold say.
  by rewrite <- app_assoc.
Qed.

(** main.go's [NewHandler] wraps from the front of the list: the last
    middleware ends up outermost. *)
Lemma NewHandler_nested (mw : list Middleware) (h : Handler) :
  XXSMux.NewHandler mw h = foldr (λ m next, m next) h (reverse mw).
Proof.
  unfold XXSMux.NewHandler. revert h.
  induction mw as [|m mw IH]; intros h; [done |].
  simpl. rewrite IH, reverse_cons, foldr_app. done.
Qed.

Lemma NewHandler_order (lines : list string) (last : string) r w :
  XXSMux.NewHandler (announce <$> lines) (say last) r w
  = w ++ reverse lines ++ [last].
Proof.
  rewrite NewHandler_nested, <- fmap_reverse, nested_announce. unfold say.
  by rewrite <- app_assoc.
Qed.

(** C3.  The execution order of a composed chain must be [m0], [m1], ...,
    then the handler.  The two [newHandler] of muxify.go give that order;
    [NewHandler] of main.go, run on three middlewares that each write a line
    before they call the next handler, runs the last middleware first. *)
Theorem NewHandler_runs_last_middleware_first :
  XXSMux.NewHandler [announce "m0"; announce "m1"; announce "m2"] (say "h") "/" []
    = ["m2"; "m1"; "m0"; "h"]
  ∧ ServeMuxBuilder.newHandler [announce "m0"; announce "m1"; announce "m2"] (say "h") "/" []
    = ["m0"; "m1"; "m2"; "h"]
  ∧ Mux.newHandler [announce "m0"; announce "m1"; announce "m2"] (say "h") "/" []
    = ["m0"; "m1"; "m2"; "h"].
Proof.
  split; [|split].
  - exact (NewHandler_order ["m0"; "m1"; "m2"] "h" "/" []).
  - exact (newHandler_order ["m0"; "m1"; "m2"] "h" "/" []).
  - exact (Mux_newHandler_order ["m0"; "m1"; "m2"] "h" "/" []).
Qed.

End Composition.

(** ** The heap monad *)

Section HeapFacts.
Context {node : Type}.
Implicit Types (h : list node) (b : nat).

Lemma bind_eq {A B} (m : M (node:=node) A) (k : A → M B) h :
  (m ≫= k) h = match m h with Some (a, h') => k a h' | None => None end.
Proof. reflexivity. Qed.

Lemma ret_eq {A} (a : A) h : (mret a : M (node:=node) A) h = Some (a, h).
Proof. reflexivity. Qed.

Lemma get_eq {A} (f : node → A) b h n :
  h !! b = Some n → get f b h = Some (f n, h).
Proof. unfold get. by intros ->. Qed.

Lemma modify_eq b (f : node → node) h n :
  h !! b = Some n → modify b f h = Some (tt, <[b := f n]> h).
Proof. unfold modify. by intros ->. Qed.

Lemma for_each_cons {A} (x : A) (l : list A) (body : A → M (node:=node) unit) h :
  for_each (x :: l) body h
  = match body x h with Some (_, h') => for_each l body h' | None => None end.
Proof. reflexivity. Qed.

(** A node written and read back. *)
Lemma lookup_written b h n n' :
  h !! b = Some n → <[b := n']> h !! b = Some n'.
Proof. intros Hb. apply list_lookup_insert_eq. by eapply lookup_lt_Some. Qed.

End HeapFacts.

(** One step of a computation: unfold the bind and reduce the match on the
    result of the first action. *)
Ltac heap_simpl := repeat first [ rewrite bind_eq | progress cbv beta iota ].
Ltac heap_simpl_in H :=
  repeat first [ rewrite bind_eq in H | progress cbv beta iota in H ].

(** ** [ServeMuxBuilder]: the configuration calls *)

Section Configuration.
Import ServeMuxBuilder Closed.
Implicit Types (h : heap) (b : ptr) (n : node).

Lemma set_PatternPrefix_twice p q n :
  set_PatternPrefix p (set_PatternPrefix q n) = set_PatternPrefix p n.
Proof. reflexivity. Qed.

Lemma wf_lookup h p n :
  wf h → h !! p = Some n →
  Root n < length h ∧ Parent n < length h
  ∧ Forall (λ c, c < length h) (SubServeMuxBuilder n).
Proof. intros Hwf Hp. exact (proj1 (Forall_lookup _ _) Hwf _ _ Hp). Qed.

(** While [Pattern] scans, the heap is the one it started from with another
    prefix in [b]: a read at [p] then yields [prefix_at]. *)
Lemma get_PatternPrefix_scanning h b n cur p :
  h !! b = Some n → p < length h →
  get PatternPrefix p (<[b := set_PatternPrefix cur n]> h)
  = Some (prefix_at h b cur p, <[b := set_PatternPrefix cur n]> h).
Proof.
  intros Hb Hp. unfold prefix_at. case_bool_decide as Hpb.
  - subst p. by rewrite (get_eq _ _ _ _ (lookup_written _ _ _ _ Hb)).
  - destruct (lookup_lt_is_Some_2 h p Hp) as [n' Hn'].
    rewrite (get_eq _ _ _ n') by (by rewrite list_lookup_insert_ne).
    by rewrite Hn'.
Qed.

Lemma get_pointers_scanning {A} (f : node → A) h b n cur p :
  h !! b = Some n →
  (∀ n, f (set_PatternPrefix cur n) = f n) →
  get f p (<[b := set_PatternPrefix cur n]> h)
  = match h !! p with
    | Some n' => Some (f n', <[b := set_PatternPrefix cur n]> h)
    | None => None
    end.
Proof.
  intros Hb Hf. unfold get. destruct (decide (p = b)) as [->|Hpb].
  - by rewrite (lookup_written _ _ _ _ Hb), Hb, Hf.
  - by rewrite list_lookup_insert_ne.
Qed.

Lemma modify_scanning h b n cur p :
  h !! b = Some n →
  modify b (set_PatternPrefix p) (<[b := set_PatternPrefix cur n]> h)
  = Some (tt, <[b := set_PatternPrefix p n]> h).
Proof.
  intros Hb. rewrite (modify_eq _ _ _ _ (lookup_written _ _ _ _ Hb)).
  by rewrite list_insert_insert_eq.
Qed.

(** The inner loop of [Pattern] *)
Lemma Pattern_inner_loop h b n cur (l : list ptr) :
  h !! b = Some n → Forall (λ c, c < length h) l →
  for_each l (λ subSubBuilder,
      p ← get PatternPrefix subSubBuilder;
      modify b (set_PatternPrefix p))
    (<[b := set_PatternPrefix cur n]> h)
  = Some (tt, <[b := set_PatternPrefix (scan h b cur l) n]> h).
Proof.
  intros Hb. revert cur. induction l as [|p l IH]; intros cur Hl; [done |].
  apply Forall_cons in Hl as [Hp Hl].
  rewrite for_each_cons, bind_eq, get_PatternPrefix_scanning by done.
  rewrite modify_scanning by done. by rewrite IH.
Qed.

(** The outer loop of [Pattern] *)
Lemma Pattern_outer_loop h b n cur (l : list ptr) :
  wf h → h !! b = Some n → Forall (λ c, c < length h) l →
  for_each l (λ subBuilder,
      parent ← get Parent b;
      root ← get Root b;
      if bool_decide (parent ≠ root) then
        subSubBuilders ← get SubServeMuxBuilder subBuilder;
        for_each subSubBuilders (λ subSubBuilder,
          p ← get PatternPrefix subSubBuilder;
          modify b (set_PatternPrefix p))
      else mret tt)
    (<[b := set_PatternPrefix cur n]> h)
  = Some (tt, <[b := set_PatternPrefix
                   (if bool_decide (Parent n ≠ Root n) then
                      foldl (λ cur sub, scan h b cur (subrouters h sub)) cur l
                    else cur) n]> h).
Proof.
  intros Hwf Hb. revert cur. induction l as [|s l IH]; intros cur Hl.
  { by case_bool_decide. }
  apply Forall_cons in Hl as [Hs Hl].
  destruct (lookup_lt_is_Some_2 h s Hs) as [ns Hns].
  rewrite for_each_cons, bind_eq.
  rewrite (get_pointers_scanning _ _ _ _ _ _ Hb) by done. rewrite Hb. heap_simpl.
  rewrite (get_pointers_scanning _ _ _ _ _ _ Hb) by done. rewrite Hb. heap_simpl.
  case_bool_decide as Hpr.
  - heap_simpl.
    rewrite (get_pointers_scanning _ _ _ _ _ _ Hb) by done. rewrite Hns. heap_simpl.
    rewrite Pattern_inner_loop by (done || by eapply wf_lookup).
    rewrite IH by done. cbn [foldl].
    assert (subrouters h s = SubServeMuxBuilder ns) as ->
      by (unfold subrouters; by rewrite Hns).
    done.
  - rewrite ret_eq. heap_simpl. by rewrite IH by done.
Qed.

(** The loop of [Pattern] over the registrations *)
Lemma Pattern_store_loop h b n (entries : list (string * Handler)) :
  b < length h →
  for_each entries (λ '(pattern, handler),
      prefix ← get PatternPrefix b;
      modify b (λ n, set_Patterns
                       (<[pattern_key prefix pattern := handler]> (Patterns n)) n))
    (<[b := n]> h)
  = Some (tt, <[b := set_Patterns
                   (store_patterns (PatternPrefix n) entries (Patterns n)) n]> h).
Proof.
  intros Hb. revert n. induction entries as [|[p hd] entries IH]; intros n.
  { simpl. by destruct n. }
  rewrite for_each_cons, bind_eq.
  rewrite (get_eq _ _ _ n) by (by apply list_lookup_insert_eq).
  rewrite (modify_eq _ _ _ n) by (by apply list_lookup_insert_eq).
  rewrite list_insert_insert_eq, IH. done.
Qed.

Lemma store_patterns_cons prefix e entries (m : gmap string Handler) :
  store_patterns prefix (e :: entries) m
  = store_patterns prefix entries (<[pattern_key prefix e.1 := e.2]> m).
Proof. reflexivity. Qed.

Lemma store_patterns_dom prefix entries (m : gmap string Handler) k :
  k ∈ dom (store_patterns prefix entries m)
  ↔ k ∈ dom m ∨ ∃ e, e ∈ entries ∧ k = pattern_key prefix e.1.
Proof.
  revert m. induction entries as [|e entries IH]; intros m.
  { simpl. split; [auto | intros [?|(e & He & _)]; [done | by apply elem_of_nil in He]]. }
  rewrite store_patterns_cons, IH, dom_insert, elem_of_union, elem_of_singleton.
  split.
  - intros [[->|?]|(e' & He' & ->)]; [right; exists e | by left | right; exists e'];
      split; (done || by constructor).
  - intros [?|(e' & [->|He']%elem_of_cons & ->)]; [left; by right | left; by left |].
    right. by exists e'.
Qed.

(** [Pattern] in closed form: the prefix of [b] becomes the prefix that the
    scans leave followed by the prefix that [b] had, the registrations are
    stored under that prefix, and [b] becomes a subrouter of itself. *)
Lemma Pattern_closed h b n (patterns : gmap string Handler) :
  wf h → h !! b = Some n →
  Pattern b patterns h
  = Some (tt, <[b := mkNode
                   (store_patterns (Pattern_base h b +:+ PatternPrefix n)
                                   (map_to_list patterns) (Patterns n))
                   (Pattern_base h b +:+ PatternPrefix n)
                   (Middlewares n) (Root n) (Parent n)
                   (SubServeMuxBuilder n ++ [b])
                   (executedBuild n) (registeredPatterns n)]> h).
Proof.
  intros Hwf Hb.
  destruct (wf_lookup _ _ _ Hwf Hb) as (Hroot & Hparent & Hsubs).
  destruct (lookup_lt_is_Some_2 h _ Hparent) as [np Hnp].
  unfold Pattern. heap_simpl.
  rewrite (get_eq _ _ _ _ Hb). heap_simpl.
  rewrite (modify_eq _ _ _ _ Hb). heap_simpl.
  rewrite (get_pointers_scanning _ _ _ _ _ _ Hb) by done. rewrite Hb. heap_simpl.
  rewrite get_PatternPrefix_scanning by done. heap_simpl.
  rewrite modify_scanning by done. heap_simpl.
  rewrite (get_pointers_scanning _ _ _ _ _ _ Hb) by done. rewrite Hb. heap_simpl.
  rewrite (get_pointers_scanning _ _ _ _ _ _ Hb) by done. rewrite Hnp. heap_simpl.
  rewrite Pattern_outer_loop by (done || by eapply wf_lookup). heap_simpl.
  rewrite (modify_eq _ _ _ _ (lookup_written _ _ _ _ Hb)). heap_simpl.
  rewrite list_insert_insert_eq.
  rewrite Pattern_store_loop by (by eapply lookup_lt_Some). heap_simpl.
  rewrite (modify_eq _ _ _ _ (lookup_written _ _ _ _ Hb)).
  rewrite list_insert_insert_eq.
  unfold Pattern_base, subrouters. rewrite Hb, Hnp. reflexivity.
Qed.

(** [Prefix] and [Use] in closed form *)
Lemma Prefix_closed h b n (prefix : string) :
  h !! b = Some n →
  Prefix b prefix h
  = Some (tt, <[b := set_PatternPrefix (Spec.with_leading_slash prefix) n]> h).
Proof.
  intros Hb. unfold Prefix. rewrite with_leading_slash_spec.
  by rewrite (modify_eq _ _ _ _ Hb).
Qed.

Lemma Use_closed h b n (middleware : list Middleware) :
  h !! b = Some n →
  Use b middleware h
  = Some (tt, <[b := set_Middlewares (Middlewares n ++ middleware) n]> h).
Proof. intros Hb. unfold Use. by rewrite (modify_eq _ _ _ _ Hb). Qed.

(** Reads and writes next to a node that was just allocated *)
Lemma lookup_new h (x : node) : (h ++ [x]) !! length h = Some x.
Proof. by apply list_lookup_middle. Qed.

Lemma get_new {A} (f : node → A) h x :
  get f (length h) (h ++ [x]) = Some (f x, h ++ [x]).
Proof. apply get_eq, lookup_new. Qed.

Lemma modify_new (f : node → node) h x :
  modify (length h) f (h ++ [x]) = Some (tt, h ++ [f x]).
Proof.
  rewrite (modify_eq _ _ _ _ (lookup_new h x)).
  by rewrite <- (Nat.add_0_r (length h)), insert_app_r.
Qed.

Lemma get_old {A} (f : node → A) h b n x :
  h !! b = Some n → get f b (h ++ [x]) = Some (f n, h ++ [x]).
Proof. intros Hb. by apply get_eq, lookup_app_l_Some. Qed.

(** [Subrouter] in closed form: the new node is allocated at the end of the
    heap with the middlewares of [b], and [b] gets it as its last
    subrouter. *)
Lemma Subrouter_closed h b n :
  h !! b = Some n → Root n < length h →
  Subrouter b h
  = Some (length h,
          <[b := set_SubServeMuxBuilder (SubServeMuxBuilder n ++ [length h]) n]> h
          ++ [mkNode ∅ "" (Middlewares n) (Root n) b [] false []]).
Proof.
  intros Hb Hroot.
  destruct (lookup_lt_is_Some_2 h _ Hroot) as [nr Hnr].
  unfold Subrouter, NewServeMuxBuilder, alloc. heap_simpl.
  rewrite modify_new. heap_simpl.
  rewrite (get_old _ _ _ _ _ Hb). heap_simpl.
  rewrite modify_new. heap_simpl.
  rewrite get_new. heap_simpl.
  rewrite (get_old _ _ _ _ _ Hb). heap_simpl.
  change (Parent (set_Root _ _)) with b.
  assert (∀ mws, modify b (λ n0, set_SubServeMuxBuilder
                                   (SubServeMuxBuilder n0 ++ [length h]) n0)
                   (h ++ [mkNode ∅ "" mws (Root n) b [] false []])
                 = Some (tt, <[b := set_SubServeMuxBuilder
                                      (SubServeMuxBuilder n ++ [length h]) n]> h
                             ++ [mkNode ∅ "" mws (Root n) b [] false []])) as Hlast.
  { intros mws. rewrite (modify_eq _ _ _ n) by (by apply lookup_app_l_Some).
    rewrite insert_app_l by (by eapply lookup_lt_Some). done. }
  case_bool_decide as Hbr.
  - heap_simpl. rewrite (get_old _ _ _ _ _ Hb). heap_simpl.
    rewrite modify_new. heap_simpl.
    change (set_Middlewares _ _)
      with (mkNode ∅ "" (Middlewares n) (Root n) b [] false []).
    rewrite Hlast. heap_simpl. by rewrite ret_eq.
  - heap_simpl.
    rewrite (get_old _ _ _ _ _ Hnr). heap_simpl.
    rewrite modify_new. heap_simpl.
    assert (nr = n) as -> by (rewrite <- Hbr, Hb in Hnr; congruence).
    change (set_Middlewares _ _)
      with (mkNode ∅ "" (Middlewares n) (Root n) b [] false []).
    rewrite Hlast. heap_simpl. by rewrite ret_eq.
Qed.

(** *** Heaps stay well formed *)

Lemma wf_update h b n' :
  wf h →
  Root n' < length h → Parent n' < length h →
  Forall (λ c, c < length h) (SubServeMuxBuilder n') →
  wf (<[b := n']> h).
Proof.
  intros Hwf Hr Hp Hs. unfold wf in *. rewrite length_insert.
  apply Forall_insert; [done | by repeat split].
Qed.

Lemma wf_grow h x :
  wf h →
  (Root x ≤ length h)%nat → (Parent x ≤ length h)%nat →
  Forall (λ c, (c ≤ length h)%nat) (SubServeMuxBuilder x) →
  wf (h ++ [x]).
Proof.
  intros Hwf Hr Hp Hs. unfold wf in *. rewrite length_app, Forall_app. simpl.
  split.
  - eapply Forall_impl; [exact Hwf |]. intros n (? & ? & Hn). repeat split; [lia..|].
    eapply Forall_impl; [exact Hn |]. simpl. lia.
  - apply Forall_singleton. repeat split; [lia..|].
    eapply Forall_impl; [exact Hs |]. simpl. lia.
Qed.

Lemma wf_empty : wf [].
Proof. constructor. Qed.

Lemma wf_NewServeMuxBuilder h b h' :
  wf h → NewServeMuxBuilder h = Some (b, h') → wf h' ∧ b < length h'.
Proof.
  unfold NewServeMuxBuilder, alloc. intros Hwf [= <- <-]. split.
  - apply wf_grow; simpl; (done || lia).
  - rewrite length_app. simpl. lia.
Qed.

Lemma wf_Prefix h b prefix h' :
  wf h → exec (Prefix b prefix) h = Some h' → wf h' ∧ length h' = length h.
Proof.
  intros Hwf. unfold exec. destruct (h !! b) as [n|] eqn:Hb.
  - rewrite (Prefix_closed _ _ _ _ Hb). intros [= <-].
    destruct (wf_lookup _ _ _ Hwf Hb) as (? & ? & ?).
    split; [by apply wf_update | by rewrite length_insert].
  - unfold Prefix, modify. by rewrite Hb.
Qed.

Lemma wf_Use h b middleware h' :
  wf h → exec (Use b middleware) h = Some h' → wf h' ∧ length h' = length h.
Proof.
  intros Hwf. unfold exec. destruct (h !! b) as [n|] eqn:Hb.
  - rewrite (Use_closed _ _ _ _ Hb). intros [= <-].
    destruct (wf_lookup _ _ _ Hwf Hb) as (? & ? & ?).
    split; [by apply wf_update | by rewrite length_insert].
  - unfold Use, modify. by rewrite Hb.
Qed.

Lemma wf_Pattern h b patterns h' :
  wf h → exec (Pattern b patterns) h = Some h' → wf h' ∧ length h' = length h.
Proof.
  intros Hwf. unfold exec. destruct (h !! b) as [n|] eqn:Hb.
  - rewrite (Pattern_closed _ _ _ _ Hwf Hb). intros [= <-].
    destruct (wf_lookup _ _ _ Hwf Hb) as (? & ? & ?).
    split; [|by rewrite length_insert].
    apply wf_update; simpl; [done..|].
    apply Forall_app. split; [done |].
    apply Forall_singleton. by eapply lookup_lt_Some.
  - unfold Pattern. heap_simpl. unfold get at 1. by rewrite Hb.
Qed.

Lemma wf_Subrouter h b sub h' :
  wf h → b < length h → Subrouter b h = Some (sub, h') →
  wf h' ∧ sub = length h ∧ length h' = S (length h).
Proof.
  intros Hwf Hlt. destruct (lookup_lt_is_Some_2 h b Hlt) as [n Hb].
  destruct (wf_lookup _ _ _ Hwf Hb) as (Hr & Hp & Hs).
  rewrite (Subrouter_closed _ _ _ Hb Hr). intros [= <- <-].
  assert (length (<[b:=set_SubServeMuxBuilder
                        (SubServeMuxBuilder n ++ [length h]) n]> h
                  ++ [mkNode ∅ "" (Middlewares n) (Root n) b [] false []])
          = S (length h)) as Hlen
    by (rewrite length_app, length_insert; simpl; lia).
  split; [|done].
  unfold wf in *. rewrite Hlen. apply Forall_app. split.
  - apply Forall_insert.
    + eapply Forall_impl; [exact Hwf |]. intros m (? & ? & Hm).
      repeat split; [lia..|].
      eapply Forall_impl; [exact Hm |]. simpl. lia.
    + simpl. repeat split; [lia..|].
      apply Forall_app. split; [|apply Forall_singleton; lia].
      eapply Forall_impl; [exact Hs |]. simpl. lia.
  - apply Forall_singleton. simpl. repeat split; [lia..|constructor].
Qed.

(** *** Prefix *)

(** C7, as the claim states it, on [Mux]: a second [Prefix] does not
    replace the first. *)
Lemma Mux_Prefix_appends_counterexample :
  ¬ (∀ (mux : Mux.Mux) (p : string),
       Mux.patternPrefix (Mux.Prefix mux p) = Spec.with_leading_slash p).
Proof.
  intros Hclaim.
  specialize (Hclaim (Mux.Prefix (Mux.mkMux "" []) "v1") "v2").
  vm_compute in Hclaim. discriminate Hclaim.
Qed.

(** C7, amended.  [ServeMuxBuilder.Prefix] stores the prefix with a leading
    slash put before it when it is not empty and has none, and a second call
    replaces what the first stored; [Mux.Prefix] puts the slash in the same
    way and appends the result to the prefix the mux has. *)
Theorem Prefix_replaces_and_Mux_Prefix_appends h b n (p q : string) (mux : Mux.Mux) :
  h !! b = Some n →
  exec (Prefix b p) h
    = Some (<[b := set_PatternPrefix (Spec.with_leading_slash p) n]> h)
  ∧ exec (Prefix b p ≫= λ _, Prefix b q) h = exec (Prefix b q) h
  ∧ Mux.patternPrefix (Mux.Prefix mux p)
    = Mux.patternPrefix mux +:+ Spec.with_leading_slash p.
Proof.
  intros Hb. split; [|split].
  - unfold exec. by rewrite (Prefix_closed _ _ _ _ Hb).
  - unfold exec. rewrite bind_eq, !(Prefix_closed _ _ _ _ Hb).
    rewrite (Prefix_closed _ _ (set_PatternPrefix (Spec.with_leading_slash p) n))
      by (by eapply lookup_written).
    by rewrite list_insert_insert_eq.
  - unfold Mux.Prefix. by rewrite with_leading_slash_spec.
Qed.

Lemma Prefix_replaces_and_Mux_Prefix_appends_witness :
  Examples.one_root !! 0 = Some (mkNode ∅ "/v1" [] 0 0 [] false [])
  ∧ exec (Prefix 0 "v2") Examples.one_root
    = Some [mkNode ∅ "/v2" [] 0 0 [] false []]
  ∧ exec (Prefix 0 "v2" ≫= λ _, Prefix 0 "/v3") Examples.one_root
    = exec (Prefix 0 "/v3") Examples.one_root
  ∧ Mux.patternPrefix (Mux.Prefix (Mux.mkMux "/v1" []) "v2") = "/v1/v2".
Proof.
  split; [reflexivity |].
  apply (Prefix_replaces_and_Mux_Prefix_appends
           Examples.one_root 0 (mkNode ∅ "/v1" [] 0 0 [] false [])
           "v2" "/v3" (Mux.mkMux "/v1" [])).
  reflexivity.
Defined.

(** *** Registration strings and stored keys *)

(** [splitPattern] of the first version splits as the switch inside
    [Pattern] does, for every string. *)
Lemma splitPattern_method_and_path (pattern : string) :
  Mux.splitPattern pattern = method_and_path pattern.
Proof. reflexivity. Qed.

(** C5, as the claim states it: a registration that succeeds has a string
    of the shape ["METHOD /path"] or ["/path"]. *)
Lemma Pattern_checks_no_shape_counterexample :
  ¬ (∀ h b (patterns : gmap string Handler) (p : string),
       p ∈ dom patterns → is_Some (Pattern b patterns h) →
       Spec.valid_pattern p = true).
Proof.
  intros Hclaim.
  specialize (Hclaim Examples.one_root 0 {["GET ping" := say "pong"]} "GET ping").
  assert (Spec.valid_pattern "GET ping" = true) as Hvalid.
  { apply Hclaim; [set_solver |]. eexists. vm_compute. reflexivity. }
  vm_compute in Hvalid. discriminate Hvalid.
Qed.

(** C5, amended.  [Pattern] has no failure for a registration string: for
    every string of the map, whatever its shape, it stores the key made of
    the first field and a space, when the string has exactly two fields
    separated by one space, and of the prefix followed by the second field
    with runs of slashes collapsed; for any other number of fields the key
    is the prefix followed by the first field, without a method. *)
Theorem Pattern_accepts_every_string
    h b n (patterns : gmap string Handler) :
  wf h → h !! b = Some n →
  ∃ h' n',
    exec (Pattern b patterns) h = Some h' ∧ h' !! b = Some n'
    ∧ ∀ p, p ∈ dom patterns →
        pattern_key (PatternPrefix n') p ∈ dom (Patterns n')
        ∧ pattern_key (PatternPrefix n') p
          = match Split p " "%char with
            | [method; path] =>
                method +:+ " " +:+ removeDoubleSlash (PatternPrefix n' +:+ path)
            | path :: _ => removeDoubleSlash (PatternPrefix n' +:+ path)
            | [] => removeDoubleSlash (PatternPrefix n' +:+ "")
            end.
Proof.
  intros Hwf Hb. eexists _, _. unfold exec.
  rewrite (Pattern_closed _ _ _ _ Hwf Hb). split; [done |].
  split; [by eapply lookup_written |].
  intros p Hp. cbn [Patterns PatternPrefix]. split.
  - apply store_patterns_dom. right.
    apply elem_of_dom in Hp as [hd Hhd].
    exists (p, hd). split; [by apply elem_of_map_to_list | done].
  - unfold pattern_key, method_and_path.
    destruct (Split p " "%char) as [|f1 [|f2 [|f3 fs]]]; try done.
    by rewrite append_assoc.
Qed.

Lemma Pattern_accepts_every_string_witness :
  wf Examples.one_root
  ∧ Examples.one_root !! 0 = Some (mkNode ∅ "/v1" [] 0 0 [] false [])
  ∧ ∃ h' n',
      exec (Pattern 0 {["GET ping" := say "pong"]}) Examples.one_root = Some h'
      ∧ h' !! 0 = Some n'
      ∧ ∀ p, p ∈ dom ({["GET ping" := say "pong"]} : gmap string Handler) →
          pattern_key (PatternPrefix n') p ∈ dom (Patterns n')
          ∧ pattern_key (PatternPrefix n') p
            = match Split p " "%char with
              | [method; path] =>
                  method +:+ " " +:+ removeDoubleSlash (PatternPrefix n' +:+ path)
              | path :: _ => removeDoubleSlash (PatternPrefix n' +:+ path)
              | [] => removeDoubleSlash (PatternPrefix n' +:+ "")
              end.
Proof.
  assert (wf Examples.one_root) as Hwf.
  { apply Forall_singleton. simpl. repeat split; (lia || constructor). }
  split; [exact Hwf |]. split; [reflexivity |].
  apply (Pattern_accepts_every_string Examples.one_root 0
           (mkNode ∅ "/v1" [] 0 0 [] false []) _ Hwf).
  reflexivity.
Defined.

(** C8, as the claim states it, on [Mux.Handle]: the prefix ["/v1//"] and
    the suffix ["//test"] are registered as they are. *)
Lemma Mux_Handle_keeps_double_slash_counterexample :
  ¬ (∀ (mux : Mux.Mux) (pattern : string) (handler : Handler) st',
       Mux.Handle (H:=recording) mux pattern handler (Mux.NewMux (H:=recording)).2
         = Some st' →
       Forall (λ registered, has_double_slash registered = false)
              (Mux.registeredPatterns st')).
Proof.
  intros Hclaim.
  specialize (Hclaim (Mux.Prefix (Mux.NewMux (H:=recording)).1 "/v1//")
                     "//test" (say "test") _ eq_refl).
  vm_compute in Hclaim. apply Forall_cons in Hclaim as [Hdouble _].
  discriminate Hdouble.
Qed.

(** C8, amended.  In a key that [ServeMuxBuilder.Pattern] stores, the path
    that follows the method is the prefix of the builder followed by the
    suffix of the registration, with every run of slashes collapsed to one:
    no two slashes in a row are left, also where prefix and suffix meet, and
    ["/v1//"] with ["//test"] gives ["/v1/test"].  Every key of the builder
    after the call is an older one or such a key. *)
Theorem Pattern_paths_have_no_double_slash
    h b n (patterns : gmap string Handler) :
  wf h → h !! b = Some n →
  ∃ h' n',
    exec (Pattern b patterns) h = Some h' ∧ h' !! b = Some n'
    ∧ (∀ key, key ∈ dom (Patterns n') →
         key ∈ dom (Patterns n)
         ∨ ∃ p, p ∈ dom patterns
             ∧ key = (method_and_path p).1
                     +:+ removeDoubleSlash (PatternPrefix n' +:+ (method_and_path p).2))
    ∧ (∀ p, p ∈ dom patterns →
         (method_and_path p).1
           +:+ removeDoubleSlash (PatternPrefix n' +:+ (method_and_path p).2)
           ∈ dom (Patterns n')
         ∧ has_double_slash
             (removeDoubleSlash (PatternPrefix n' +:+ (method_and_path p).2)) = false)
    ∧ removeDoubleSlash ("/v1//" +:+ "//test") = "/v1/test".
Proof.
  intros Hwf Hb. eexists _, _. unfold exec.
  rewrite (Pattern_closed _ _ _ _ Hwf Hb). split; [done |].
  split; [by eapply lookup_written |].
  cbn [Patterns PatternPrefix].
  assert (∀ prefix p, pattern_key prefix p
            = (method_and_path p).1
              +:+ removeDoubleSlash (prefix +:+ (method_and_path p).2)) as Hkey.
  { intros prefix p. unfold pattern_key. by destruct (method_and_path p). }
  split; [|split; [|reflexivity]].
  - intros key [Hold|([p hd] & Hp & ->)]%store_patterns_dom; [by left | right].
    exists p. split; [|apply Hkey].
    apply elem_of_map_to_list in Hp. apply elem_of_dom. by exists hd.
  - intros p Hp. split; [|apply removeDoubleSlash_no_double].
    rewrite <- Hkey. apply store_patterns_dom. right.
    apply elem_of_dom in Hp as [hd Hhd].
    exists (p, hd). split; [by apply elem_of_map_to_list | done].
Qed.

Lemma Pattern_paths_have_no_double_slash_witness :
  wf [mkNode ∅ "/v1//" [] 0 0 [] false []]
  ∧ [mkNode ∅ "/v1//" [] 0 0 [] false []] !! 0
    = Some (mkNode ∅ "/v1//" [] 0 0 [] false [])
  ∧ ∃ h' n',
      exec (Pattern 0 {["GET //test" := say "test"]})
           [mkNode ∅ "/v1//" [] 0 0 [] false []] = Some h'
      ∧ h' !! 0 = Some n'
      ∧ (∀ key, key ∈ dom (Patterns n') →
           key ∈ dom (∅ : gmap string Handler)
           ∨ ∃ p, p ∈ dom ({["GET //test" := say "test"]} : gmap string Handler)
               ∧ key = (method_and_path p).1
                       +:+ removeDoubleSlash (PatternPrefix n' +:+ (method_and_path p).2))
      ∧ (∀ p, p ∈ dom ({["GET //test" := say "test"]} : gmap string Handler) →
           (method_and_path p).1
             +:+ removeDoubleSlash (PatternPrefix n' +:+ (method_and_path p).2)
             ∈ dom (Patterns n')
           ∧ has_double_slash
               (removeDoubleSlash (PatternPrefix n' +:+ (method_and_path p).2)) = false)
      ∧ removeDoubleSlash ("/v1//" +:+ "//test") = "/v1/test".
Proof.
  assert (wf [mkNode ∅ "/v1//" [] 0 0 [] false []]) as Hwf.
  { apply Forall_singleton. simpl. repeat split; (lia || constructor). }
  split; [exact Hwf |]. split; [reflexivity |].
  apply (Pattern_paths_have_no_double_slash
           [mkNode ∅ "/v1//" [] 0 0 [] false []] 0
           (mkNode ∅ "/v1//" [] 0 0 [] false []) _ Hwf).
  reflexivity.
Defined.

(** The example of the specification, with the call: the key stored for
    ["GET //test"] under the prefix ["/v1//"]. *)
Example Pattern_v1_test :
  Examples.keys_of
    ((Pattern 0 {["GET //test" := say "test"]} ≫= λ _, mret 0)
       [mkNode ∅ "/v1//" [] 0 0 [] false []])
  = ["GET /v1/test"].
Proof. reflexivity. Qed.

(** *** Middlewares of a subrouter *)

(** The new builder starts with the middlewares of the builder it is made
    from, whether that one is the root or not. *)
Lemma Subrouter_copies_middlewares h b n :
  wf h → h !! b = Some n →
  ∃ h' c,
    Subrouter b h = Some (length h, h') ∧ h' !! length h = Some c
    ∧ Middlewares c = Middlewares n ∧ Parent c = b ∧ Root c = Root n
    ∧ PatternPrefix c = "".
Proof.
  intros Hwf Hb. destruct (wf_lookup _ _ _ Hwf Hb) as (Hr & _ & _).
  eexists _, _. rewrite (Subrouter_closed _ _ _ Hb Hr). split; [done |].
  split; [apply list_lookup_middle; by rewrite length_insert | done].
Qed.

(** [Use] changes the builder it is called on and no other one. *)
Lemma Use_leaves_other_builders h a c (middleware : list Middleware) h' :
  a ≠ c → exec (Use a middleware) h = Some h' → h' !! c = h !! c.
Proof.
  intros Hac. unfold exec, Use, modify.
  destruct (h !! a) as [n|]; [|done]. intros [= <-].
  by apply list_lookup_insert_ne.
Qed.

(** The middlewares of a subrouter are a snapshot: a [Use] on the builder
    it was made from, after the fact, does not reach it, and reaches the
    next subrouter. *)
Lemma Subrouter_snapshot h b n (middleware : list Middleware) :
  wf h → h !! b = Some n →
  ∃ h1 h2 h3,
    Subrouter b h = Some (length h, h1)
    ∧ exec (Use b middleware) h1 = Some h2
    ∧ Subrouter b h2 = Some (S (length h), h3)
    ∧ Examples.Middlewares_of h3 (length h) = Middlewares n
    ∧ Examples.Middlewares_of h3 (S (length h)) = Middlewares n ++ middleware.
Proof.
  intros Hwf Hb.
  pose proof (lookup_lt_Some _ _ _ Hb) as Hlt.
  destruct (Subrouter_copies_middlewares _ _ _ Hwf Hb)
    as (h1 & c & Hsub & Hc & Hmw & _).
  destruct (wf_Subrouter _ _ _ _ Hwf Hlt Hsub) as (Hwf1 & _ & Hlen1).
  destruct (lookup_lt_is_Some_2 h1 b) as [n1 Hb1]; [lia |].
  assert (Middlewares n1 = Middlewares n) as Hn1.
  { destruct (wf_lookup _ _ _ Hwf Hb) as (Hr & _ & _).
    rewrite (Subrouter_closed _ _ _ Hb Hr) in Hsub. injection Hsub as <-.
    rewrite lookup_app_l in Hb1 by (by rewrite length_insert).
    rewrite list_lookup_insert_eq in Hb1 by done. by injection Hb1 as <-. }
  pose proof (Use_closed _ _ _ middleware Hb1) as Huse.
  set (h2 := <[b := set_Middlewares (Middlewares n1 ++ middleware) n1]> h1) in *.
  assert (exec (Use b middleware) h1 = Some h2) as Hexec
    by (unfold exec; by rewrite Huse).
  destruct (wf_Use _ _ _ _ Hwf1 Hexec) as (Hwf2 & Hlen2).
  assert (h2 !! b = Some (set_Middlewares (Middlewares n1 ++ middleware) n1)) as Hb2
    by (by eapply lookup_written).
  destruct (Subrouter_copies_middlewares _ _ _ Hwf2 Hb2)
    as (h3 & c' & Hsub' & Hc' & Hmw' & _).
  rewrite Hlen2, Hlen1 in Hsub', Hc'.
  exists h1, h2, h3. repeat split; [done..| |].
  - unfold Examples.Middlewares_of.
    assert (h3 !! length h = Some c) as ->; [|done].
    destruct (wf_lookup _ _ _ Hwf2 Hb2) as (Hr2 & _ & _).
    rewrite (Subrouter_closed _ _ _ Hb2 Hr2) in Hsub'. injection Hsub' as _ <-.
    rewrite lookup_app_l by (rewrite length_insert; lia).
    rewrite list_lookup_insert_ne by lia.
    unfold h2. rewrite list_lookup_insert_ne by lia. done.
  - unfold Examples.Middlewares_of. rewrite Hc', Hmw'. simpl. by rewrite Hn1.
Qed.

(** C6.  A subrouter must start with a copy of the middlewares of the
    builder it is made from.  [ServeMuxBuilder.Subrouter] does so;
    [XXSMux.Subrouter] of main.go copies the middlewares of the root: with
    [A] on the root and [B] added on its subrouter, a subrouter of that
    subrouter gets [A] alone. *)
Theorem proto_Subrouter_copies_root_middlewares :
  (∃ (proto : list XXSMux.node) child grandchild,
     Examples.proto_inherit [] = Some ((child, grandchild), proto)
     ∧ Examples.middlewares_of proto child = [announce "A"; announce "B"]
     ∧ Examples.middlewares_of proto grandchild = [announce "A"])
  ∧ (∃ h child grandchild,
       Examples.inherit [] = Some ((child, grandchild), h)
       ∧ Examples.Middlewares_of h child = [announce "A"; announce "B"]
       ∧ Examples.Middlewares_of h grandchild = [announce "A"; announce "B"]).
Proof.
  split; eexists _, _, _; (split; [vm_compute; reflexivity |]); split; reflexivity.
Qed.

(** *** The prefix that [Pattern] stores *)

(** C10, as the claim states it: after [Pattern] the stored prefix is no
    longer the one that [Prefix] set.  On the root builder it still is. *)
Lemma Pattern_on_root_keeps_prefix_counterexample :
  ¬ (∀ h b n (patterns : gmap string Handler) h' n',
       wf h → h !! b = Some n →
       exec (Pattern b patterns) h = Some h' → h' !! b = Some n' →
       PatternPrefix n' ≠ PatternPrefix n).
Proof.
  intros Hclaim.
  assert (wf Examples.one_root) as Hwf.
  { apply Forall_singleton. simpl. repeat split; (lia || constructor). }
  refine (Hclaim Examples.one_root 0 _ {["GET /ping" := say "pong"]} _ _
                 Hwf eq_refl eq_refl eq_refl _).
  reflexivity.
Qed.

(** The root builder: the scans leave the empty prefix. *)
Lemma Pattern_base_root h b n :
  h !! b = Some n → Root n = b → Parent n = b → Pattern_base h b = "".
Proof.
  intros Hb Hr Hp. unfold Pattern_base, prefix_at. rewrite Hb, Hr, Hp.
  rewrite bool_decide_eq_false_2 by (by intros []).
  by rewrite bool_decide_eq_true_2.
Qed.

(** A subrouter of the root: the scans leave the prefix of the root. *)
Lemma Pattern_base_child h b n r :
  h !! b = Some n → Root n ≠ b → Parent n = Root n → h !! Root n = Some r →
  Pattern_base h b = PatternPrefix r.
Proof.
  intros Hb Hr Hp Hroot. unfold Pattern_base, prefix_at. rewrite Hb, Hp, Hroot.
  rewrite bool_decide_eq_false_2 by (by intros []).
  by rewrite bool_decide_eq_false_2.
Qed.

(** [Pattern] overwrites the stored prefix of the builder with the prefix
    that its scans leave followed by the prefix stored before; on the root
    builder the scans leave the empty prefix.  A later [Pattern] starts from
    the stored prefix; a later [Subrouter] does not read it. *)
Lemma Pattern_stored_prefix
    h b n (patterns later : gmap string Handler) :
  wf h → h !! b = Some n →
  ∃ h' n' h'' n'' h3 c,
    exec (Pattern b patterns) h = Some h' ∧ h' !! b = Some n'
    ∧ PatternPrefix n' = Pattern_base h b +:+ PatternPrefix n
    ∧ (Root n = b → Parent n = b → PatternPrefix n' = PatternPrefix n)
    ∧ exec (Pattern b later) h' = Some h'' ∧ h'' !! b = Some n''
    ∧ PatternPrefix n''
      = Pattern_base h' b +:+ Pattern_base h b +:+ PatternPrefix n
    ∧ Subrouter b h' = Some (length h', h3) ∧ h3 !! length h' = Some c
    ∧ PatternPrefix c = "".
Proof.
  intros Hwf Hb.
  destruct (wf_Pattern h b patterns
              (<[b := mkNode
                   (store_patterns (Pattern_base h b +:+ PatternPrefix n)
                                   (map_to_list patterns) (Patterns n))
                   (Pattern_base h b +:+ PatternPrefix n)
                   (Middlewares n) (Root n) (Parent n)
                   (SubServeMuxBuilder n ++ [b])
                   (executedBuild n) (registeredPatterns n)]> h) Hwf)
    as [Hwf' _].
  { unfold exec. by rewrite (Pattern_closed _ _ _ _ Hwf Hb). }
  destruct (Subrouter_copies_middlewares _ _ _ Hwf' (lookup_written _ _ _ _ Hb))
    as (h3 & c & Hsub & Hc & _ & _ & _ & Hprefix).
  eexists _, _, _, _, h3, c. unfold exec.
  rewrite (Pattern_closed _ _ _ _ Hwf Hb).
  split; [done |]. split; [by eapply lookup_written |].
  split; [done |]. split.
  { intros Hr Hp. cbn [PatternPrefix]. by rewrite (Pattern_base_root _ _ _ Hb Hr Hp). }
  rewrite (Pattern_closed _ _ _ _ Hwf' (lookup_written _ _ _ _ Hb)).
  split; [done |]. split; [by eapply lookup_written, lookup_written |].
  done.
Qed.

(** *** The prefix under which [Pattern] registers *)

(** C1.  The prefix of a registration must be the join of the prefixes of
    the ancestor chain: ["/v1/v2/{id}/foobar"] for the chain ["v1"],
    ["v2/{id}"], ["foobar"].  [Pattern] on the third builder reaches the
    prefix of the second one only through the subrouter lists, where the
    second builder is once it has called [Pattern] itself: when it has not,
    the registration goes under ["/v1/foobar"] (["v1/foobar"] in the
    prototype). *)
Theorem Pattern_prefix_depends_on_earlier_calls :
  Spec.effective_prefix ["v1"; "v2/{id}"; "foobar"] = "/v1/v2/{id}/foobar"
  ∧ Examples.keys_of (Examples.chain false []) = ["GET /v1/foobar/x"]
  ∧ Examples.keys_of (Examples.chain true []) = ["GET /v1/v2/{id}/foobar/x"]
  ∧ Examples.proto_keys_of (Examples.proto_chain false []) = ["v1/foobar/x"]
  ∧ Examples.proto_keys_of (Examples.proto_chain true []) = ["v1/v2/{id}/foobar/x"].
Proof. repeat split; vm_compute; reflexivity. Qed.

End Configuration.

(** ** The traversal *)

Section TraversalFacts.
Import Traversal.
Variable children : nat → list nat.

Lemma weight_cons p candidates visited :
  weight children (p :: candidates) visited
  = (if bool_decide (p ∈ visited) then 0 else length (children p))
    + weight children candidates visited.
Proof. reflexivity. Qed.

(** Processing a builder takes its subrouters out of what is left. *)
Lemma weight_visit candidates visited c :
  NoDup candidates → c ∉ visited →
  weight children candidates ({[c]} ∪ visited)
  + (if bool_decide (c ∈ candidates) then length (children c) else 0)
  = weight children candidates visited.
Proof.
  intros Hnd Hc. induction candidates as [|p l IH]; [done |].
  apply NoDup_cons in Hnd as [Hp Hnd]. specialize (IH Hnd).
  rewrite !weight_cons. destruct (decide (p = c)) as [->|Hpc].
  - rewrite (bool_decide_eq_true_2 (c ∈ {[c]} ∪ visited)) by set_solver.
    rewrite (bool_decide_eq_false_2 (c ∈ visited)) by done.
    rewrite (bool_decide_eq_true_2 (c ∈ c :: l)) by set_solver.
    rewrite (bool_decide_eq_false_2 (c ∈ l)) in IH by done. lia.
  - rewrite (bool_decide_ext (p ∈ {[c]} ∪ visited) (p ∈ visited)).
    2:{ rewrite elem_of_union, elem_of_singleton. intuition congruence. }
    rewrite (bool_decide_ext (c ∈ p :: l) (c ∈ l)).
    2:{ rewrite elem_of_cons. intuition congruence. }
    lia.
Qed.

(** The loop ends within as many turns as the queue is long plus what is
    left to enqueue.  [bound] is the size of the heap. *)
Lemma bfs_enough_fuel (bound : nat) fuel queue visited :
  (∀ p, bound ≤ p → children p = []) →
  length queue + weight children (seq 0 bound) visited < fuel →
  is_Some (bfs children fuel queue visited).
Proof.
  intros Hbound. revert queue visited.
  induction fuel as [|fuel IH]; intros queue visited Hfuel; [lia |].
  destruct queue as [|c queue]; [by eexists |].
  cbn [bfs]. cbn [length] in Hfuel. case_bool_decide as Hc.
  - apply IH. lia.
  - pose proof (weight_visit (seq 0 bound) visited c (NoDup_seq _ _) Hc) as Hw.
    assert (length (children c)
            = if bool_decide (c ∈ seq 0 bound) then length (children c) else 0) as Hlen.
    { case_bool_decide as Hin; [done |].
      rewrite Hbound; [done |]. rewrite elem_of_seq in Hin. lia. }
    destruct (IH (queue ++ children c) ({[c]} ∪ visited)) as [o Ho].
    { rewrite length_app. lia. }
    rewrite Ho. by eexists.
Qed.

Lemma bfs_more_fuel fuel fuel' queue visited order :
  bfs children fuel queue visited = Some order → fuel ≤ fuel' →
  bfs children fuel' queue visited = Some order.
Proof.
  revert fuel' queue visited order.
  induction fuel as [|fuel IH]; intros fuel' queue visited order Hbfs Hle; [done |].
  destruct fuel' as [|fuel']; [lia |].
  destruct queue as [|c queue]; [done |].
  cbn [bfs] in *. case_bool_decide.
  - apply (IH fuel'); [done | lia].
  - destruct (bfs children fuel _ _) as [o|] eqn:Ho; [|done].
    rewrite (IH fuel' _ _ _ Ho) by lia. done.
Qed.

(** No builder is processed twice, and none that was processed before. *)
Lemma bfs_NoDup fuel queue visited order :
  bfs children fuel queue visited = Some order →
  NoDup order ∧ ∀ p, p ∈ order → p ∉ visited.
Proof.
  revert queue visited order.
  induction fuel as [|fuel IH]; intros queue visited order Hbfs; [done |].
  destruct queue as [|c queue].
  { injection Hbfs as <-. split; [constructor | set_solver]. }
  cbn [bfs] in Hbfs. case_bool_decide as Hc; [by eapply IH |].
  destruct (bfs children fuel _ _) as [o|] eqn:Ho; [|done].
  injection Hbfs as <-. destruct (IH _ _ _ Ho) as [Hnd Hnew]. split.
  - apply NoDup_cons. split; [|done]. intros Hin%Hnew.
    apply Hin, elem_of_union. left. by apply elem_of_singleton.
  - intros p [->|Hp]%elem_of_cons; [done |]. apply Hnew in Hp.
    intros Hv. apply Hp, elem_of_union. by right.
Qed.

(** Every builder of the queue is processed, now or before, and so are the
    subrouters of every builder that is processed. *)
Lemma bfs_closed fuel queue visited order :
  bfs children fuel queue visited = Some order →
  (∀ p, p ∈ queue → p ∈ visited ∨ p ∈ order)
  ∧ (∀ p c, p ∈ order → c ∈ children p → c ∈ visited ∨ c ∈ order).
Proof.
  revert queue visited order.
  induction fuel as [|fuel IH]; intros queue visited order Hbfs; [done |].
  destruct queue as [|c queue].
  { injection Hbfs as <-. split; [set_solver | set_solver]. }
  cbn [bfs] in Hbfs. case_bool_decide as Hc.
  - destruct (IH _ _ _ Hbfs) as [Hq Hcl]. split; [|done].
    intros p [->|Hp]%elem_of_cons; [by left | by apply Hq].
  - destruct (bfs children fuel _ _) as [o|] eqn:Ho; [|done].
    injection Hbfs as <-. destruct (IH _ _ _ Ho) as [Hq Hcl]. split.
    + intros p [->|Hp]%elem_of_cons; [right; by left |].
      destruct (Hq p) as [Hv|Hv];
        [apply elem_of_app; by left | | right; by right].
      apply elem_of_union in Hv as [->%elem_of_singleton|Hv];
        [right; by left | by left].
    + intros p c' [->|Hp]%elem_of_cons Hc'.
      * destruct (Hq c') as [Hv|Hv];
          [apply elem_of_app; by right | | right; by right].
        apply elem_of_union in Hv as [->%elem_of_singleton|Hv];
          [right; by left | by left].
      * destruct (Hcl p c' Hp Hc') as [Hv|Hv]; [| right; by right].
        apply elem_of_union in Hv as [->%elem_of_singleton|Hv];
          [right; by left | by left].
Qed.

(** From the root, every builder that the lists of subrouters lead to is
    processed. *)
Lemma bfs_reaches fuel r order p :
  bfs children fuel [r] ∅ = Some order → reaches children r p → p ∈ order.
Proof.
  intros Hbfs. destruct (bfs_closed _ _ _ _ Hbfs) as [Hq Hcl].
  unfold reaches. revert p. apply rtc_ind_r.
  - destruct (Hq r) as [?|?]; [by left | set_solver | done].
  - intros q c _ Hqc IH.
    destruct (Hcl q c IH Hqc) as [?|?]; [set_solver | done].
Qed.

End TraversalFacts.

Lemma bfs_ext (children children' : nat → list nat) fuel queue visited :
  (∀ p, children p = children' p) →
  Traversal.bfs children fuel queue visited = Traversal.bfs children' fuel queue visited.
Proof.
  intros Hext. revert queue visited.
  induction fuel as [|fuel IH]; intros queue visited; [done |].
  destruct queue as [|c queue]; [done |].
  cbn [Traversal.bfs]. by rewrite Hext, !IH.
Qed.

Section RegistrationFacts.
Import Traversal.
Context `{Dispatcher ServeMux}.

Lemma Handle_all_app (calls calls' : list (string * Handler)) mux log :
  Handle_all (calls ++ calls') mux log
  = match Handle_all calls mux log with
    | inl (mux', log') => Handle_all calls' mux' log'
    | inr panic => inr panic
    end.
Proof.
  revert mux log. induction calls as [|[p hd] calls IH]; intros mux log; [done |].
  cbn [Handle_all app]. destruct (Handle mux p hd); [apply IH | done].
Qed.

(** When no call panics, the log has grown by the patterns of the calls. *)
Lemma Handle_all_log (calls : list (string * Handler)) mux log mux' log' :
  Handle_all calls mux log = inl (mux', log') → log' = log ++ calls.*1.
Proof.
  revert mux log. induction calls as [|[p hd] calls IH]; intros mux log.
  - intros [= <- <-]. by rewrite app_nil_r.
  - cbn [Handle_all]. destruct (Handle mux p hd); [|done].
    intros ->%IH. by rewrite <- app_assoc.
Qed.

(** The dispatcher that was reached does not depend on the log. *)
Lemma Handle_all_mux (calls : list (string * Handler)) mux log log0 :
  match Handle_all calls mux log, Handle_all calls mux log0 with
  | inl (m, _), inl (m0, _) => m = m0
  | inr (p, _), inr (p0, _) => p = p0
  | _, _ => False
  end.
Proof.
  revert mux log log0.
  induction calls as [|[p hd] calls IH]; intros mux log log0; [done |].
  cbn [Handle_all]. destruct (Handle mux p hd); [apply IH | done].
Qed.

End RegistrationFacts.

(** The dispatcher that records accepts every call. *)
Lemma Handle_all_recording (calls : list (string * Handler)) mux log :
  Traversal.Handle_all (H:=recording) calls mux log
  = inl (mux ++ calls, log ++ calls.*1).
Proof.
  revert mux log. induction calls as [|[p hd] calls IH]; intros mux log.
  - by rewrite !app_nil_r.
  - cbn [Traversal.Handle_all Handle recording]. rewrite IH.
    by rewrite <- !app_assoc.
Qed.

(** ** [ServeMuxBuilder.Build] *)

Section Flattening.
Import ServeMuxBuilder Closed Traversal.
Context `{Dispatcher ServeMux}.
Implicit Types (h : heap) (b r : ptr) (n : node).

(** During [Build] the heap is the one at the start with a longer list of
    registered patterns in the root. *)
Lemma logged_lookup h r rn log p :
  h !! r = Some rn →
  logged h r log !! p
  = if decide (p = r) then Some (set_registeredPatterns log rn) else h !! p.
Proof.
  intros Hr. unfold logged. rewrite Hr. destruct (decide (p = r)) as [->|Hpr].
  - by eapply lookup_written.
  - by rewrite list_lookup_insert_ne.
Qed.

Lemma logged_lookup_Some h r rn log p n :
  h !! r = Some rn → h !! p = Some n →
  ∃ n', logged h r log !! p = Some n'
        ∧ Patterns n' = Patterns n ∧ Middlewares n' = Middlewares n
        ∧ Root n' = Root n ∧ SubServeMuxBuilder n' = SubServeMuxBuilder n.
Proof.
  intros Hr Hp. rewrite (logged_lookup _ _ _ _ _ Hr).
  destruct (decide (p = r)) as [->|Hpr]; [|by exists n].
  rewrite Hr in Hp. injection Hp as <-. by eexists.
Qed.

Lemma logged_again h r rn log log' :
  h !! r = Some rn →
  exec (modify r (λ n, set_registeredPatterns (registeredPatterns n ++ log') n))
       (logged h r log)
  = Some (logged h r (log ++ log')).
Proof.
  intros Hr. unfold exec.
  rewrite (modify_eq _ _ _ (set_registeredPatterns log rn))
    by (rewrite (logged_lookup _ _ _ _ _ Hr); by rewrite decide_True).
  unfold logged. rewrite Hr. simpl. by rewrite list_insert_insert_eq.
Qed.

Lemma logged_start h r rn :
  h !! r = Some rn → logged h r (registeredPatterns rn) = h.
Proof.
  intros Hr. unfold logged. rewrite Hr. apply list_insert_id.
  rewrite Hr. by destruct rn.
Qed.

(** The loop over the patterns of one builder *)
Lemma Build_register_closed h b nb rn current cur entries mux log :
  h !! b = Some nb → h !! Root nb = Some rn → h !! current = Some cur →
  Build_register b current entries mux (logged h (Root nb) log)
  = match Handle_all ((λ e, (e.1, newHandler (Middlewares cur) e.2)) <$> entries)
                     mux log with
    | inl (mux', log') => Built (logged h (Root nb) log') mux'
    | inr (pattern, log') => HandlePanic (logged h (Root nb) log') pattern
    end.
Proof.
  intros Hb Hr Hcur. revert mux log.
  induction entries as [|[p hd] entries IH]; intros mux log; [done |].
  cbn [Build_register fmap list_fmap Handle_all fst snd].
  destruct (logged_lookup_Some _ _ _ log _ _ Hr Hb) as (nb' & Hb' & _ & _ & Hroot & _).
  unfold exec at 1. rewrite bind_eq, (get_eq _ _ _ _ Hb'), Hroot.
  pose proof (logged_again h (Root nb) rn log [p] Hr) as Hlog.
  unfold exec in Hlog.
  destruct (modify (Root nb) _ (logged h (Root nb) log)) as [[[] h1]|] eqn:Hmod;
    [|done].
  cbn in Hlog. injection Hlog as ->. cbn [fmap option_fmap option_map snd].
  destruct (logged_lookup_Some _ _ _ (log ++ [p]) _ _ Hr Hcur)
    as (cur' & -> & _ & -> & _).
  destruct (Handle mux p _); [apply IH | done].
Qed.

(** The queue loop, when the turns suffice: the nested loops make the
    [Handle] calls of the builders of the traversal, one builder after the
    other. *)
Lemma Build_loop_closed h b nb rn fuel queue visited mux log order :
  wf h → h !! b = Some nb → h !! Root nb = Some rn →
  Forall (λ c, c < length h) queue →
  bfs (subrouters h) fuel queue visited = Some order →
  Build_loop fuel b queue visited mux (logged h (Root nb) log)
  = match Handle_all (flat_map (calls_of h) order) mux log with
    | inl (mux', log') => Built (logged h (Root nb) log') mux'
    | inr (pattern, log') => HandlePanic (logged h (Root nb) log') pattern
    end.
Proof.
  intros Hwf Hb Hr. revert queue visited mux log order.
  induction fuel as [|fuel IH]; intros queue visited mux log order Hq Hbfs; [done |].
  destruct queue as [|c queue].
  { injection Hbfs as <-. done. }
  apply Forall_cons in Hq as [Hc Hq].
  cbn [bfs Build_loop] in *. case_bool_decide as Hvisited; [by apply IH |].
  destruct (bfs _ fuel _ _) as [o|] eqn:Ho; [|done]. injection Hbfs as <-.
  destruct (lookup_lt_is_Some_2 h c Hc) as [cur Hcur].
  destruct (wf_lookup _ _ _ Hwf Hcur) as (_ & _ & Hsubs).
  destruct (logged_lookup_Some _ _ _ log _ _ Hr Hcur) as (cur' & -> & -> & _).
  rewrite (Build_register_closed _ _ _ _ _ _ _ _ _ Hb Hr Hcur).
  cbn [flat_map]. rewrite Handle_all_app.
  unfold calls_of at 1. rewrite Hcur.
  destruct (Handle_all _ mux log) as [[mux' log']|[pattern log']]; [|done].
  destruct (logged_lookup_Some _ _ _ log' _ _ Hr Hcur) as (cur'' & -> & _ & _ & _ & ->).
  apply IH.
  - apply Forall_app. by split.
  - unfold subrouters in Ho. by rewrite Hcur in Ho.
Qed.

(** [Build] in closed form, for every number of turns that lets the
    traversal end. *)
Lemma Build_within_closed h b nb fuel order :
  wf h → h !! b = Some nb →
  bfs (subrouters h) fuel [Root nb] ∅ = Some order →
  Build_within fuel b h = flatten h (Root nb) order.
Proof.
  intros Hwf Hb Hbfs.
  destruct (wf_lookup _ _ _ Hwf Hb) as (Hroot & _ & _).
  destruct (lookup_lt_is_Some_2 h _ Hroot) as [rn Hr].
  unfold Build_within, flatten. rewrite Hb, Hr.
  rewrite <- (logged_start h (Root nb) rn Hr) at 1.
  rewrite (Build_loop_closed h b nb rn fuel [Root nb] ∅ NewServeMux
             (registeredPatterns rn) order Hwf Hb Hr);
    [|by apply Forall_singleton | done].
  destruct (Handle_all _ _ _) as [[mux log]|[pattern log]].
  - destruct (logged_lookup_Some _ _ _ log _ _ Hr Hb) as (nb' & Hb' & _ & _ & Hroot' & _).
    unfold exec. rewrite bind_eq, (get_eq _ _ _ _ Hb'), Hroot'.
    rewrite (modify_eq _ _ _ (set_registeredPatterns log rn))
      by (rewrite (logged_lookup _ _ _ _ _ Hr); by rewrite decide_True).
    unfold logged. rewrite Hr. simpl. by rewrite list_insert_insert_eq.
  - unfold logged. by rewrite Hr.
Qed.

(** The turns that [Build] takes are enough. *)
Lemma subrouters_beyond h p : length h ≤ p → subrouters h p = [].
Proof. intros Hp. unfold subrouters. by rewrite lookup_ge_None_2. Qed.

Lemma weight_start h :
  weight (subrouters h) (seq 0 (length h)) ∅
  = sum_list (length ∘ SubServeMuxBuilder <$> h).
Proof.
  unfold weight. f_equal. apply list_eq. intros i.
  rewrite !list_lookup_fmap. destruct (h !! i) as [n|] eqn:Hi.
  - rewrite lookup_seq_lt by (by eapply lookup_lt_Some). simpl.
    unfold subrouters. by rewrite Hi.
  - rewrite lookup_seq_ge by (by apply lookup_ge_None). done.
Qed.

Lemma Build_fuel_enough h r fuel :
  Build_fuel h ≤ fuel → is_Some (bfs (subrouters h) fuel [r] ∅).
Proof.
  intros Hfuel. apply (bfs_enough_fuel _ (length h)).
  - apply subrouters_beyond.
  - rewrite weight_start. unfold Build_fuel in Hfuel. simpl. lia.
Qed.

(** C4, as the claim states it: a second [Build] is a failure that
    registers nothing.  On the root that registered ["GET /ping"], the
    second [Build] succeeds, registers the pattern into a new dispatcher and
    logs it a second time. *)
Lemma Build_twice_counterexample :
  ¬ (∀ h b h1 (mux1 : list (string * Handler)),
       Build (H:=recording) b h = Built h1 mux1 →
       ∀ h2 mux2, Build (H:=recording) b h1 ≠ Built h2 mux2).
Proof.
  intros Hclaim.
  refine (Hclaim Examples.looped 0 _ _ _ _ _ _); vm_compute; reflexivity.
Qed.

(** The fields that the traversal reads are those of the heap at the
    start. *)
Lemma subrouters_logged h r rn' p :
  (∀ rn, h !! r = Some rn → SubServeMuxBuilder rn' = SubServeMuxBuilder rn) →
  subrouters (<[r := rn']> h) p = subrouters h p.
Proof.
  intros Hsame. unfold subrouters. destruct (decide (p = r)) as [->|Hpr].
  - destruct (h !! r) as [rn|] eqn:Hr.
    + rewrite (lookup_written _ _ _ _ Hr). by apply Hsame.
    + rewrite list_insert_ge by (by apply lookup_ge_None). by rewrite Hr.
  - by rewrite list_lookup_insert_ne.
Qed.

Lemma calls_of_logged h r rn' p :
  (∀ rn, h !! r = Some rn →
         Patterns rn' = Patterns rn ∧ Middlewares rn' = Middlewares rn) →
  calls_of (<[r := rn']> h) p = calls_of h p.
Proof.
  intros Hsame. unfold calls_of. destruct (decide (p = r)) as [->|Hpr].
  - destruct (h !! r) as [rn|] eqn:Hr.
    + rewrite (lookup_written _ _ _ _ Hr).
      destruct (Hsame _ eq_refl) as [-> ->]. done.
    + rewrite list_insert_ge by (by apply lookup_ge_None). by rewrite Hr.
  - by rewrite list_lookup_insert_ne.
Qed.

Lemma Build_fuel_logged h r rn rn' :
  h !! r = Some rn → SubServeMuxBuilder rn' = SubServeMuxBuilder rn →
  Build_fuel (<[r := rn']> h) = Build_fuel h.
Proof.
  intros Hr Hsub. unfold Build_fuel. f_equal. f_equal.
  rewrite list_fmap_insert. apply list_insert_id.
  rewrite list_lookup_fmap, Hr. simpl. by rewrite Hsub.
Qed.

End Flattening.

(** *** Keys registered by more than one builder *)

Section Collisions.
Import ServeMuxBuilder Closed Traversal.
Implicit Types (h : heap) (b r : ptr) (n : node).


Lemma filter_flat_map_one {A B} (f : A → list B) (P : B → Prop)
    `{∀ e, Decision (P e)} (l : list A) x e :
  x ∈ l → e ∈ f x → P e → 1 ≤ length (filter P (flat_map f l)).
Proof.
  intros Hx He HP.
  assert (e ∈ filter P (flat_map f l)) as Hin.
  { apply list_elem_of_filter. split; [done |].
    apply list_elem_of_In, in_flat_map. exists x.
    split; by apply list_elem_of_In. }
  destruct (filter P (flat_map f l)); [by apply elem_of_nil in Hin | simpl; lia].
Qed.

Lemma filter_flat_map_two {A B} (f : A → list B) (P : B → Prop)
    `{∀ e, Decision (P e)} (l : list A) x y ex ey :
  x ∈ l → y ∈ l → x ≠ y → ex ∈ f x → P ex → ey ∈ f y → P ey →
  2 ≤ length (filter P (flat_map f l)).
Proof.
  intros Hx Hy Hxy Hex HPx Hey HPy.
  induction l as [|a l IH]; [by apply elem_of_nil in Hx |].
  cbn [flat_map]. rewrite filter_app, length_app.
  apply elem_of_cons in Hx as [->|Hx]; apply elem_of_cons in Hy as [Hy|Hy].
  - done.
  - pose proof (filter_flat_map_one f P [a] a ex) as H1.
    pose proof (filter_flat_map_one f P l y ey Hy Hey HPy) as H2.
    cbn [flat_map] in H1. rewrite app_nil_r in H1.
    specialize (H1 ltac:(by left) Hex HPx). lia.
  - subst a.
    pose proof (filter_flat_map_one f P [y] y ey) as H1.
    pose proof (filter_flat_map_one f P l x ex Hx Hex HPx) as H2.
    cbn [flat_map] in H1. rewrite app_nil_r in H1.
    specialize (H1 ltac:(by left) Hey HPy). lia.
  - specialize (IH Hx Hy). lia.
Qed.

Lemma calls_of_key h p n key :
  h !! p = Some n → key ∈ dom (Patterns n) →
  ∃ e, e ∈ calls_of h p ∧ e.1 = key.
Proof.
  intros Hp [hd Hhd]%elem_of_dom.
  exists (key, newHandler (Middlewares n) hd). split; [|done].
  unfold calls_of. rewrite Hp.
  apply (list_elem_of_fmap_2' _ _ (key, hd)); [|done].
  by apply elem_of_map_to_list.
Qed.

(** With a dispatcher that accepts every call, [Build] succeeds and the
    table holds the registrations of the builders of the traversal. *)
Lemma Build_recording h b n :
  wf h → h !! b = Some n →
  ∃ order rn,
    bfs (subrouters h) (Build_fuel h) [Root n] ∅ = Some order
    ∧ h !! Root n = Some rn
    ∧ Build (H:=recording) b h
      = Built (<[Root n := set_executedBuild true
                   (set_registeredPatterns
                      (registeredPatterns rn ++ (flat_map (calls_of h) order).*1) rn)]> h)
              (flat_map (calls_of h) order).
Proof.
  intros Hwf Hb.
  destruct (wf_lookup _ _ _ Hwf Hb) as (Hroot & _ & _).
  destruct (lookup_lt_is_Some_2 h _ Hroot) as [rn Hr].
  destruct (Build_fuel_enough h (Root n) (Build_fuel h)) as [order Hbfs]; [done |].
  exists order, rn. split; [done |]. split; [done |].
  unfold Build. rewrite (Build_within_closed _ _ _ _ _ Hwf Hb Hbfs).
  unfold flatten. rewrite Hr, Handle_all_recording. done.
Qed.

(** The configuration [collision] leaves the heap [collision_heap]. *)
Example collision_leaves_heap :
  exec Examples.collision [] = Some Examples.collision_heap.
Proof. vm_compute. reflexivity. Qed.

Lemma collision_heap_wf : wf Examples.collision_heap.
Proof.
  repeat (apply Forall_cons; split); try apply Forall_nil; simpl;
    repeat split; try lia; repeat (apply Forall_cons; split);
    try apply Forall_nil; lia.
Qed.



(** The root with prefix ["/v1"] and ["GET /admin/x"] and its subrouter with
    prefix ["admin"] and ["GET /x"] both hold ["GET /v1/admin/x"].  With a
    dispatcher that panics on a pattern it holds already, [Build] ends in
    that panic, on the second registration. *)
Example Build_collision_strict :
  ∃ h', Build (H:=strict) 0 Examples.collision_heap
        = HandlePanic h' "GET /v1/admin/x".
Proof. eexists. vm_compute. reflexivity. Qed.

End Collisions.

(** ** [XXSMux.Build] *)

Section ProtoFlattening.
Import XXSMux ProtoClosed Traversal.
Context `{Dispatcher ServeMux}.
Implicit Types (h : heap) (n : node).

(** The loop over the patterns of one builder *)
Lemma proto_Build_register_closed h current cur entries mux log :
  h !! current = Some cur →
  Build_register current entries mux h
  = match Handle_all ((λ e, (e.1, NewHandler (middlewares cur) e.2)) <$> entries)
                     mux log with
    | inl (mux', _) => Built mux'
    | inr (pattern, _) => HandlePanic pattern
    end.
Proof.
  intros Hcur. revert mux log.
  induction entries as [|[p hd] entries IH]; intros mux log; [done |].
  cbn [Build_register fmap list_fmap Handle_all fst snd]. rewrite Hcur.
  destruct (Handle mux p _); [apply IH | done].
Qed.

(** The queue loop, when the turns suffice *)
Lemma proto_Build_loop_closed h fuel queue visited mux log order :
  wf h → Forall (λ c, c < length h) queue →
  bfs (subrouters h) fuel queue visited = Some order →
  Build_loop fuel queue visited mux h
  = match Handle_all (flat_map (calls_of h) order) mux log with
    | inl (mux', _) => Built mux'
    | inr (pattern, _) => HandlePanic pattern
    end.
Proof.
  intros Hwf. revert queue visited mux log order.
  induction fuel as [|fuel IH]; intros queue visited mux log order Hq Hbfs; [done |].
  destruct queue as [|c queue].
  { injection Hbfs as <-. done. }
  apply Forall_cons in Hq as [Hc Hq].
  cbn [bfs Build_loop] in *. case_bool_decide as Hvisited; [by apply IH |].
  destruct (bfs _ fuel _ _) as [o|] eqn:Ho; [|done]. injection Hbfs as <-.
  destruct (lookup_lt_is_Some_2 h c Hc) as [cur Hcur].
  pose proof (proj1 (Forall_lookup _ _) Hwf _ _ Hcur) as Hsubs.
  rewrite Hcur. rewrite (proto_Build_register_closed _ _ _ _ _ log Hcur).
  cbn [flat_map]. rewrite Handle_all_app.
  unfold calls_of at 1. rewrite Hcur.
  destruct (Handle_all _ mux log) as [[mux' log']|[pattern log']]; [|done].
  apply IH.
  - apply Forall_app. by split.
  - unfold subrouters in Ho. by rewrite Hcur in Ho.
Qed.

Lemma proto_subrouters_beyond h p : length h ≤ p → subrouters h p = [].
Proof. intros Hp. unfold subrouters. by rewrite lookup_ge_None_2. Qed.

Lemma proto_weight_start h :
  weight (subrouters h) (seq 0 (length h)) ∅
  = sum_list (length ∘ subXXSMux <$> h).
Proof.
  unfold weight. f_equal. apply list_eq. intros i.
  rewrite !list_lookup_fmap. destruct (h !! i) as [n|] eqn:Hi.
  - rewrite lookup_seq_lt by (by eapply lookup_lt_Some). simpl.
    unfold subrouters. by rewrite Hi.
  - rewrite lookup_seq_ge by (by apply lookup_ge_None). done.
Qed.

Lemma proto_Build_fuel_enough h r fuel :
  Build_fuel h ≤ fuel → is_Some (bfs (subrouters h) fuel [r] ∅).
Proof.
  intros Hfuel. apply (bfs_enough_fuel _ (length h)).
  - apply proto_subrouters_beyond.
  - rewrite proto_weight_start. unfold Build_fuel in Hfuel. simpl. lia.
Qed.

End ProtoFlattening.

(** ** Termination of [Build] *)

Section Termination.
Import Traversal.
Context `{Dispatcher ServeMux}.

(** C9.  [Build] ends on every heap, also when builders are in their own
    lists of subrouters, as they are after [Pattern]: within the turns that
    [Build_fuel] counts the queue loop has emptied the queue, and more turns
    change nothing.  The builders it processed form a list without
    repetition that holds every builder reached from the root, and the
    [Handle] calls are those of the patterns of these builders, one builder
    after the other: the patterns of a builder are registered once.  This
    holds for [ServeMuxBuilder.Build] and for [XXSMux.Build]. *)
Theorem Build_terminates_visiting_once
    (h : list ServeMuxBuilder.node) (b : nat) (n : ServeMuxBuilder.node)
    (proto : list XXSMux.node) (mux : nat) (defaultServeMux : ServeMux) :
  Closed.wf h → h !! b = Some n → ProtoClosed.wf proto → mux < length proto →
  (∃ order,
     NoDup order
     ∧ (∀ p, reaches (Closed.subrouters h) (ServeMuxBuilder.Root n) p → p ∈ order)
     ∧ ∀ fuel, ServeMuxBuilder.Build_fuel h ≤ fuel →
         ServeMuxBuilder.Build_within fuel b h
           = Closed.flatten h (ServeMuxBuilder.Root n) order
         ∧ ServeMuxBuilder.Build_within fuel b h ≠ ServeMuxBuilder.OutOfFuel)
  ∧ (∃ order,
       NoDup order
       ∧ (∀ p, reaches (ProtoClosed.subrouters proto) mux p → p ∈ order)
       ∧ ∀ fuel, XXSMux.Build_fuel proto ≤ fuel →
           XXSMux.Build_within fuel mux defaultServeMux proto
             = ProtoClosed.flatten proto order defaultServeMux
           ∧ XXSMux.Build_within fuel mux defaultServeMux proto ≠ XXSMux.OutOfFuel).
Proof.
  intros Hwf Hb Hpwf Hmux. split.
  - destruct (Build_fuel_enough h (ServeMuxBuilder.Root n)
                (ServeMuxBuilder.Build_fuel h)) as [order Hbfs]; [done |].
    destruct (bfs_NoDup _ _ _ _ _ Hbfs) as [Hnd _].
    exists order. split; [done |]. split; [intros p; by eapply bfs_reaches |].
    intros fuel Hfuel.
    pose proof (bfs_more_fuel _ _ fuel _ _ _ Hbfs Hfuel) as Hbfs'.
    rewrite (Build_within_closed _ _ _ _ _ Hwf Hb Hbfs').
    split; [done |]. unfold Closed.flatten.
    destruct (h !! ServeMuxBuilder.Root n); [|done].
    by destruct (Handle_all _ _ _) as [[? ?]|[? ?]].
  - destruct (proto_Build_fuel_enough proto mux (XXSMux.Build_fuel proto))
      as [order Hbfs]; [done |].
    destruct (bfs_NoDup _ _ _ _ _ Hbfs) as [Hnd _].
    exists order. split; [done |]. split; [intros p; by eapply bfs_reaches |].
    intros fuel Hfuel.
    pose proof (bfs_more_fuel _ _ fuel _ _ _ Hbfs Hfuel) as Hbfs'.
    assert (Forall (λ c, c < length proto) [mux]) as Hq
      by (by apply Forall_singleton).
    unfold XXSMux.Build_within.
    rewrite (proto_Build_loop_closed proto fuel [mux] ∅ defaultServeMux [] order
               Hpwf Hq Hbfs').
    split; [done |]. unfold ProtoClosed.flatten.
    by destruct (Handle_all _ _ _) as [[? ?]|[? ?]].
Qed.

End Termination.

Lemma Build_terminates_visiting_once_witness :
  Closed.wf Examples.looped
  ∧ Examples.looped !! 0
    = Some (ServeMuxBuilder.mkNode {["GET /v1/ping" := say "pong"]} "/v1" [] 0 0 [0]
                                   false [])
  ∧ ProtoClosed.wf Examples.proto_looped
  ∧ 0 < length Examples.proto_looped
  ∧ (∃ order,
       NoDup order
       ∧ (∀ p, Traversal.reaches (Closed.subrouters Examples.looped) 0 p → p ∈ order)
       ∧ ∀ fuel, ServeMuxBuilder.Build_fuel Examples.looped ≤ fuel →
           ServeMuxBuilder.Build_within (H:=recording) fuel 0 Examples.looped
             = Closed.flatten (H:=recording) Examples.looped 0 order
           ∧ ServeMuxBuilder.Build_within (H:=recording) fuel 0 Examples.looped
             ≠ ServeMuxBuilder.OutOfFuel)
  ∧ (∃ order,
       NoDup order
       ∧ (∀ p, Traversal.reaches (ProtoClosed.subrouters Examples.proto_looped) 0 p
               → p ∈ order)
       ∧ ∀ fuel, XXSMux.Build_fuel Examples.proto_looped ≤ fuel →
           XXSMux.Build_within (H:=recording) fuel 0 [] Examples.proto_looped
             = ProtoClosed.flatten (H:=recording) Examples.proto_looped order []
           ∧ XXSMux.Build_within (H:=recording) fuel 0 [] Examples.proto_looped
             ≠ XXSMux.OutOfFuel).
Proof.
  assert (Closed.wf Examples.looped) as Hwf.
  { apply Forall_singleton. simpl. repeat split; try lia.
    apply Forall_singleton. lia. }
  assert (ProtoClosed.wf Examples.proto_looped) as Hpwf.
  { apply Forall_singleton. simpl. apply Forall_singleton. lia. }
  split; [exact Hwf |]. split; [reflexivity |]. split; [exact Hpwf |].
  split; [simpl; lia |].
  apply (Build_terminates_visiting_once (H:=recording) Examples.looped 0
           (ServeMuxBuilder.mkNode {["GET /v1/ping" := say "pong"]} "/v1" [] 0 0 [0]
                                   false [])
           Examples.proto_looped 0 [] Hwf eq_refl Hpwf).
  simpl. lia.
Defined.

(** The root that is in its own list of subrouters is processed once. *)
Example Build_looped :
  ∃ h', ServeMuxBuilder.Build (H:=recording) 0 Examples.looped
        = ServeMuxBuilder.Built h' [("GET /v1/ping", ServeMuxBuilder.newHandler [] (say "pong"))].
Proof. eexists. vm_compute. reflexivity. Qed.

(** The heaps of the two examples above are what [Pattern] leaves on a root
    builder with the prefix ["v1"]. *)
Example Pattern_leaves_looped :
  exec (ServeMuxBuilder.Pattern 0 {["GET /ping" := say "pong"]}) Examples.one_root
  = Some Examples.looped.
Proof. vm_compute. reflexivity. Qed.

Example proto_Pattern_leaves_looped :
  exec (router ← XXSMux.NewRouter;
        XXSMux.Prefix router "v1";;
        XXSMux.Pattern router {["GET /ping" := say "pong"]}) []
  = Some Examples.proto_looped.
Proof. vm_compute. reflexivity. Qed.

(** * Further properties of the code *)

(** ** Splitting a registration string *)

Section Splitting.

Lemma Split_no_sep (s : string) (sep : ascii) :
  has_byte sep s = false → Split s sep = [s].
Proof.
  induction s as [|c s IH]; [done |].
  cbn [has_byte Split]. intros [Hc Hs]%orb_false_iff.
  rewrite Hc, (IH Hs). done.
Qed.

Lemma Split_at_sep (a b : string) (sep : ascii) :
  has_byte sep a = false →
  Split (a +:+ String sep b) sep = a :: Split b sep.
Proof.
  induction a as [|c a IH].
  - intros _. change ("" +:+ String sep b) with (String sep b).
    cbn [Split]. by rewrite Ascii.eqb_refl.
  - cbn [has_byte]. intros [Hc Ha]%orb_false_iff.
    rewrite append_cons. cbn [Split]. rewrite Hc, (IH Ha). done.
Qed.

(** The number of fields is the number of separators plus one. *)
Lemma Split_length (s : string) (sep : ascii) :
  length (Split s sep)
  = S (length (filter (λ c, c = sep) (list_ascii_of_string s))).
Proof.
  induction s as [|c s IH]; [done |].
  cbn [Split list_ascii_of_string]. rewrite filter_cons.
  destruct (Ascii.eqb_spec c sep) as [->|Hc].
  - rewrite decide_True by done. simpl. by rewrite IH.
  - rewrite decide_False by done.
    destruct (Split s sep) as [|f fs] eqn:Hsplit; [by apply Split_not_nil in Hsplit |].
    simpl in *. done.
Qed.

(** [splitPattern], and the same switch inside [ServeMuxBuilder.Pattern]:
    a string without a space is a path without method; a string with one
    space gives the method with the space and the path, which put together
    are the string; a string with more spaces loses all that follows its
    first space, and what is before it is taken as the path. *)
Theorem splitPattern_cases (a b rest : string) :
  has_byte " " a = false → has_byte " " b = false →
  Mux.splitPattern a = ("", a)
  ∧ Mux.splitPattern (a +:+ " " +:+ b) = (a +:+ " ", b)
  ∧ Mux.splitPattern (a +:+ " " +:+ b +:+ " " +:+ rest) = ("", a)
  ∧ ServeMuxBuilder.method_and_path a = ("", a)
  ∧ ServeMuxBuilder.method_and_path (a +:+ " " +:+ b) = (a +:+ " ", b)
  ∧ ServeMuxBuilder.method_and_path (a +:+ " " +:+ b +:+ " " +:+ rest) = ("", a).
Proof.
  intros Ha Hb.
  assert (Split a " " = [a]) as H1 by (by apply Split_no_sep).
  assert (Split (a +:+ " " +:+ b) " " = [a; b]) as H2.
  { change (" " +:+ b) with (String " " b).
    by rewrite Split_at_sep, Split_no_sep. }
  assert (Split (a +:+ " " +:+ b +:+ " " +:+ rest) " "
          = a :: b :: Split rest " ") as H3.
  { change (" " +:+ b +:+ " " +:+ rest) with (String " " (b +:+ String " " rest)).
    by rewrite !Split_at_sep. }
  assert (∃ f fs, Split rest " " = f :: fs) as (f & fs & Hrest).
  { destruct (Split rest " ") as [|f fs] eqn:Hs; [by apply Split_not_nil in Hs |].
    by eexists _, _. }
  unfold Mux.splitPattern, ServeMuxBuilder.method_and_path.
  rewrite H1, H2, H3, Hrest. done.
Qed.

Lemma splitPattern_cases_witness :
  has_byte " " "GET" = false ∧ has_byte " " "/a" = false
  ∧ Mux.splitPattern "GET" = ("", "GET")
  ∧ Mux.splitPattern "GET /a" = ("GET ", "/a")
  ∧ Mux.splitPattern "GET /a b c" = ("", "GET")
  ∧ ServeMuxBuilder.method_and_path "GET" = ("", "GET")
  ∧ ServeMuxBuilder.method_and_path "GET /a" = ("GET ", "/a")
  ∧ ServeMuxBuilder.method_and_path "GET /a b c" = ("", "GET").
Proof.
  split; [reflexivity |]. split; [reflexivity |].
  apply (splitPattern_cases "GET" "/a" "b c"); reflexivity.
Defined.

End Splitting.

(** ** Collapsing slashes *)

Section Slashes.

(** The first byte of a text stays. *)
Lemma removeDoubleSlash_head (c : ascii) (rest : string) :
  ∃ s, removeDoubleSlash (String c rest) = String c s.
Proof.
  revert c. induction rest as [|c' r IH]; intros c; [by eexists |].
  rewrite removeDoubleSlash_cons.
  destruct (Ascii.eqb_spec c "/"%char) as [->|Hc];
    destruct (Ascii.eqb_spec c' "/"%char) as [->|Hc']; cbn [andb];
    (apply IH || by eexists).
Qed.

Lemma removeDoubleSlash_length (text : string) :
  String.length (removeDoubleSlash text) ≤ String.length text.
Proof.
  induction text as [|c rest IH]; [done |].
  destruct rest as [|c' r]; [done |].
  rewrite removeDoubleSlash_cons.
  destruct (_ && _); cbn [String.length] in *; lia.
Qed.

(** [removeDoubleSlash]: the result has no two slashes in a row, the
    function changes nothing in its own results, it leaves a text as it is
    exactly when the text has no two slashes in a row, it keeps a leading
    slash and puts none, and the result is not longer than the text. *)
Theorem removeDoubleSlash_normal_form (text : string) :
  has_double_slash (removeDoubleSlash text) = false
  ∧ removeDoubleSlash (removeDoubleSlash text) = removeDoubleSlash text
  ∧ (removeDoubleSlash text = text ↔ has_double_slash text = false)
  ∧ starts_with "/"%char (removeDoubleSlash text) = starts_with "/"%char text
  ∧ String.length (removeDoubleSlash text) ≤ String.length text.
Proof.
  split; [apply removeDoubleSlash_no_double |].
  split; [apply removeDoubleSlash_id, removeDoubleSlash_no_double |].
  split; [|split; [apply removeDoubleSlash_starts | apply removeDoubleSlash_length]].
  split; [|apply removeDoubleSlash_id].
  intros <-. apply removeDoubleSlash_no_double.
Qed.

(** Collapsing a part of a text beforehand changes nothing. *)
Lemma removeDoubleSlash_app_l (a b : string) :
  removeDoubleSlash (removeDoubleSlash a +:+ b) = removeDoubleSlash (a +:+ b).
Proof.
  induction a as [|c a IH]; [done |].
  destruct a as [|c' r]; [done |].
  rewrite removeDoubleSlash_cons, !append_cons, removeDoubleSlash_cons.
  destruct (Ascii.eqb c "/"%char && Ascii.eqb c' "/"%char) eqn:Hcc.
  - rewrite IH. by rewrite append_cons.
  - destruct (removeDoubleSlash_head c' r) as [s Hs].
    rewrite append_cons. rewrite Hs in *. rewrite !append_cons in *.
    rewrite removeDoubleSlash_cons, Hcc. by rewrite IH.
Qed.

Lemma removeDoubleSlash_app_r (a b : string) :
  removeDoubleSlash (a +:+ removeDoubleSlash b) = removeDoubleSlash (a +:+ b).
Proof.
  assert (removeDoubleSlash (removeDoubleSlash b) = removeDoubleSlash b) as Hid
    by apply removeDoubleSlash_id, removeDoubleSlash_no_double.
  induction a as [|c a IH]; [exact Hid |].
  rewrite !append_cons.
  destruct a as [|c' r].
  - change (removeDoubleSlash (String c (removeDoubleSlash b))
            = removeDoubleSlash (String c b)).
    destruct b as [|cb rb]; [done |].
    destruct (removeDoubleSlash_head cb rb) as [s Hs].
    rewrite Hs in *. rewrite !removeDoubleSlash_cons, Hs, Hid. done.
  - rewrite !append_cons in *. rewrite !removeDoubleSlash_cons, IH. done.
Qed.

(** The key of a registration is the same whether the prefix, the path or
    both had their slashes collapsed before. *)
Theorem removeDoubleSlash_app (a b : string) :
  removeDoubleSlash (removeDoubleSlash a +:+ removeDoubleSlash b)
  = removeDoubleSlash (a +:+ b).
Proof. by rewrite removeDoubleSlash_app_l, removeDoubleSlash_app_r. Qed.

End Slashes.

(** ** Chains of middlewares *)

Section Chains.

(** [newHandler] of both versions of muxify.go, for every list of
    middlewares: the first middleware is the outermost wrapper and the last
    one wraps the handler; without middlewares the handler is returned as it
    is.  On a request, middlewares that write a line before they call the
    next handler write in the order of the list, and the handler last. *)
Theorem newHandler_first_is_outermost
    (m : Middleware) (mw : list Middleware) (h : Handler)
    (lines : list string) (last : string) (r : Request) (w : ResponseWriter) :
  Mux.newHandler [] h = h
  ∧ Mux.newHandler (m :: mw) h = m (Mux.newHandler mw h)
  ∧ Mux.newHandler (mw ++ [m]) h = Mux.newHandler mw (m h)
  ∧ Mux.newHandler (announce <$> lines) (say last) r w = w ++ lines ++ [last]
  ∧ ServeMuxBuilder.newHandler [] h = h
  ∧ ServeMuxBuilder.newHandler (m :: mw) h = m (ServeMuxBuilder.newHandler mw h)
  ∧ ServeMuxBuilder.newHandler (mw ++ [m]) h = ServeMuxBuilder.newHandler mw (m h)
  ∧ ServeMuxBuilder.newHandler (announce <$> lines) (say last) r w
    = w ++ lines ++ [last].
Proof.
  rewrite ?Mux_newHandler_nested, ?newHandler_nested, !foldr_app.
  repeat split; try done.
  - rewrite nested_announce. unfold say. by rewrite <- app_assoc.
  - rewrite nested_announce. unfold say. by rewrite <- app_assoc.
Qed.

Lemma Chain_NewHandler (base : Handler) (middleware : list Middleware) :
  XXSMux.Chain base middleware = XXSMux.NewHandler middleware base.
Proof. reflexivity. Qed.

(** [NewHandler] and [Chain] of main.go, for every list of middlewares:
    each middleware wraps what the ones before it have built, so the last
    one is the outermost wrapper and the first one wraps the handler.  On a
    request, middlewares that write a line before they call the next handler
    write in the reverse order of the list. *)
Theorem NewHandler_last_is_outermost
    (m : Middleware) (mw : list Middleware) (h : Handler)
    (lines : list string) (last : string) (r : Request) (w : ResponseWriter) :
  XXSMux.NewHandler [] h = h
  ∧ XXSMux.NewHandler (mw ++ [m]) h = m (XXSMux.NewHandler mw h)
  ∧ XXSMux.NewHandler (m :: mw) h = XXSMux.NewHandler mw (m h)
  ∧ XXSMux.NewHandler (announce <$> lines) (say last) r w
    = w ++ reverse lines ++ [last]
  ∧ XXSMux.Chain h (mw ++ [m]) = m (XXSMux.Chain h mw)
  ∧ XXSMux.Chain (say last) (announce <$> lines) r w
    = w ++ reverse lines ++ [last].
Proof.
  rewrite !Chain_NewHandler. repeat split; try done.
  - unfold XXSMux.NewHandler. by rewrite foldl_app.
  - apply NewHandler_order.
  - unfold XXSMux.NewHandler. by rewrite foldl_app.
  - apply NewHandler_order.
Qed.

(** [ChainRouter] serves a request with the last handler of the list, and
    with [base] when the list is empty: the loop overwrites [base] at every
    turn, so [base] and the other handlers are never called. *)
Theorem ChainRouter_serves_last_handler
    (base : Handler) (handlers : list Handler) (r : Request) (w : ResponseWriter) :
  XXSMux.ChainRouter base handlers r w = default base (last handlers) r w.
Proof.
  unfold XXSMux.ChainRouter. revert base.
  induction handlers as [|handler handlers IH]; intros base; [done |].
  cbn [foldl]. rewrite IH. destruct handlers as [|h' hs]; [done |].
  rewrite last_cons_cons.
  destruct (last (h' :: hs)) eqn:Hlast; [done |].
  by apply last_None in Hlast.
Qed.

End Chains.

(** ** The shape of a configured tree *)

Section Trees.
Import ServeMuxBuilder Closed Script Traversal.
Implicit Types (h : heap) (b p : ptr) (n : node).

Lemma tree_wf h : tree h → wf h.
Proof.
  intros [Hlen Htree]. apply Forall_lookup. intros p n Hp.
  destruct (Htree p n Hp) as (Hroot & _ & _ & Hp0 & Hpn & Hsubs).
  pose proof (lookup_lt_Some _ _ _ Hp) as Hlt.
  split; [lia |]. split.
  - destruct (decide (p = 0)) as [->|Hne]; [rewrite Hp0 by done; lia |].
    destruct (Hpn Hne) as [? _]. lia.
  - apply Forall_forall. intros c Hc.
    destruct (Hsubs c Hc) as [->|(_ & child & Hchild & _)]; [done |].
    by eapply lookup_lt_Some.
Qed.

(** A call that rewrites the builder [b] and keeps its root, its parent and
    its subrouters, or adds [b] to its subrouters, keeps the shape. *)
Lemma tree_update h b n n' :
  tree h → h !! b = Some n →
  Root n' = Root n → Parent n' = Parent n →
  executedBuild n' = false → registeredPatterns n' = [] →
  (∀ c, c ∈ SubServeMuxBuilder n → c ∈ SubServeMuxBuilder n') →
  (∀ c, c ∈ SubServeMuxBuilder n' → c ∈ SubServeMuxBuilder n ∨ c = b) →
  tree (<[b := n']> h).
Proof.
  intros [Hlen Htree] Hb Hroot Hparent Hexec Hreg Hkeep Hnew.
  assert (∀ q m, h !! q = Some m →
            ∃ m', <[b := n']> h !! q = Some m' ∧ Parent m' = Parent m
                  ∧ ∀ c, c ∈ SubServeMuxBuilder m → c ∈ SubServeMuxBuilder m')
    as Hstill.
  { intros q m Hq. destruct (decide (q = b)) as [->|Hqb].
    - exists n'. rewrite (lookup_written _ _ _ _ Hb).
      rewrite Hb in Hq. injection Hq as <-. done.
    - exists m. by rewrite list_lookup_insert_ne. }
  split; [by rewrite length_insert |]. intros p m' Hp.
  assert (∃ m, h !! p = Some m ∧ Root m' = Root m ∧ Parent m' = Parent m
               ∧ executedBuild m' = false ∧ registeredPatterns m' = []
               ∧ ∀ c, c ∈ SubServeMuxBuilder m' → c ∈ SubServeMuxBuilder m ∨ c = p)
    as (m & Hm & Hr & Hpa & He & Hrg & Hs).
  { destruct (decide (p = b)) as [->|Hpb].
    - rewrite (lookup_written _ _ _ _ Hb) in Hp. injection Hp as <-.
      exists n. done.
    - rewrite list_lookup_insert_ne in Hp by done. exists m'.
      destruct (Htree p m' Hp) as (_ & ? & ? & _). repeat split; auto. }
  destruct (Htree p m Hm) as (Hroot0 & _ & _ & Hp0 & Hpn & Hsubs).
  split; [congruence |]. split; [done |]. split; [done |].
  split; [intros ?; rewrite Hpa; auto |]. split.
  - intros Hne. destruct (Hpn Hne) as (Hlt & parent & Hparent' & Hin).
    rewrite Hpa. split; [done |].
    destruct (Hstill _ _ Hparent') as (parent' & Hlook & _ & Hsub').
    exists parent'. split; [done | by apply Hsub'].
  - intros c Hc. destruct (Hs c Hc) as [Hold| ->]; [|by left].
    destruct (Hsubs c Hold) as [->|(Hc0 & child & Hchild & Hcp)]; [by left |].
    right. split; [done |].
    destruct (Hstill _ _ Hchild) as (child' & Hlook & Hpar & _).
    exists child'. split; [done | congruence].
Qed.

Lemma tree_new : tree [mkNode ∅ "" [] 0 0 [] false []].
Proof.
  split; [simpl; lia |]. intros [|p] n Hp; [|done]. injection Hp as <-.
  repeat split; try done. intros c Hc. by apply elem_of_nil in Hc.
Qed.

(** [Subrouter] keeps the shape: the new builder has the root of the caller,
    the caller as parent, and is the last subrouter of the caller. *)
Lemma tree_Subrouter h b n :
  tree h → h !! b = Some n →
  tree (<[b := set_SubServeMuxBuilder (SubServeMuxBuilder n ++ [length h]) n]> h
        ++ [mkNode ∅ "" (Middlewares n) (Root n) b [] false []]).
Proof.
  intros Htree Hb. pose proof (lookup_lt_Some _ _ _ Hb) as Hlt.
  destruct Htree as [Hlen Htree].
  set (nb := set_SubServeMuxBuilder (SubServeMuxBuilder n ++ [length h]) n).
  set (new := mkNode ∅ "" (Middlewares n) (Root n) b [] false []).
  assert (∀ q m, h !! q = Some m →
            ∃ m', (<[b := nb]> h ++ [new]) !! q = Some m' ∧ Parent m' = Parent m
                  ∧ ∀ c, c ∈ SubServeMuxBuilder m → c ∈ SubServeMuxBuilder m')
    as Hstill.
  { intros q m Hq. pose proof (lookup_lt_Some _ _ _ Hq) as Hql.
    rewrite lookup_app_l by (by rewrite length_insert).
    destruct (decide (q = b)) as [->|Hqb].
    - exists nb. rewrite (lookup_written _ _ _ _ Hb).
      rewrite Hb in Hq. injection Hq as <-. split; [done |]. split; [done |].
      intros c Hc. apply elem_of_app. by left.
    - exists m. by rewrite list_lookup_insert_ne. }
  assert ((<[b := nb]> h ++ [new]) !! length h = Some new) as Hnew
    by (apply list_lookup_middle; by rewrite length_insert).
  split; [rewrite length_app; simpl; lia |]. intros p m' Hp.
  destruct (decide (p = length h)) as [->|Hpl].
  - rewrite Hnew in Hp. injection Hp as <-.
    destruct (Htree b n Hb) as (Hroot0 & _).
    split; [done |]. split; [done |]. split; [done |].
    split; [intros; lia |]. split.
    + intros _. split; [done |]. exists nb. split.
      * rewrite lookup_app_l by (by rewrite length_insert).
        by eapply lookup_written.
      * apply elem_of_app. right. by apply list_elem_of_singleton.
    + intros c Hc. by apply elem_of_nil in Hc.
  - assert (p < length h) as Hpl'.
    { apply lookup_lt_Some in Hp. rewrite length_app, length_insert in Hp.
      simpl in Hp. lia. }
    rewrite lookup_app_l in Hp by (by rewrite length_insert).
    assert (∃ m, h !! p = Some m ∧ Root m' = Root m ∧ Parent m' = Parent m
                 ∧ executedBuild m' = executedBuild m
                 ∧ registeredPatterns m' = registeredPatterns m
                 ∧ ∀ c, c ∈ SubServeMuxBuilder m' →
                        c ∈ SubServeMuxBuilder m ∨ (p = b ∧ c = length h))
      as (m & Hm & Hr & Hpa & He & Hrg & Hs).
    { destruct (decide (p = b)) as [->|Hpb].
      - rewrite (lookup_written _ _ _ _ Hb) in Hp. injection Hp as <-.
        exists n. repeat split; try done.
        intros c [Hc|Hc%list_elem_of_singleton]%elem_of_app; auto.
      - rewrite list_lookup_insert_ne in Hp by done. exists m'.
        repeat split; auto. }
    destruct (Htree p m Hm) as (Hroot0 & Hex & Hreg & Hp0 & Hpn & Hsubs).
    split; [congruence |]. split; [congruence |]. split; [congruence |].
    split; [intros ?; rewrite Hpa; auto |]. split.
    + intros Hne. destruct (Hpn Hne) as (Hlt' & parent & Hparent' & Hin).
      rewrite Hpa. split; [done |].
      destruct (Hstill _ _ Hparent') as (parent' & Hlook & _ & Hsub').
      exists parent'. split; [done | by apply Hsub'].
    + intros c Hc. destruct (Hs c Hc) as [Hold|[-> ->]].
      * destruct (Hsubs c Hold) as [->|(Hc0 & child & Hchild & Hcp)]; [by left |].
        right. split; [done |].
        destruct (Hstill _ _ Hchild) as (child' & Hlook & Hpar & _).
        exists child'. split; [done | congruence].
      * right. split; [lia |]. exists new. done.
Qed.

Lemma tree_do_call h c h' :
  tree h → exec (do_call c) h = Some h' → tree h'.
Proof.
  intros Htree. pose proof (tree_wf _ Htree) as Hwf.
  unfold exec, do_call. rewrite bind_eq.
  destruct (h !! receiver c) as [n|] eqn:Hb;
    [rewrite (get_eq _ _ _ _ Hb) | by (unfold get; rewrite Hb)].
  destruct (proj2 Htree _ _ Hb) as (_ & Hex & Hreg & _).
  destruct c as [b prefix|b middleware|b patterns|b]; cbn [receiver] in Hb.
  - rewrite (Prefix_closed _ _ _ _ Hb). intros [= <-].
    apply (tree_update _ _ n); try done; cbn [SubServeMuxBuilder set_PatternPrefix]; auto.
  - rewrite (Use_closed _ _ _ _ Hb). intros [= <-].
    apply (tree_update _ _ n); try done; cbn [SubServeMuxBuilder set_Middlewares]; auto.
  - rewrite (Pattern_closed _ _ _ _ Hwf Hb). intros [= <-].
    apply (tree_update _ _ n); try done; cbn [SubServeMuxBuilder].
    + intros c Hc. apply elem_of_app. by left.
    + intros c [Hc|Hc%list_elem_of_singleton]%elem_of_app; auto.
  - destruct (wf_lookup _ _ _ Hwf Hb) as (Hr & _ & _).
    rewrite bind_eq, (Subrouter_closed _ _ _ Hb Hr). intros [= <-].
    by apply tree_Subrouter.
Qed.

Lemma tree_calls (calls : list call) h h' :
  tree h → exec (for_each calls do_call) h = Some h' → tree h'.
Proof.
  revert h. induction calls as [|c calls IH]; intros h Htree.
  { by intros [= <-]. }
  unfold exec. rewrite for_each_cons.
  destruct (do_call c h) as [[[] h1]|] eqn:Hcall; [|done].
  intros Hrest. apply (IH h1); [|done].
  apply (tree_do_call h c); [done |]. unfold exec. by rewrite Hcall.
Qed.

Lemma configure_tree (calls : list call) h :
  configure calls = Some h → tree h.
Proof.
  unfold configure, exec. rewrite bind_eq.
  change (NewServeMuxBuilder []) with (Some (0, [mkNode ∅ "" [] 0 0 [] false []])).
  cbv beta iota. intros Hcalls.
  by apply (tree_calls calls [mkNode ∅ "" [] 0 0 [] false []] h tree_new).
Qed.

(** Every builder of a tree is reached from the root through the lists of
    subrouters. *)
Lemma tree_reaches h p :
  tree h → p < length h → reaches (subrouters h) 0 p.
Proof.
  intros [Hlen Htree]. induction p as [p IH] using lt_wf_ind. intros Hp.
  destruct (decide (p = 0)) as [->|Hne]; [apply rtc_refl |].
  destruct (lookup_lt_is_Some_2 h p Hp) as [n Hn].
  destruct (Htree p n Hn) as (_ & _ & _ & _ & Hpn & _).
  destruct (Hpn Hne) as (Hlt & parent & Hparent & Hin).
  eapply rtc_r; [apply IH; [done | lia] |].
  unfold subrouters. by rewrite Hparent.
Qed.

End Trees.

(** ** More on the traversal *)

Section TraversalMore.
Import Traversal.
Variable children : nat → list nat.

(** The traversal starts with the root. *)
Lemma bfs_head fuel r order :
  bfs children fuel [r] ∅ = Some order → head order = Some r.
Proof.
  destruct fuel as [|fuel]; [done |]. cbn [bfs].
  rewrite bool_decide_eq_false_2 by apply not_elem_of_empty.
  destruct (bfs children fuel _ _); [|done]. by intros [= <-].
Qed.

(** Only builders that the queue leads to are processed. *)
Lemma bfs_sound fuel queue visited order p :
  bfs children fuel queue visited = Some order → p ∈ order →
  ∃ q, q ∈ queue ∧ reaches children q p.
Proof.
  revert queue visited order.
  induction fuel as [|fuel IH]; intros queue visited order Hbfs Hp; [done |].
  destruct queue as [|c queue].
  { injection Hbfs as <-. by apply elem_of_nil in Hp. }
  cbn [bfs] in Hbfs. case_bool_decide as Hc.
  - destruct (IH _ _ _ Hbfs Hp) as (q & Hq & Hreach).
    exists q. split; [by right | done].
  - destruct (bfs children fuel _ _) as [o|] eqn:Ho; [|done].
    injection Hbfs as <-. apply elem_of_cons in Hp as [->|Hp].
    + exists c. split; [by left | apply rtc_refl].
    + destruct (IH _ _ _ Ho Hp) as (q & [Hq|Hq]%elem_of_app & Hreach).
      * exists q. split; [by right | done].
      * exists c. split; [by left |]. by eapply rtc_l.
Qed.

End TraversalMore.

Section RegistrationMore.
Import Traversal.
Context `{Dispatcher ServeMux}.

(** When a call panics, its pattern is the last of the log. *)
Lemma Handle_all_panic (calls : list (string * Handler)) mux log pattern log' :
  Handle_all calls mux log = inr (pattern, log') →
  ∃ before, log' = log ++ before ++ [pattern].
Proof.
  revert mux log. induction calls as [|[p hd] calls IH]; intros mux log; [done |].
  cbn [Handle_all]. destruct (Handle mux p hd).
  - intros (before & ->)%IH. exists (p :: before). by rewrite <- app_assoc.
  - intros [= <- <-]. by exists [].
Qed.

(** When a call panics, the calls before it were accepted, and the log
    holds their patterns and then the pattern of the call. *)
Lemma Handle_all_inr (calls : list (string * Handler)) mux log pattern log' :
  Handle_all calls mux log = inr (pattern, log') →
  ∃ accepted hd rest mux',
    calls = accepted ++ (pattern, hd) :: rest
    ∧ Handle_all accepted mux log = inl (mux', log ++ accepted.*1)
    ∧ Handle mux' pattern hd = None
    ∧ log' = log ++ accepted.*1 ++ [pattern].
Proof.
  revert mux log. induction calls as [|[p hd] calls IH]; intros mux log; [done |].
  cbn [Handle_all]. destruct (Handle mux p hd) as [mux1|] eqn:Hp.
  - intros (accepted & hd' & rest & mux' & -> & Hacc & Hnone & ->)%IH.
    exists ((p, hd) :: accepted), hd', rest, mux'.
    cbn [Handle_all fmap list_fmap fst app]. rewrite Hp.
    rewrite Hacc, <- !app_assoc. done.
  - intros [= <- <-]. exists [], hd, calls, mux.
    cbn. by rewrite app_nil_r.
Qed.

(** The calls do not read the log: a longer log at the start is a longer
    log at the end. *)
Lemma Handle_all_shift (calls : list (string * Handler)) mux log0 log :
  Handle_all calls mux (log0 ++ log)
  = match Handle_all calls mux log with
    | inl (mux', log') => inl (mux', log0 ++ log')
    | inr (pattern, log') => inr (pattern, log0 ++ log')
    end.
Proof.
  revert mux log. induction calls as [|[p hd] calls IH]; intros mux log; [done |].
  cbn [Handle_all]. destruct (Handle mux p hd).
  - by rewrite <- app_assoc, IH.
  - by rewrite <- app_assoc.
Qed.

End RegistrationMore.

(** ** What [Build] registers *)

Section Registered.
Import ServeMuxBuilder Closed Script Traversal.
Implicit Types (h : heap) (b p : ptr) (n : node).

Lemma elem_of_calls_of h p key wrapped :
  (key, wrapped) ∈ calls_of h p
  ↔ ∃ np hd, h !! p = Some np ∧ Patterns np !! key = Some hd
             ∧ wrapped = newHandler (Middlewares np) hd.
Proof.
  unfold calls_of. destruct (h !! p) as [np|]; [|split].
  - rewrite list_elem_of_fmap. split.
    + intros ([k hd] & [= -> ->] & Hin%elem_of_map_to_list).
      by exists np, hd.
    + intros (np' & hd & [= <-] & Hhd & ->).
      exists (key, hd). split; [done | by apply elem_of_map_to_list].
  - by intros ?%elem_of_nil.
  - by intros (? & ? & ? & _).
Qed.

Lemma bfs_order_reaches h r order p :
  bfs (subrouters h) (Build_fuel h) [r] ∅ = Some order →
  p ∈ order ↔ reaches (subrouters h) r p.
Proof.
  intros Hbfs. split.
  - intros Hp. destruct (bfs_sound _ _ _ _ _ _ Hbfs Hp) as (q & Hq & Hreach).
    apply list_elem_of_singleton in Hq as ->. done.
  - by eapply bfs_reaches.
Qed.

(** With a dispatcher that accepts every call, [Build] returns a table whose
    entries are the registrations of the builders that the lists of
    subrouters lead to from the root, and no other: each key with its
    handler wrapped in the middlewares of the builder that holds it.
    [Build] changes the root alone, and [PrintRegisteredPatterns], called on
    any builder with that root, then prints what was registered before
    followed by the keys of the table in the order of the [Handle] calls. *)
Theorem Build_table h b n :
  wf h → h !! b = Some n →
  ∃ rn h' (mux : list (string * Handler)),
    h !! Root n = Some rn
    ∧ Build (H:=recording) b h = Built h' mux
    ∧ (∀ key wrapped,
         (key, wrapped) ∈ mux
         ↔ ∃ p np hd,
             reaches (subrouters h) (Root n) p ∧ h !! p = Some np
             ∧ Patterns np !! key = Some hd
             ∧ wrapped = newHandler (Middlewares np) hd)
    ∧ (∀ p, p ≠ Root n → h' !! p = h !! p)
    ∧ PrintRegisteredPatterns b h' = Some (registeredPatterns rn ++ mux.*1).
Proof.
  intros Hwf Hb.
  destruct (Build_recording _ _ _ Hwf Hb) as (order & rn & Hbfs & Hr & Hbuild).
  eexists rn, _, _. split; [done |]. split; [exact Hbuild |]. split; [|split].
  - intros key wrapped.
    rewrite list_elem_of_In, in_flat_map. split.
    + intros (p & Hp%list_elem_of_In & Hin%list_elem_of_In).
      apply elem_of_calls_of in Hin as (np & hd & ? & ? & ?).
      exists p, np, hd. split; [by apply (bfs_order_reaches _ _ _ _ Hbfs) | done].
    + intros (p & np & hd & Hreach & ? & ? & ?). exists p.
      split; apply list_elem_of_In;
        [by apply (bfs_order_reaches _ _ _ _ Hbfs) |].
      apply elem_of_calls_of. by exists np, hd.
  - intros p Hp. by rewrite list_lookup_insert_ne.
  - unfold PrintRegisteredPatterns.
    assert (∃ nb', <[Root n := set_executedBuild true
                      (set_registeredPatterns
                         (registeredPatterns rn ++ (flat_map (calls_of h) order).*1) rn)]>
                     h !! b = Some nb' ∧ Root nb' = Root n) as (nb' & -> & ->).
    { destruct (decide (b = Root n)) as [Hbr|Hbr].
      - subst b. rewrite Hb in Hr. injection Hr as <-.
        eexists. rewrite (lookup_written _ _ _ _ Hb). done.
      - exists n. by rewrite list_lookup_insert_ne. }
    by rewrite (lookup_written _ _ _ _ Hr).
Qed.

Lemma Build_table_witness :
  wf Examples.collision_heap
  ∧ Examples.collision_heap !! 1 = Some Examples.collision_child
  ∧ ∃ rn h' (mux : list (string * Handler)),
      Examples.collision_heap !! 0 = Some rn
      ∧ Build (H:=recording) 1 Examples.collision_heap = Built h' mux
      ∧ (∀ key wrapped,
           (key, wrapped) ∈ mux
           ↔ ∃ p np hd,
               reaches (subrouters Examples.collision_heap) 0 p
               ∧ Examples.collision_heap !! p = Some np
               ∧ Patterns np !! key = Some hd
               ∧ wrapped = newHandler (Middlewares np) hd)
      ∧ (∀ p, p ≠ 0 → h' !! p = Examples.collision_heap !! p)
      ∧ PrintRegisteredPatterns 1 h' = Some (registeredPatterns rn ++ mux.*1).
Proof.
  split; [exact collision_heap_wf |]. split; [reflexivity |].
  exact (Build_table Examples.collision_heap 1 Examples.collision_child
           collision_heap_wf eq_refl).
Defined.

End Registered.

Section RegisteredAny.
Import ServeMuxBuilder Closed Script Traversal.
Context `{Dispatcher ServeMux}.
Implicit Types (h : heap) (b p : ptr) (n : node).

(** When [Handle] panics, [Build] ends there.  The calls that the traversal
    makes are cut at the one that panics: those before it were accepted, and
    the root has got their patterns, in the order of the calls, and then the
    pattern of the call that panics, which was appended just before the call
    and so is listed though it is not registered.  No other field and no
    other builder is changed, [executedBuild] is not set, and
    [PrintRegisteredPatterns] still prints nothing if no [Build] had
    succeeded before. *)
Theorem Build_panic_leaves_pattern_logged h b n h' (pattern : string) :
  wf h → h !! b = Some n → Build b h = HandlePanic h' pattern →
  ∃ rn order accepted handler rest mux,
    h !! Root n = Some rn
    ∧ bfs (subrouters h) (Build_fuel h) [Root n] ∅ = Some order
    ∧ flat_map (calls_of h) order = accepted ++ (pattern, handler) :: rest
    ∧ Handle_all accepted NewServeMux [] = inl (mux, accepted.*1)
    ∧ Handle mux pattern handler = None
    ∧ h' = <[Root n := set_registeredPatterns
                         (registeredPatterns rn ++ accepted.*1 ++ [pattern]) rn]> h
    ∧ (executedBuild rn = false → PrintRegisteredPatterns b h' = None).
Proof.
  intros Hwf Hb Hbuild.
  destruct (wf_lookup _ _ _ Hwf Hb) as (Hroot & _ & _).
  destruct (lookup_lt_is_Some_2 h _ Hroot) as [rn Hr].
  destruct (Build_fuel_enough h (Root n) (Build_fuel h)) as [order Hbfs]; [done |].
  unfold Build in Hbuild.
  rewrite (Build_within_closed _ _ _ _ _ Hwf Hb Hbfs) in Hbuild.
  unfold flatten in Hbuild. rewrite Hr in Hbuild.
  rewrite <- (app_nil_r (registeredPatterns rn)), Handle_all_shift in Hbuild.
  destruct (Handle_all _ NewServeMux [])
    as [[mux log1]|[pattern' log1]] eqn:Hall; [done |].
  injection Hbuild as <- <-.
  destruct (Handle_all_inr _ _ _ _ _ Hall)
    as (accepted & handler & rest & mux & Hcalls & Hacc & Hnone & ->).
  exists rn, order, accepted, handler, rest, mux.
  split; [done |]. split; [done |]. split; [done |]. split; [done |].
  split; [done |]. split; [done |].
  intros Hex. unfold PrintRegisteredPatterns.
  destruct (decide (b = Root n)) as [Hbr|Hbr].
  - subst b. rewrite Hb in Hr. injection Hr as <-.
    rewrite (lookup_written _ _ _ _ Hb). cbn [Root set_registeredPatterns].
    rewrite (lookup_written _ _ _ _ Hb).
    cbn [executedBuild set_registeredPatterns]. by rewrite Hex.
  - rewrite list_lookup_insert_ne by done. rewrite Hb.
    rewrite (lookup_written _ _ _ _ Hr). cbn [executedBuild set_registeredPatterns].
    by rewrite Hex.
Qed.

Lemma reaches_bounded h q p :
  wf h → reaches (subrouters h) q p → q < length h → p < length h.
Proof.
  intros Hwf Hreach. induction Hreach as [|x y z Hxy Hyz IH]; [done |].
  intros Hx. apply IH. unfold subrouters in Hxy.
  destruct (h !! x) as [nx|] eqn:Hnx; [|by apply elem_of_nil in Hxy].
  destruct (wf_lookup _ _ _ Hwf Hnx) as (_ & _ & Hsubs).
  by apply (proj1 (Forall_forall _ _) Hsubs).
Qed.

(** On a tree that a program has configured, [Build] gives the same result
    from whichever builder it is called on; it processes every builder of
    the tree once, the root first, and makes the [Handle] calls of the
    patterns of each. *)
Theorem Build_registers_every_builder_once (calls : list call) h :
  configure calls = Some h →
  ∃ order,
    order ≡ₚ seq 0 (length h) ∧ head order = Some 0
    ∧ ∀ b, b < length h → Build b h = flatten h 0 order.
Proof.
  intros Hconf. pose proof (configure_tree _ _ Hconf) as Htree.
  pose proof (tree_wf _ Htree) as Hwf.
  destruct (Build_fuel_enough h 0 (Build_fuel h)) as [order Hbfs]; [done |].
  exists order. split; [|split].
  - destruct (bfs_NoDup _ _ _ _ _ Hbfs) as [Hnd _].
    apply NoDup_Permutation; [done | apply NoDup_seq |].
    intros p. rewrite elem_of_seq. split.
    + intros Hp. destruct (bfs_sound _ _ _ _ _ _ Hbfs Hp) as (q & Hq & Hreach).
      apply list_elem_of_singleton in Hq as ->.
      split; [lia |]. simpl.
      apply (reaches_bounded h 0 p Hwf Hreach), Htree.
    + intros [_ Hp]. eapply bfs_reaches; [done |].
      apply tree_reaches; [done | simpl in Hp; lia].
  - by eapply bfs_head.
  - intros b Hb. destruct (lookup_lt_is_Some_2 h b Hb) as [n Hn].
    destruct (proj2 Htree _ _ Hn) as (Hroot & _).
    unfold Build. rewrite <- Hroot in Hbfs.
    rewrite (Build_within_closed _ _ _ _ _ Hwf Hn Hbfs). by rewrite Hroot.
Qed.

End RegisteredAny.

Section TreeShape.
Import ServeMuxBuilder Closed Script Traversal.

(** A program that makes one root and then calls [Prefix], [Use], [Pattern]
    and [Subrouter] on builders it holds leaves a tree: every builder has the
    first builder as root, the root is its own parent, the parent of another
    builder was made before it and has it among its subrouters, a list of
    subrouters holds the builder itself (once for each [Pattern] call) and
    builders made from it, every pointer points into the heap, every builder
    is reached from the root, and before [Build] [PrintRegisteredPatterns]
    prints nothing. *)
Theorem configure_leaves_a_tree (calls : list call) (h : heap) :
  configure calls = Some h →
  tree h ∧ wf h
  ∧ (∀ p, p < length h → reaches (subrouters h) 0 p)
  ∧ (∀ p, p < length h → PrintRegisteredPatterns p h = None).
Proof.
  intros Hconf. pose proof (configure_tree _ _ Hconf) as Htree.
  split; [done |]. split; [by apply tree_wf |].
  split; [intros p; by apply tree_reaches |].
  intros p Hp. destruct (lookup_lt_is_Some_2 h p Hp) as [n Hn].
  destruct (proj2 Htree _ _ Hn) as (Hroot & _).
  destruct (lookup_lt_is_Some_2 h 0 (proj1 Htree)) as [r Hr].
  destruct (proj2 Htree _ _ Hr) as (_ & Hex & _).
  unfold PrintRegisteredPatterns. by rewrite Hn, Hroot, Hr, Hex.
Qed.

Lemma collision_calls_configure :
  configure Examples.collision_calls = Some Examples.collision_heap.
Proof. vm_compute. reflexivity. Qed.

Lemma configure_leaves_a_tree_witness :
  configure Examples.collision_calls = Some Examples.collision_heap
  ∧ tree Examples.collision_heap ∧ wf Examples.collision_heap
  ∧ (∀ p, p < length Examples.collision_heap →
          reaches (subrouters Examples.collision_heap) 0 p)
  ∧ (∀ p, p < length Examples.collision_heap →
          PrintRegisteredPatterns p Examples.collision_heap = None).
Proof.
  split; [exact collision_calls_configure |].
  exact (configure_leaves_a_tree Examples.collision_calls Examples.collision_heap
           collision_calls_configure).
Defined.

Lemma Build_registers_every_builder_once_witness :
  configure Examples.collision_calls = Some Examples.collision_heap
  ∧ ∃ order,
      order ≡ₚ seq 0 (length Examples.collision_heap) ∧ head order = Some 0
      ∧ ∀ b, b < length Examples.collision_heap →
             Build (H:=strict) b Examples.collision_heap
             = flatten (H:=strict) Examples.collision_heap 0 order.
Proof.
  split; [exact collision_calls_configure |].
  exact (Build_registers_every_builder_once (H:=strict) Examples.collision_calls
           Examples.collision_heap collision_calls_configure).
Defined.

Lemma Build_panic_leaves_pattern_logged_witness :
  wf Examples.collision_heap
  ∧ Examples.collision_heap !! 1 = Some Examples.collision_child
  ∧ Build (H:=strict) 1 Examples.collision_heap
    = HandlePanic
        [set_registeredPatterns ["GET /v1/admin/x"; "GET /v1/admin/x"]
                                Examples.collision_root;
         Examples.collision_child]
        "GET /v1/admin/x"
  ∧ ∃ rn order accepted handler rest mux,
      Examples.collision_heap !! 0 = Some rn
      ∧ bfs (subrouters Examples.collision_heap)
            (Build_fuel Examples.collision_heap) [0] ∅ = Some order
      ∧ flat_map (calls_of Examples.collision_heap) order
        = accepted ++ ("GET /v1/admin/x", handler) :: rest
      ∧ Handle_all (H:=strict) accepted [] [] = inl (mux, accepted.*1)
      ∧ Handle (Dispatcher:=strict) mux "GET /v1/admin/x" handler = None
      ∧ [set_registeredPatterns ["GET /v1/admin/x"; "GET /v1/admin/x"]
                                Examples.collision_root;
         Examples.collision_child]
        = <[0 := set_registeredPatterns
                   (registeredPatterns rn ++ accepted.*1 ++ ["GET /v1/admin/x"]) rn]>
            Examples.collision_heap
      ∧ (executedBuild rn = false →
         PrintRegisteredPatterns 1
           [set_registeredPatterns ["GET /v1/admin/x"; "GET /v1/admin/x"]
                                   Examples.collision_root;
            Examples.collision_child]
         = None).
Proof.
  assert (Build (H:=strict) 1 Examples.collision_heap
          = HandlePanic
              [set_registeredPatterns ["GET /v1/admin/x"; "GET /v1/admin/x"]
                                      Examples.collision_root;
               Examples.collision_child]
              "GET /v1/admin/x") as Hbuild by (vm_compute; reflexivity).
  split; [exact collision_heap_wf |]. split; [reflexivity |].
  split; [exact Hbuild |].
  exact (Build_panic_leaves_pattern_logged (H:=strict)
           Examples.collision_heap 1 Examples.collision_child _ _
           collision_heap_wf eq_refl Hbuild).
Defined.

End TreeShape.

(** ** Keys held by more than one builder *)

Section Strict.
Import ServeMuxBuilder Closed Traversal.
Implicit Types (h : heap) (b p : ptr) (n : node).

Lemma NoDup_filter_eq {A} `{EqDecision A} (l : list A) (x : A) :
  NoDup l → length (filter (λ y, y = x) l) ≤ 1.
Proof.
  induction 1 as [|y l Hy Hnd IH]; [simpl; lia |].
  rewrite filter_cons. case_decide as Hyx; [|done]. subst y.
  assert (filter (λ y, y = x) l = []) as ->; [|simpl; lia].
  destruct (filter (λ y, y = x) l) as [|z zs] eqn:Hf; [done |].
  assert (z ∈ filter (λ y, y = x) l) as [-> Hz]%list_elem_of_filter
    by (rewrite Hf; by left).
  done.
Qed.

Lemma flat_map_fst {A B C} (f : A → list (B * C)) (l : list A) :
  (flat_map f l).*1 = flat_map (λ x, (f x).*1) l.
Proof.
  induction l as [|x l IH]; [done |].
  cbn [flat_map]. by rewrite fmap_app, IH.
Qed.

Lemma NoDup_flat_map {A B} (f : A → list B) (l : list A) :
  NoDup l → (∀ x, x ∈ l → NoDup (f x)) →
  (∀ x y e, x ∈ l → y ∈ l → e ∈ f x → e ∈ f y → x = y) →
  NoDup (flat_map f l).
Proof.
  induction 1 as [|x l Hx Hnd IH]; intros Heach Hdisj; [constructor |].
  cbn [flat_map]. apply NoDup_app. split; [apply Heach; by left |]. split.
  - intros e He Hin. apply list_elem_of_In, in_flat_map in Hin as (y & Hy & Hey).
    apply list_elem_of_In in Hy, Hey.
    assert (x = y) as -> by (apply (Hdisj x y e); (by left) || (by right) || done).
    done.
  - apply IH.
    + intros y Hy. apply Heach. by right.
    + intros y z e Hy Hz. apply Hdisj; by right.
Qed.

Lemma calls_of_keys h p key :
  key ∈ (calls_of h p).*1 ↔ ∃ np, h !! p = Some np ∧ key ∈ dom (Patterns np).
Proof.
  rewrite list_elem_of_fmap. split.
  - intros ([k w] & -> & (np & hd & Hp & Hhd & _)%elem_of_calls_of).
    exists np. split; [done |]. apply elem_of_dom. by exists hd.
  - intros (np & Hp & [hd Hhd]%elem_of_dom).
    exists (key, newHandler (Middlewares np) hd). split; [done |].
    apply elem_of_calls_of. by exists np, hd.
Qed.

Lemma calls_of_keys_NoDup h p : NoDup (calls_of h p).*1.
Proof.
  unfold calls_of. destruct (h !! p) as [np|]; [|constructor].
  rewrite <- list_fmap_compose.
  apply (NoDup_fst_map_to_list (Patterns np)).
Qed.

End Strict.

(** ** Dispatchers that panic on a pattern they hold *)

Section Repeats.
Import ServeMuxBuilder Closed Traversal.
Context `{Dispatcher ServeMux} (held : ServeMux → list string)
        `{Hrepeats : !RefusesRepeats held}.
Implicit Types (h : heap) (b p : ptr) (n : node).

(** The calls that were accepted are held, and no pattern is held twice. *)
Lemma Handle_all_held (calls : list (string * Handler)) mux log mux' log' :
  Handle_all calls mux log = inl (mux', log') →
  held mux' = held mux ++ calls.*1
  ∧ (NoDup (held mux) → NoDup (held mux ++ calls.*1)).
Proof.
  revert mux log. induction calls as [|[p hd] calls IH]; intros mux log.
  - intros [= <- <-]. by rewrite app_nil_r.
  - cbn [Handle_all fmap list_fmap fst].
    destruct (Handle mux p hd) as [mux1|] eqn:Hp; [|done].
    intros [Hheld Hnd]%IH. rewrite (held_Handle (held:=held) _ _ _ _ Hp) in Hheld, Hnd.
    rewrite <- app_assoc in Hheld, Hnd. split; [done |].
    intros Hmux. apply Hnd, NoDup_app. split; [done |]. split.
    + intros k Hk ->%list_elem_of_singleton.
      by rewrite (Handle_held (held:=held) mux p hd Hk) in Hp.
    + apply NoDup_singleton.
Qed.

(** A dispatcher that refuses the patterns of [keys] only when it holds
    them accepts calls whose patterns are in [keys] and all different. *)
Lemma Handle_all_accepts (keys : string → Prop)
    (calls : list (string * Handler)) mux log :
  (∀ mux key handler,
     keys key → (∀ k, k ∈ held mux → keys k) →
     Handle mux key handler = None → key ∈ held mux) →
  (∀ k, k ∈ held mux → keys k) → (∀ k, k ∈ calls.*1 → keys k) →
  NoDup (held mux ++ calls.*1) →
  ∃ mux', Handle_all calls mux log = inl (mux', log ++ calls.*1).
Proof.
  intros Honly. revert mux log.
  induction calls as [|[p hd] calls IH]; intros mux log Hmux Hcalls Hnd.
  - exists mux. cbn. by rewrite app_nil_r.
  - cbn [Handle_all fmap list_fmap fst] in *.
    destruct (Handle mux p hd) as [mux1|] eqn:Hp.
    + destruct (IH mux1 (log ++ [p])) as [mux' ->].
      * intros k. rewrite (held_Handle (held:=held) _ _ _ _ Hp).
        intros [Hk| ->%list_elem_of_singleton]%elem_of_app; [by apply Hmux |].
        apply Hcalls. by left.
      * intros k Hk. apply Hcalls. by right.
      * rewrite (held_Handle (held:=held) _ _ _ _ Hp), <- app_assoc. done.
      * exists mux'. by rewrite <- app_assoc.
    + exfalso. apply NoDup_app in Hnd as (_ & Hdisj & _).
      apply (Hdisj p); [|by left].
      apply (Honly mux p hd); [apply Hcalls; by left | done | done].
Qed.

(** The keys of the calls of the traversal are the keys that the builders
    of the tree hold. *)
Lemma calls_keys_holds h r order key :
  bfs (subrouters h) (Build_fuel h) [r] ∅ = Some order →
  key ∈ (flat_map (calls_of h) order).*1 ↔ ∃ p, holds h r p key.
Proof.
  intros Hbfs. rewrite flat_map_fst. split.
  - intros (p & Hp & Hkey)%list_elem_of_In%in_flat_map.
    apply list_elem_of_In in Hp, Hkey. exists p. split.
    + by apply (bfs_order_reaches _ _ _ _ Hbfs).
    + by apply calls_of_keys.
  - intros (p & Hreach & Hkey). apply list_elem_of_In, in_flat_map.
    exists p. split; apply list_elem_of_In.
    + by apply (bfs_order_reaches _ _ _ _ Hbfs).
    + by apply calls_of_keys.
Qed.




(** For a dispatcher that panics on a pattern it holds already and that
    refuses no key of the tree for another reason, [Build] succeeds exactly
    when no key is held by two builders of the tree; else it ends in the
    panic of [Handle].  It never runs out of turns and never follows a
    pointer that is not valid. *)
Theorem Build_succeeds_iff_keys_distinct h b n :
  wf h → h !! b = Some n → refuses_repeats_only held h (Root n) →
  ((∃ h' mux, Build b h = Built h' mux)
   ↔ ∀ p1 p2 key, holds h (Root n) p1 key → holds h (Root n) p2 key → p1 = p2)
  ∧ ((∃ h' mux, Build b h = Built h' mux)
     ∨ ∃ h' pattern, Build b h = HandlePanic h' pattern).
Proof.
  intros Hwf Hb Honly.
  destruct (wf_lookup _ _ _ Hwf Hb) as (Hroot & _ & _).
  destruct (lookup_lt_is_Some_2 h _ Hroot) as [rn Hr].
  destruct (Build_fuel_enough h (Root n) (Build_fuel h)) as [order Hbfs]; [done |].
  destruct (bfs_NoDup _ _ _ _ _ Hbfs) as [Hnd _].
  unfold Build. rewrite (Build_within_closed _ _ _ _ _ Hwf Hb Hbfs).
  unfold flatten. rewrite Hr.
  assert (NoDup (flat_map (calls_of h) order).*1
          ↔ ∀ p1 p2 key,
              holds h (Root n) p1 key → holds h (Root n) p2 key → p1 = p2)
    as Hiff.
  { rewrite flat_map_fst. split.
    - intros Hkeys p1 p2 key (Hr1 & n1 & Hn1 & Hk1) (Hr2 & n2 & Hn2 & Hk2).
      destruct (decide (p1 = p2)) as [|Hne]; [done | exfalso].
      pose proof (NoDup_filter_eq _ key Hkeys) as Hle.
      assert (2 ≤ length (filter (λ y, y = key)
                            (flat_map (λ p, (calls_of h p).*1) order))); [|lia].
      apply (filter_flat_map_two (λ p, (calls_of h p).*1) (λ y, y = key)
               order p1 p2 key key); try done; try (by eapply bfs_reaches);
        apply calls_of_keys; by eexists.
    - intros Hdistinct. apply NoDup_flat_map; [done | |].
      + intros p _. apply calls_of_keys_NoDup.
      + intros p1 p2 key Hp1 Hp2 Hk1%calls_of_keys Hk2%calls_of_keys.
        apply (Hdistinct p1 p2 key);
          (split; [by apply (bfs_order_reaches _ _ _ _ Hbfs) | done]). }
  destruct (Handle_all _ NewServeMux (registeredPatterns rn))
    as [[mux log]|[pattern log]] eqn:Hall.
  - split; [|left; by eexists _, _].
    split; [intros _ | intros _; by eexists _, _].
    apply Hiff. destruct (Handle_all_held _ _ _ _ _ Hall) as [_ Hkeys].
    rewrite (held_NewServeMux (held:=held)) in Hkeys. by apply Hkeys; constructor.
  - split; [|right; by eexists _, _]. split.
    + by intros (? & ? & ?).
    + intros Hdistinct%Hiff. exfalso.
      destruct (Handle_all_accepts (λ k, ∃ p, holds h (Root n) p k)
                  (flat_map (calls_of h) order) NewServeMux
                  (registeredPatterns rn)) as [mux' Hacc].
      * exact Honly.
      * rewrite (held_NewServeMux (held:=held)). by intros k ?%elem_of_nil.
      * intros k Hk. by apply (calls_keys_holds _ _ _ _ Hbfs).
      * by rewrite (held_NewServeMux (held:=held)).
      * by rewrite Hacc in Hall.
Qed.

End Repeats.

(** The strict dispatcher is of this kind, and refuses nothing else. *)
Lemma strict_RefusesRepeats : RefusesRepeats (H:=strict) (fmap fst).
Proof.
  split.
  - done.
  - intros mux p hd mux'. cbn [Handle strict]. case_bool_decide; [done |].
    intros [= <-]. by rewrite fmap_app.
  - intros mux p hd Hp. cbn [Handle strict].
    by rewrite bool_decide_eq_true_2.
Qed.

Lemma strict_refuses_repeats_only h r :
  Closed.refuses_repeats_only (H:=strict) (fmap fst) h r.
Proof.
  intros mux key hd _ _. cbn [Handle strict]. by case_bool_decide.
Qed.

Section RepeatsWitness.
Import ServeMuxBuilder Closed Traversal.



Lemma Build_succeeds_iff_keys_distinct_witness :
  RefusesRepeats (H:=strict) (fmap fst)
  ∧ wf Examples.collision_heap
  ∧ Examples.collision_heap !! 0 = Some Examples.collision_root
  ∧ refuses_repeats_only (H:=strict) (fmap fst) Examples.collision_heap 0
  ∧ ((∃ h' mux, Build (H:=strict) 0 Examples.collision_heap = Built h' mux)
     ↔ ∀ p1 p2 key,
         holds Examples.collision_heap 0 p1 key →
         holds Examples.collision_heap 0 p2 key → p1 = p2)
  ∧ ((∃ h' mux, Build (H:=strict) 0 Examples.collision_heap = Built h' mux)
     ∨ ∃ h' pattern,
         Build (H:=strict) 0 Examples.collision_heap = HandlePanic h' pattern).
Proof.
  split; [exact strict_RefusesRepeats |]. split; [exact collision_heap_wf |].
  split; [reflexivity |].
  split; [exact (strict_refuses_repeats_only Examples.collision_heap 0) |].
  exact (Build_succeeds_iff_keys_distinct (H:=strict) (fmap fst)
           (Hrepeats:=strict_RefusesRepeats)
           Examples.collision_heap 0 Examples.collision_root
           collision_heap_wf eq_refl
           (strict_refuses_repeats_only Examples.collision_heap 0)).
Defined.

End RepeatsWitness.

(** ** Two runs of [Build], each with its own order of the [range] *)

Section Ranging.
Import ServeMuxBuilder Closed Traversal.
Context `{Dispatcher ServeMux}.
Implicit Types (h : heap) (b r : ptr) (n : node)
               (range : gmap string Handler → list (string * Handler)).

(** In the order of [map_to_list] the run is [Build]. *)
Lemma Build_loop_ranging_map_to_list fuel b queue visited (mux : ServeMux) h :
  Build_loop_ranging map_to_list fuel b queue visited mux h
  = Build_loop fuel b queue visited mux h.
Proof.
  revert queue visited mux h.
  induction fuel as [|fuel IH]; intros queue visited mux h; [done |].
  destruct queue as [|c queue]; [done |].
  cbn [Build_loop_ranging Build_loop]. case_bool_decide; [apply IH |].
  destruct (h !! c) as [cur|]; [|done].
  destruct (Build_register _ _ _ _ _) as [h1 mux1| | |]; try done.
  destruct (h1 !! c); [apply IH | done].
Qed.

Lemma Build_ranging_map_to_list b h :
  Build_ranging map_to_list b h = Build b h.
Proof.
  unfold Build_ranging, Build, Build_within_ranging, Build_within.
  destruct (h !! b); [|done]. by rewrite Build_loop_ranging_map_to_list.
Qed.

(** The queue loop in closed form, as for [Build_loop]. *)
Lemma Build_loop_ranging_closed range h b nb rn fuel queue visited mux log order :
  wf h → h !! b = Some nb → h !! Root nb = Some rn →
  Forall (λ c, c < length h) queue →
  bfs (subrouters h) fuel queue visited = Some order →
  Build_loop_ranging range fuel b queue visited mux (logged h (Root nb) log)
  = match Handle_all (flat_map (calls_ranging range h) order) mux log with
    | inl (mux', log') => Built (logged h (Root nb) log') mux'
    | inr (pattern, log') => HandlePanic (logged h (Root nb) log') pattern
    end.
Proof.
  intros Hwf Hb Hr. revert queue visited mux log order.
  induction fuel as [|fuel IH]; intros queue visited mux log order Hq Hbfs; [done |].
  destruct queue as [|c queue].
  { injection Hbfs as <-. done. }
  apply Forall_cons in Hq as [Hc Hq].
  cbn [bfs Build_loop_ranging] in *. case_bool_decide as Hvisited; [by apply IH |].
  destruct (bfs _ fuel _ _) as [o|] eqn:Ho; [|done]. injection Hbfs as <-.
  destruct (lookup_lt_is_Some_2 h c Hc) as [cur Hcur].
  destruct (wf_lookup _ _ _ Hwf Hcur) as (_ & _ & Hsubs).
  destruct (logged_lookup_Some _ _ _ log _ _ Hr Hcur) as (cur' & -> & -> & _).
  rewrite (Build_register_closed _ _ _ _ _ _ _ _ _ Hb Hr Hcur).
  cbn [flat_map]. rewrite Handle_all_app.
  unfold calls_ranging at 1. rewrite Hcur.
  destruct (Handle_all _ mux log) as [[mux' log']|[pattern log']]; [|done].
  destruct (logged_lookup_Some _ _ _ log' _ _ Hr Hcur) as (cur'' & -> & _ & _ & _ & ->).
  apply IH.
  - apply Forall_app. by split.
  - unfold subrouters in Ho. by rewrite Hcur in Ho.
Qed.

Lemma Build_within_ranging_closed range h b nb rn fuel order :
  wf h → h !! b = Some nb → h !! Root nb = Some rn →
  bfs (subrouters h) fuel [Root nb] ∅ = Some order →
  Build_within_ranging range fuel b h
  = match Handle_all (flat_map (calls_ranging range h) order) NewServeMux
                     (registeredPatterns rn) with
    | inl (mux, log) =>
        Built (<[Root nb := set_executedBuild true
                              (set_registeredPatterns log rn)]> h) mux
    | inr (pattern, log) =>
        HandlePanic (<[Root nb := set_registeredPatterns log rn]> h) pattern
    end.
Proof.
  intros Hwf Hb Hr Hbfs.
  unfold Build_within_ranging. rewrite Hb.
  rewrite <- (logged_start h (Root nb) rn Hr) at 1.
  rewrite (Build_loop_ranging_closed range h b nb rn fuel [Root nb] ∅
             NewServeMux (registeredPatterns rn) order Hwf Hb Hr).
  - destruct (Handle_all _ _ _) as [[mux log]|[pattern log]].
    + destruct (logged_lookup_Some _ _ _ log _ _ Hr Hb)
        as (nb' & Hb' & _ & _ & Hroot' & _).
      unfold exec. rewrite bind_eq, (get_eq _ _ _ _ Hb'), Hroot'.
      rewrite (modify_eq _ _ _ (set_registeredPatterns log rn))
        by (rewrite (logged_lookup _ _ _ _ _ Hr); by rewrite decide_True).
      unfold logged. rewrite Hr. simpl. by rewrite list_insert_insert_eq.
    + unfold logged. by rewrite Hr.
  - apply Forall_singleton. by eapply lookup_lt_Some.
  - done.
Qed.

Lemma Build_ranging_closed range h b nb rn order :
  wf h → h !! b = Some nb → h !! Root nb = Some rn →
  bfs (subrouters h) (Build_fuel h) [Root nb] ∅ = Some order →
  Build_ranging range b h
  = match Handle_all (flat_map (calls_ranging range h) order) NewServeMux
                     (registeredPatterns rn) with
    | inl (mux, log) =>
        Built (<[Root nb := set_executedBuild true
                              (set_registeredPatterns log rn)]> h) mux
    | inr (pattern, log) =>
        HandlePanic (<[Root nb := set_registeredPatterns log rn]> h) pattern
    end.
Proof. apply Build_within_ranging_closed. Qed.

(** The calls of two runs are the same up to the order within each
    builder. *)
Lemma calls_ranging_Permutation range range' h order :
  (∀ m, range m ≡ₚ range' m) →
  flat_map (calls_ranging range h) order
  ≡ₚ flat_map (calls_ranging range' h) order.
Proof.
  intros Hperm. induction order as [|p order IH]; [done |].
  cbn [flat_map]. apply Permutation_app; [|done].
  unfold calls_ranging. destruct (h !! p); [|done].
  by apply fmap_Permutation.
Qed.

Lemma calls_ranging_logged range h r rn' p :
  (∀ rn, h !! r = Some rn →
         Patterns rn' = Patterns rn ∧ Middlewares rn' = Middlewares rn) →
  calls_ranging range (<[r := rn']> h) p = calls_ranging range h p.
Proof.
  intros Hsame. unfold calls_ranging. destruct (decide (p = r)) as [->|Hpr].
  - destruct (h !! r) as [rn|] eqn:Hr.
    + rewrite (lookup_written _ _ _ _ Hr).
      destruct (Hsame _ eq_refl) as [-> ->]. done.
    + rewrite list_insert_ge by (by apply lookup_ge_None). by rewrite Hr.
  - by rewrite list_lookup_insert_ne.
Qed.

(** C4, amended.  [Build] has no guard: it sets [executedBuild] on the
    root, which [PrintRegisteredPatterns] reads, and does not read it.  A
    second [Build] on the same tree traverses it again, visits the same
    builders and makes the [Handle] calls of the same registrations into a
    new dispatcher; the order of the calls of a builder is that of the
    [range] of each run and may differ.  Every pattern is appended once more
    to the list of the root.  What the second run returns is what these
    calls give from a new dispatcher: a new table when all are accepted, the
    panic of [Handle] else; in the order of the first run, a table equal to
    the first one, which is a separate value and is not changed. *)
Theorem Build_again_registers_again range1 range2 h b n h1 (mux1 : ServeMux) :
  (∀ m, range1 m ≡ₚ map_to_list m) → (∀ m, range2 m ≡ₚ map_to_list m) →
  wf h → h !! b = Some n → Build_ranging range1 b h = Built h1 mux1 →
  ∃ rn order,
    h !! Root n = Some rn
    ∧ bfs (subrouters h) (Build_fuel h) [Root n] ∅ = Some order
    ∧ Handle_all (flat_map (calls_ranging range1 h) order) NewServeMux []
      = inl (mux1, (flat_map (calls_ranging range1 h) order).*1)
    ∧ h1 = <[Root n := set_executedBuild true
                         (set_registeredPatterns
                            (registeredPatterns rn
                             ++ (flat_map (calls_ranging range1 h) order).*1) rn)]> h
    ∧ PrintRegisteredPatterns b h1
      = Some (registeredPatterns rn
              ++ (flat_map (calls_ranging range1 h) order).*1)
    ∧ flat_map (calls_ranging range2 h) order
      ≡ₚ flat_map (calls_ranging range1 h) order
    ∧ Build_ranging range2 b h1
      = match Handle_all (flat_map (calls_ranging range2 h) order)
                         NewServeMux [] with
        | inl (mux2, _) =>
            Built (<[Root n := set_executedBuild true
                       (set_registeredPatterns
                          ((registeredPatterns rn
                            ++ (flat_map (calls_ranging range1 h) order).*1)
                           ++ (flat_map (calls_ranging range2 h) order).*1)
                          rn)]> h) mux2
        | inr (pattern, log2) =>
            HandlePanic (<[Root n := set_executedBuild true
                             (set_registeredPatterns
                                ((registeredPatterns rn
                                  ++ (flat_map (calls_ranging range1 h) order).*1)
                                 ++ log2) rn)]> h) pattern
        end
    ∧ ((∀ m, range2 m = range1 m) →
       Build_ranging range2 b h1
       = Built (<[Root n := set_executedBuild true
                    (set_registeredPatterns
                       ((registeredPatterns rn
                         ++ (flat_map (calls_ranging range1 h) order).*1)
                        ++ (flat_map (calls_ranging range1 h) order).*1) rn)]> h)
               mux1).
Proof.
  intros Hrange1 Hrange2 Hwf Hb Hbuild.
  destruct (wf_lookup _ _ _ Hwf Hb) as (Hroot & Hparent & Hsubs).
  destruct (lookup_lt_is_Some_2 h _ Hroot) as [rn Hr].
  destruct (Build_fuel_enough h (Root n) (Build_fuel h)) as [order Hbfs]; [done |].
  rewrite (Build_ranging_closed _ _ _ _ _ _ Hwf Hb Hr Hbfs) in Hbuild.
  rewrite <- (app_nil_r (registeredPatterns rn)), Handle_all_shift in Hbuild.
  set (calls1 := flat_map (calls_ranging range1 h) order) in *.
  destruct (Handle_all calls1 NewServeMux []) as [[mux log1]|[pattern log1]] eqn:Hall;
    [|done].
  injection Hbuild as <- <-.
  pose proof (Handle_all_log _ _ _ _ _ Hall) as Hlog. cbn [app] in Hlog. subst log1.
  set (rn1 := set_executedBuild true
                (set_registeredPatterns (registeredPatterns rn ++ calls1.*1) rn)).
  set (h1 := <[Root n := rn1]> h).
  assert (wf h1) as Hwf1.
  { destruct (wf_lookup _ _ _ Hwf Hr) as (? & ? & ?). by apply wf_update. }
  assert (h1 !! Root n = Some rn1) as Hr1 by (by eapply lookup_written).
  assert (∃ n1, h1 !! b = Some n1 ∧ Root n1 = Root n) as (n1 & Hb1 & Hroot1).
  { unfold h1. destruct (decide (b = Root n)) as [Hbr|Hbr].
    - exists rn1. rewrite <- Hbr in *. split; [by eapply lookup_written |].
      rewrite Hb in Hr. by injection Hr as <-.
    - exists n. by rewrite list_lookup_insert_ne. }
  assert (bfs (subrouters h1) (Build_fuel h1) [Root n1] ∅ = Some order) as Hbfs1.
  { rewrite Hroot1. unfold h1.
    rewrite (Build_fuel_logged _ _ _ _ Hr) by done.
    rewrite <- Hbfs. apply bfs_ext. intros p. apply subrouters_logged.
    intros rn0 Hrn0. rewrite Hr in Hrn0. by injection Hrn0 as <-. }
  assert (∀ range, Build_ranging range b h1
          = match Handle_all (flat_map (calls_ranging range h) order)
                             NewServeMux [] with
            | inl (mux2, _) =>
                Built (<[Root n := set_executedBuild true
                           (set_registeredPatterns
                              ((registeredPatterns rn ++ calls1.*1)
                               ++ (flat_map (calls_ranging range h) order).*1)
                              rn)]> h)
                      mux2
            | inr (pattern, log2) =>
                HandlePanic (<[Root n := set_executedBuild true
                                 (set_registeredPatterns
                                    ((registeredPatterns rn ++ calls1.*1) ++ log2)
                                    rn)]> h) pattern
            end) as Hsecond.
  { intros range.
    rewrite (Build_ranging_closed range _ _ _ _ _ Hwf1 Hb1
               ltac:(rewrite Hroot1; exact Hr1) Hbfs1).
    rewrite Hroot1.
    assert (flat_map (calls_ranging range h1) order
            = flat_map (calls_ranging range h) order) as ->.
    { apply flat_map_ext. intros p. apply calls_ranging_logged.
      intros rn0 Hrn0. rewrite Hr in Hrn0. by injection Hrn0 as <-. }
    change (registeredPatterns rn1) with (registeredPatterns rn ++ calls1.*1).
    rewrite <- (app_nil_r (registeredPatterns rn ++ calls1.*1)) at 1.
    rewrite Handle_all_shift.
    destruct (Handle_all (flat_map (calls_ranging range h) order) NewServeMux [])
      as [[mux2 log2]|[pattern log2]] eqn:Hall2;
      unfold h1; rewrite list_insert_insert_eq; [|done].
    apply Handle_all_log in Hall2. cbn [app] in Hall2. by subst log2. }
  exists rn, order. split; [done |]. split; [done |]. split; [done |].
  split; [done |]. split.
  { unfold PrintRegisteredPatterns. by rewrite Hb1, Hroot1, Hr1. }
  split.
  { apply calls_ranging_Permutation. intros m. by rewrite Hrange1, Hrange2. }
  split; [apply Hsecond |].
  intros Hsame. rewrite Hsecond.
  assert (flat_map (calls_ranging range2 h) order = calls1) as ->.
  { apply flat_map_ext. intros p. unfold calls_ranging.
    destruct (h !! p); [|done]. by rewrite Hsame. }
  by rewrite Hall.
Qed.

End Ranging.

Section RangingWitness.
Import ServeMuxBuilder Closed Traversal.

Lemma Build_again_registers_again_witness :
  (∀ m : gmap string Handler, map_to_list m ≡ₚ map_to_list m)
  ∧ (∀ m : gmap string Handler, reverse (map_to_list m) ≡ₚ map_to_list m)
  ∧ wf Examples.looped
  ∧ Examples.looped !! 0
    = Some (mkNode {["GET /v1/ping" := say "pong"]} "/v1" [] 0 0 [0] false [])
  ∧ Build_ranging (H:=recording) map_to_list 0 Examples.looped
    = Built [mkNode {["GET /v1/ping" := say "pong"]} "/v1" [] 0 0 [0] true
                    ["GET /v1/ping"]]
            [("GET /v1/ping", newHandler [] (say "pong"))]
  ∧ ∃ rn order,
      Examples.looped !! 0 = Some rn
      ∧ bfs (subrouters Examples.looped) (Build_fuel Examples.looped) [0] ∅
        = Some order
      ∧ Handle_all (H:=recording)
          (flat_map (calls_ranging map_to_list Examples.looped) order) [] []
        = inl ([("GET /v1/ping", newHandler [] (say "pong"))],
               (flat_map (calls_ranging map_to_list Examples.looped) order).*1)
      ∧ [mkNode {["GET /v1/ping" := say "pong"]} "/v1" [] 0 0 [0] true
                ["GET /v1/ping"]]
        = <[0 := set_executedBuild true
                   (set_registeredPatterns
                      (registeredPatterns rn
                       ++ (flat_map (calls_ranging map_to_list Examples.looped)
                                    order).*1) rn)]> Examples.looped
      ∧ PrintRegisteredPatterns 0
          [mkNode {["GET /v1/ping" := say "pong"]} "/v1" [] 0 0 [0] true
                  ["GET /v1/ping"]]
        = Some (registeredPatterns rn
                ++ (flat_map (calls_ranging map_to_list Examples.looped) order).*1)
      ∧ flat_map (calls_ranging (λ m, reverse (map_to_list m)) Examples.looped) order
        ≡ₚ flat_map (calls_ranging map_to_list Examples.looped) order
      ∧ Build_ranging (H:=recording) (λ m, reverse (map_to_list m)) 0
          [mkNode {["GET /v1/ping" := say "pong"]} "/v1" [] 0 0 [0] true
                  ["GET /v1/ping"]]
        = match Handle_all (H:=recording)
                  (flat_map (calls_ranging (λ m, reverse (map_to_list m))
                                           Examples.looped) order) [] [] with
          | inl (mux2, _) =>
              Built (<[0 := set_executedBuild true
                         (set_registeredPatterns
                            ((registeredPatterns rn
                              ++ (flat_map (calls_ranging map_to_list
                                              Examples.looped) order).*1)
                             ++ (flat_map (calls_ranging
                                             (λ m, reverse (map_to_list m))
                                             Examples.looped) order).*1)
                            rn)]> Examples.looped) mux2
          | inr (pattern, log2) =>
              HandlePanic (<[0 := set_executedBuild true
                               (set_registeredPatterns
                                  ((registeredPatterns rn
                                    ++ (flat_map (calls_ranging map_to_list
                                                    Examples.looped) order).*1)
                                   ++ log2) rn)]> Examples.looped) pattern
          end
      ∧ ((∀ m : gmap string Handler, reverse (map_to_list m) = map_to_list m) →
         Build_ranging (H:=recording) (λ m, reverse (map_to_list m)) 0
           [mkNode {["GET /v1/ping" := say "pong"]} "/v1" [] 0 0 [0] true
                   ["GET /v1/ping"]]
         = Built (<[0 := set_executedBuild true
                      (set_registeredPatterns
                         ((registeredPatterns rn
                           ++ (flat_map (calls_ranging map_to_list
                                           Examples.looped) order).*1)
                          ++ (flat_map (calls_ranging map_to_list
                                          Examples.looped) order).*1) rn)]>
                    Examples.looped)
                 [("GET /v1/ping", newHandler [] (say "pong"))]).
Proof.
  assert (wf Examples.looped) as Hwf.
  { apply Forall_singleton. simpl. repeat split; try lia.
    apply Forall_singleton. lia. }
  assert (∀ m : gmap string Handler, map_to_list m ≡ₚ map_to_list m) as Hr1
    by done.
  assert (∀ m : gmap string Handler, reverse (map_to_list m) ≡ₚ map_to_list m)
    as Hr2 by (intros m; apply reverse_Permutation).
  assert (Build_ranging (H:=recording) map_to_list 0 Examples.looped
          = Built [mkNode {["GET /v1/ping" := say "pong"]} "/v1" [] 0 0 [0] true
                          ["GET /v1/ping"]]
                  [("GET /v1/ping", newHandler [] (say "pong"))]) as Hbuild
    by (vm_compute; reflexivity).
  split; [exact Hr1 |]. split; [exact Hr2 |]. split; [exact Hwf |].
  split; [reflexivity |]. split; [exact Hbuild |].
  exact (Build_again_registers_again (H:=recording) map_to_list
           (λ m, reverse (map_to_list m)) Examples.looped 0
           (mkNode {["GET /v1/ping" := say "pong"]} "/v1" [] 0 0 [0] false [])
           _ _ Hr1 Hr2 Hwf eq_refl Hbuild).
Defined.

End RangingWitness.

(** ** What [Pattern] stores *)

Section Stored.
Import ServeMuxBuilder Closed.
Implicit Types (h : heap) (b : ptr) (n : node).

Lemma store_patterns_other prefix entries (m : gmap string Handler) key :
  key ∉ pattern_key prefix <$> entries.*1 →
  store_patterns prefix entries m !! key = m !! key.
Proof.
  revert m. induction entries as [|[p hd] entries IH]; intros m Hkey; [done |].
  rewrite store_patterns_cons. cbn [fmap list_fmap fst snd] in *.
  apply not_elem_of_cons in Hkey as [Hne Hkey].
  rewrite IH by done. by rewrite lookup_insert_ne.
Qed.

Lemma store_patterns_lookup prefix entries (m : gmap string Handler) p hd :
  NoDup (pattern_key prefix <$> entries.*1) → (p, hd) ∈ entries →
  store_patterns prefix entries m !! pattern_key prefix p = Some hd.
Proof.
  revert m. induction entries as [|[q hq] entries IH]; intros m Hnd Hin.
  { by apply elem_of_nil in Hin. }
  rewrite store_patterns_cons. cbn [fmap list_fmap fst snd] in *.
  apply NoDup_cons in Hnd as [Hq Hnd].
  apply elem_of_cons in Hin as [[= -> ->]|Hin]; [|by apply IH].
  rewrite store_patterns_other by done. apply lookup_insert_eq.
Qed.

(** [Pattern] reads the prefixes and the lists of other builders and writes
    to the builder it is called on alone: no other builder is changed, none
    is made, and the builder keeps its middlewares, its root and its parent;
    it is appended to its own list of subrouters at every call.  The keys
    that the builder held stay. *)
Theorem Pattern_changes_its_builder_only
    h b n (patterns : gmap string Handler) :
  wf h → h !! b = Some n →
  ∃ h' n',
    exec (Pattern b patterns) h = Some h'
    ∧ length h' = length h ∧ (∀ p, p ≠ b → h' !! p = h !! p)
    ∧ h' !! b = Some n'
    ∧ Middlewares n' = Middlewares n ∧ Root n' = Root n ∧ Parent n' = Parent n
    ∧ executedBuild n' = executedBuild n
    ∧ registeredPatterns n' = registeredPatterns n
    ∧ SubServeMuxBuilder n' = SubServeMuxBuilder n ++ [b]
    ∧ dom (Patterns n) ⊆ dom (Patterns n').
Proof.
  intros Hwf Hb. eexists _, _. unfold exec.
  rewrite (Pattern_closed _ _ _ _ Hwf Hb).
  split; [done |]. split; [apply length_insert |].
  split; [intros p Hp; by apply list_lookup_insert_ne |].
  split; [by eapply lookup_written |].
  repeat (split; [done |]). cbn [Patterns].
  intros key Hkey. apply store_patterns_dom. by left.
Qed.

Lemma Pattern_changes_its_builder_only_witness :
  wf Examples.collision_heap
  ∧ Examples.collision_heap !! 1 = Some Examples.collision_child
  ∧ ∃ h' n',
      exec (Pattern 1 {["GET /y" := say "y"]}) Examples.collision_heap = Some h'
      ∧ length h' = length Examples.collision_heap
      ∧ (∀ p, p ≠ 1 → h' !! p = Examples.collision_heap !! p)
      ∧ h' !! 1 = Some n'
      ∧ Middlewares n' = Middlewares Examples.collision_child
      ∧ Root n' = Root Examples.collision_child
      ∧ Parent n' = Parent Examples.collision_child
      ∧ executedBuild n' = executedBuild Examples.collision_child
      ∧ registeredPatterns n' = registeredPatterns Examples.collision_child
      ∧ SubServeMuxBuilder n' = SubServeMuxBuilder Examples.collision_child ++ [1]
      ∧ dom (Patterns Examples.collision_child) ⊆ dom (Patterns n').
Proof.
  split; [exact collision_heap_wf |]. split; [reflexivity |].
  exact (Pattern_changes_its_builder_only Examples.collision_heap 1
           Examples.collision_child {["GET /y" := say "y"]}
           collision_heap_wf eq_refl).
Defined.

(** When no two registration strings of a call give the same key, every
    string is afterwards found under its key with the handler of the call,
    whatever was under that key before, and every other key holds what it
    held. *)
Theorem Pattern_stores_and_finds
    h b n (patterns : gmap string Handler) :
  wf h → h !! b = Some n →
  (∀ p q, p ∈ dom patterns → q ∈ dom patterns →
          pattern_key (Pattern_base h b +:+ PatternPrefix n) p
          = pattern_key (Pattern_base h b +:+ PatternPrefix n) q → p = q) →
  ∃ h' n',
    exec (Pattern b patterns) h = Some h' ∧ h' !! b = Some n'
    ∧ PatternPrefix n' = Pattern_base h b +:+ PatternPrefix n
    ∧ (∀ p hd, patterns !! p = Some hd →
               Patterns n' !! pattern_key (PatternPrefix n') p = Some hd)
    ∧ (∀ key, (∀ p, p ∈ dom patterns → key ≠ pattern_key (PatternPrefix n') p) →
              Patterns n' !! key = Patterns n !! key).
Proof.
  intros Hwf Hb Hinj. eexists _, _. unfold exec.
  rewrite (Pattern_closed _ _ _ _ Hwf Hb).
  split; [done |]. split; [by eapply lookup_written |]. split; [done |].
  cbn [Patterns PatternPrefix]. split.
  - intros p hd Hp. apply store_patterns_lookup; [|by apply elem_of_map_to_list].
    apply NoDup_fmap_2_strong; [|apply NoDup_fst_map_to_list].
    intros p1 p2 Hp1 Hp2. apply Hinj.
    + apply list_elem_of_fmap in Hp1 as ([q1 hd1] & Heq & Hin%elem_of_map_to_list).
      cbn [fst] in Heq. subst p1. apply elem_of_dom. by eexists.
    + apply list_elem_of_fmap in Hp2 as ([q2 hd2] & Heq & Hin%elem_of_map_to_list).
      cbn [fst] in Heq. subst p2. apply elem_of_dom. by eexists.
  - intros key Hkey. apply store_patterns_other.
    intros (p & Heq & ([q hd] & Hpq & Hin%elem_of_map_to_list)%list_elem_of_fmap)%list_elem_of_fmap.
    cbn [fst] in Hpq. subst p.
    apply (Hkey q); [|done]. apply elem_of_dom. by eexists.
Qed.

Lemma Pattern_stores_and_finds_witness :
  wf Examples.one_root
  ∧ Examples.one_root !! 0 = Some (mkNode ∅ "/v1" [] 0 0 [] false [])
  ∧ (∀ p q, p ∈ dom ({["GET /ping" := say "pong"]} : gmap string Handler) →
            q ∈ dom ({["GET /ping" := say "pong"]} : gmap string Handler) →
            pattern_key (Pattern_base Examples.one_root 0 +:+ "/v1") p
            = pattern_key (Pattern_base Examples.one_root 0 +:+ "/v1") q → p = q)
  ∧ ∃ h' n',
      exec (Pattern 0 {["GET /ping" := say "pong"]}) Examples.one_root = Some h'
      ∧ h' !! 0 = Some n'
      ∧ PatternPrefix n' = Pattern_base Examples.one_root 0 +:+ "/v1"
      ∧ (∀ p hd, ({["GET /ping" := say "pong"]} : gmap string Handler) !! p = Some hd →
                 Patterns n' !! pattern_key (PatternPrefix n') p = Some hd)
      ∧ (∀ key,
           (∀ p, p ∈ dom ({["GET /ping" := say "pong"]} : gmap string Handler) →
                 key ≠ pattern_key (PatternPrefix n') p) →
           Patterns n' !! key = (∅ : gmap string Handler) !! key).
Proof.
  assert (wf Examples.one_root) as Hwf.
  { apply Forall_singleton. simpl. repeat split; (lia || constructor). }
  assert (∀ p q, p ∈ dom ({["GET /ping" := say "pong"]} : gmap string Handler) →
            q ∈ dom ({["GET /ping" := say "pong"]} : gmap string Handler) →
            pattern_key (Pattern_base Examples.one_root 0 +:+ "/v1") p
            = pattern_key (Pattern_base Examples.one_root 0 +:+ "/v1") q → p = q)
    as Hinj.
  { intros p q Hp Hq _. rewrite dom_singleton_L in Hp, Hq.
    apply elem_of_singleton in Hp, Hq. congruence. }
  split; [exact Hwf |]. split; [reflexivity |]. split; [exact Hinj |].
  exact (Pattern_stores_and_finds Examples.one_root 0
           (mkNode ∅ "/v1" [] 0 0 [] false [])
           {["GET /ping" := say "pong"]} Hwf eq_refl Hinj).
Defined.

(** A prefix with the slash that [Prefix] puts before it, followed by a
    text, collapses to the same as a slash, the prefix and the text, when the
    text starts with a slash or the prefix is not empty. *)
Lemma removeDoubleSlash_with_leading_slash (prefix text : string) :
  starts_with "/"%char text = true ∨ prefix ≠ "" →
  removeDoubleSlash (Spec.with_leading_slash prefix +:+ text)
  = removeDoubleSlash ("/" +:+ prefix +:+ text).
Proof.
  intros Hcase. destruct prefix as [|c prefix].
  - destruct Hcase as [Htext|?]; [|done].
    destruct text as [|c text]; [done |]. cbn [starts_with] in Htext.
    change ("/" +:+ "" +:+ String c text) with (String "/" (String c text)).
    rewrite removeDoubleSlash_cons, Htext. done.
  - cbn [Spec.with_leading_slash].
    destruct (Ascii.eqb c "/"%char) eqn:Hc; [|done].
    change ("/" +:+ String c prefix +:+ text)
      with (String "/" (String c (prefix +:+ text))).
    rewrite removeDoubleSlash_cons, Hc. done.
Qed.

(** On a direct subrouter of the root, the first [Pattern] after
    [Prefix(p1)], the root having had [Prefix(p0)], registers a string
    ["METHOD /path"] under the method followed by the join of ["p0"],
    ["p1"] and the path with single slashes: the effective prefix of the
    builder, followed by the path. *)
Theorem Pattern_on_subrouter_of_root
    h b n r (patterns : gmap string Handler) (p0 p1 : string) :
  wf h → h !! b = Some n → Root n ≠ b → Parent n = Root n →
  h !! Root n = Some r →
  PatternPrefix r = Spec.with_leading_slash p0 →
  PatternPrefix n = Spec.with_leading_slash p1 →
  ∃ h' n',
    exec (Pattern b patterns) h = Some h' ∧ h' !! b = Some n'
    ∧ PatternPrefix n' = PatternPrefix r +:+ PatternPrefix n
    ∧ ∀ p, p ∈ dom patterns →
        starts_with "/"%char (method_and_path p).2 = true →
        pattern_key (PatternPrefix n') p
        = (method_and_path p).1
          +:+ removeDoubleSlash (Spec.effective_prefix [p0; p1]
                                 +:+ (method_and_path p).2)
        ∧ pattern_key (PatternPrefix n') p ∈ dom (Patterns n').
Proof.
  intros Hwf Hb Hrb Hpr Hr Hp0 Hp1. eexists _, _. unfold exec.
  rewrite (Pattern_closed _ _ _ _ Hwf Hb).
  split; [done |]. split; [by eapply lookup_written |].
  cbn [Patterns PatternPrefix].
  rewrite (Pattern_base_child _ _ _ _ Hb Hrb Hpr Hr). split; [done |].
  intros p Hp Hpath. split.
  - unfold pattern_key. destruct (method_and_path p) as [method path].
    cbn [fst snd] in *. f_equal.
    unfold Spec.effective_prefix. cbn [foldr].
    rewrite removeDoubleSlash_app_l, Hp0, Hp1.
    assert (starts_with "/"%char (Spec.with_leading_slash p1 +:+ path) = true)
      as Hstart.
    { destruct p1 as [|c p1']; [done |]. cbn [Spec.with_leading_slash].
      destruct (Ascii.eqb c "/"%char) eqn:Hc; [|done].
      rewrite append_cons. done. }
    transitivity (removeDoubleSlash (("/" +:+ p0) +:+ "/" +:+ p1 +:+ path)).
    + rewrite (append_assoc (Spec.with_leading_slash p0)).
      rewrite removeDoubleSlash_with_leading_slash by (by left).
      rewrite <- (append_assoc "/" p0).
      rewrite <- (removeDoubleSlash_app_r ("/" +:+ p0)).
      rewrite removeDoubleSlash_with_leading_slash by (by left).
      by rewrite (removeDoubleSlash_app_r ("/" +:+ p0)).
    + by rewrite append_nil_r, !append_assoc.
  - apply store_patterns_dom. right.
    apply elem_of_dom in Hp as [hd Hhd].
    exists (p, hd). split; [by apply elem_of_map_to_list | done].
Qed.

Lemma Pattern_on_subrouter_of_root_witness :
  wf Examples.plain_heap
  ∧ Examples.plain_heap !! 1 = Some Examples.plain_child
  ∧ Root Examples.plain_child ≠ 1
  ∧ Parent Examples.plain_child = Root Examples.plain_child
  ∧ Examples.plain_heap !! Root Examples.plain_child = Some Examples.plain_root
  ∧ PatternPrefix Examples.plain_root = Spec.with_leading_slash "v1"
  ∧ PatternPrefix Examples.plain_child = Spec.with_leading_slash "admin"
  ∧ ∃ h' n',
      exec (Pattern 1 {["GET /secret" := say "secret"]}) Examples.plain_heap
        = Some h'
      ∧ h' !! 1 = Some n'
      ∧ PatternPrefix n'
        = PatternPrefix Examples.plain_root +:+ PatternPrefix Examples.plain_child
      ∧ ∀ p, p ∈ dom ({["GET /secret" := say "secret"]} : gmap string Handler) →
          starts_with "/"%char (method_and_path p).2 = true →
          pattern_key (PatternPrefix n') p
          = (method_and_path p).1
            +:+ removeDoubleSlash (Spec.effective_prefix ["v1"; "admin"]
                                   +:+ (method_and_path p).2)
          ∧ pattern_key (PatternPrefix n') p ∈ dom (Patterns n').
Proof.
  assert (wf Examples.plain_heap) as Hwf.
  { repeat (apply Forall_cons; split); try apply Forall_nil; simpl;
      repeat split; try lia; repeat (apply Forall_cons; split);
      try apply Forall_nil; lia. }
  split; [exact Hwf |]. split; [reflexivity |]. split; [simpl; lia |].
  do 4 (split; [reflexivity |]).
  exact (Pattern_on_subrouter_of_root Examples.plain_heap 1 Examples.plain_child
           Examples.plain_root {["GET /secret" := say "secret"]} "v1" "admin"
           Hwf eq_refl ltac:(simpl; lia) eq_refl eq_refl eq_refl eq_refl).
Defined.

(** The scenario of the README: the key of ["GET /secret"] on the subrouter
    [Prefix("admin")] of a root [Prefix("v1")]. *)
Example Pattern_admin_secret :
  Examples.keys_of
    ((Pattern 1 {["GET /secret" := say "secret"]} ≫= λ _, mret 1) Examples.plain_heap)
  = ["GET /v1/admin/secret"].
Proof. vm_compute. reflexivity. Qed.

End Stored.

(** ** Middlewares along the tree *)

Section Inherited.
Import ServeMuxBuilder Closed.
Implicit Types (h : heap) (a b p : ptr) (n : node).

Lemma Use_Middlewares_of h a na (middleware : list Middleware) :
  h !! a = Some na →
  ∃ h', exec (Use a middleware) h = Some h' ∧ length h' = length h
        ∧ ∀ p, Examples.Middlewares_of h' p
               = if decide (p = a) then Middlewares na ++ middleware
                 else Examples.Middlewares_of h p.
Proof.
  intros Ha.
  exists (<[a := set_Middlewares (Middlewares na ++ middleware) na]> h).
  unfold exec. rewrite (Use_closed _ _ _ _ Ha).
  split; [done |]. split; [apply length_insert |].
  intros p. unfold Examples.Middlewares_of. case_decide as Hpa.
  - subst p. by rewrite (lookup_written _ _ _ _ Ha).
  - by rewrite list_lookup_insert_ne.
Qed.

Lemma Subrouter_Middlewares_of h b n :
  wf h → h !! b = Some n →
  ∃ h', Subrouter b h = Some (length h, h') ∧ length h' = S (length h)
        ∧ wf h'
        ∧ ∀ p, Examples.Middlewares_of h' p
               = if decide (p = length h) then Middlewares n
                 else Examples.Middlewares_of h p.
Proof.
  intros Hwf Hb. pose proof (lookup_lt_Some _ _ _ Hb) as Hlt.
  destruct (wf_lookup _ _ _ Hwf Hb) as (Hr & _ & _).
  pose proof (Subrouter_closed _ _ _ Hb Hr) as Hsub.
  destruct (wf_Subrouter _ _ _ _ Hwf Hlt Hsub) as (Hwf' & _ & Hlen).
  exists (<[b := set_SubServeMuxBuilder (SubServeMuxBuilder n ++ [length h]) n]> h
          ++ [mkNode ∅ "" (Middlewares n) (Root n) b [] false []]).
  split; [exact Hsub |]. split; [done |]. split; [done |].
  intros p. unfold Examples.Middlewares_of. case_decide as Hp.
  - subst p. rewrite list_lookup_middle by (by rewrite length_insert). done.
  - destruct (decide (p < length h)) as [Hpl|Hpl].
    + rewrite lookup_app_l by (by rewrite length_insert).
      destruct (decide (p = b)) as [->|Hpb].
      * by rewrite (lookup_written _ _ _ _ Hb), Hb.
      * by rewrite list_lookup_insert_ne.
    + rewrite !lookup_ge_None_2; [done | lia |].
      rewrite length_app, length_insert. simpl. lia.
Qed.

(** The middlewares of a subrouter are those that the builder it is made
    from has at that moment.  A later [Use] on any older builder, the one it
    was made from included, does not reach it; its own [Use] appends to its
    copy and does not reach the builder it was made from; the next subrouter
    of that builder gets what the builder has then. *)
Theorem Subrouter_takes_a_snapshot
    h b n a (middleware own : list Middleware) :
  wf h → h !! b = Some n → a < length h →
  ∃ h1 h2 h3 h4,
    Subrouter b h = Some (length h, h1)
    ∧ exec (Use a middleware) h1 = Some h2
    ∧ exec (Use (length h) own) h2 = Some h3
    ∧ Subrouter b h3 = Some (S (length h), h4)
    ∧ Examples.Middlewares_of h1 (length h) = Middlewares n
    ∧ Examples.Middlewares_of h2 (length h) = Middlewares n
    ∧ Examples.Middlewares_of h3 (length h) = Middlewares n ++ own
    ∧ Examples.Middlewares_of h3 b
      = (if decide (a = b) then Middlewares n ++ middleware else Middlewares n)
    ∧ Examples.Middlewares_of h4 (S (length h)) = Examples.Middlewares_of h3 b
    ∧ Examples.Middlewares_of h4 (length h) = Middlewares n ++ own.
Proof.
  intros Hwf Hb Ha. pose proof (lookup_lt_Some _ _ _ Hb) as Hlt.
  destruct (Subrouter_Middlewares_of _ _ _ Hwf Hb) as (h1 & Hsub1 & Hlen1 & Hwf1 & Hmw1).
  destruct (lookup_lt_is_Some_2 h1 a) as [na Hna]; [lia |].
  destruct (Use_Middlewares_of h1 a na middleware Hna) as (h2 & Huse2 & Hlen2 & Hmw2).
  destruct (wf_Use _ _ _ _ Hwf1 Huse2) as (Hwf2 & _).
  destruct (lookup_lt_is_Some_2 h2 (length h)) as [nc Hnc]; [lia |].
  destruct (Use_Middlewares_of h2 (length h) nc own Hnc) as (h3 & Huse3 & Hlen3 & Hmw3).
  destruct (wf_Use _ _ _ _ Hwf2 Huse3) as (Hwf3 & _).
  destruct (lookup_lt_is_Some_2 h3 b) as [nb3 Hnb3]; [lia |].
  destruct (Subrouter_Middlewares_of _ _ _ Hwf3 Hnb3) as (h4 & Hsub4 & Hlen4 & Hwf4 & Hmw4).
  assert (Middlewares na = Examples.Middlewares_of h1 a) as Hna'
    by (unfold Examples.Middlewares_of; by rewrite Hna).
  assert (Middlewares nc = Examples.Middlewares_of h2 (length h)) as Hnc'
    by (unfold Examples.Middlewares_of; by rewrite Hnc).
  assert (Middlewares nb3 = Examples.Middlewares_of h3 b) as Hnb3'
    by (unfold Examples.Middlewares_of; by rewrite Hnb3).
  assert (Examples.Middlewares_of h b = Middlewares n) as Hn'
    by (unfold Examples.Middlewares_of; by rewrite Hb).
  assert (Examples.Middlewares_of h2 (length h) = Middlewares n) as H2c.
  { rewrite Hmw2, decide_False by lia. rewrite Hmw1. by rewrite decide_True. }
  assert (Examples.Middlewares_of h3 (length h) = Middlewares n ++ own) as H3c.
  { rewrite Hmw3, decide_True by done. by rewrite Hnc', H2c. }
  rewrite Hlen3, Hlen2, Hlen1 in Hsub4, Hmw4.
  exists h1, h2, h3, h4. repeat (split; [done |]).
  split; [rewrite Hmw1; by rewrite decide_True |].
  split; [done |]. split; [done |]. split; [|split].
  - rewrite Hmw3, decide_False by lia. rewrite Hmw2.
    case_decide as Hab.
    + subst a. rewrite decide_True by done.
      rewrite Hna', Hmw1, decide_False by lia. by rewrite Hn'.
    + rewrite decide_False by done. rewrite Hmw1, decide_False by lia. done.
  - rewrite Hmw4, decide_True by done. done.
  - rewrite Hmw4, decide_False by lia. done.
Qed.

Lemma Subrouter_takes_a_snapshot_witness :
  wf Examples.plain_heap
  ∧ Examples.plain_heap !! 1 = Some Examples.plain_child
  ∧ 1 < length Examples.plain_heap
  ∧ ∃ h1 h2 h3 h4,
      Subrouter 1 Examples.plain_heap = Some (length Examples.plain_heap, h1)
      ∧ exec (Use 1 [announce "B"]) h1 = Some h2
      ∧ exec (Use (length Examples.plain_heap) [announce "C"]) h2 = Some h3
      ∧ Subrouter 1 h3 = Some (S (length Examples.plain_heap), h4)
      ∧ Examples.Middlewares_of h1 (length Examples.plain_heap)
        = Middlewares Examples.plain_child
      ∧ Examples.Middlewares_of h2 (length Examples.plain_heap)
        = Middlewares Examples.plain_child
      ∧ Examples.Middlewares_of h3 (length Examples.plain_heap)
        = Middlewares Examples.plain_child ++ [announce "C"]
      ∧ Examples.Middlewares_of h3 1
        = (if decide (1 = 1) then Middlewares Examples.plain_child ++ [announce "B"]
           else Middlewares Examples.plain_child)
      ∧ Examples.Middlewares_of h4 (S (length Examples.plain_heap))
        = Examples.Middlewares_of h3 1
      ∧ Examples.Middlewares_of h4 (length Examples.plain_heap)
        = Middlewares Examples.plain_child ++ [announce "C"].
Proof.
  assert (wf Examples.plain_heap) as Hwf.
  { repeat (apply Forall_cons; split); try apply Forall_nil; simpl;
      repeat split; try lia; repeat (apply Forall_cons; split);
      try apply Forall_nil; lia. }
  split; [exact Hwf |]. split; [reflexivity |]. split; [simpl; lia |].
  apply (Subrouter_takes_a_snapshot Examples.plain_heap 1 Examples.plain_child 1
           [announce "B"] [announce "C"] Hwf eq_refl).
  simpl. lia.
Defined.

End Inherited.

(** ** The prototype: nil pointers and patterns without a space *)

Section HeapMore.
Context {node : Type}.
Implicit Types (h : list node).

Lemma get_fresh {A} (f : node → A) h x :
  get f (length h) (h ++ [x]) = Some (f x, h ++ [x]).
Proof. apply get_eq. by apply list_lookup_middle. Qed.

Lemma modify_fresh (f : node → node) h x :
  modify (length h) f (h ++ [x]) = Some (tt, h ++ [f x]).
Proof.
  rewrite (modify_eq _ _ _ x) by (by apply list_lookup_middle).
  by rewrite <- (Nat.add_0_r (length h)), insert_app_r.
Qed.

Lemma get_kept {A} (f : node → A) h b n x :
  h !! b = Some n → get f b (h ++ [x]) = Some (f n, h ++ [x]).
Proof. intros Hb. by apply get_eq, lookup_app_l_Some. Qed.

(** A loop ends in a panic when one of its turns always does. *)
Lemma for_each_None {A} (l : list A) (body : A → M (node:=node) unit) x :
  x ∈ l → (∀ h, body x h = None) → ∀ h, for_each l body h = None.
Proof.
  intros Hx Hbody. induction l as [|y l IH]; intros h.
  { by apply elem_of_nil in Hx. }
  rewrite for_each_cons. apply elem_of_cons in Hx as [<-|Hx].
  - by rewrite Hbody.
  - destruct (body y h) as [[[] h']|]; [by apply IH | done].
Qed.

End HeapMore.

Section Prototype.
Import XXSMux.
Implicit Types (h : heap) (mux : ptr) (n : node).

(** [Subrouter] of the prototype in closed form, on a builder whose root
    is set: the new builder gets the middlewares of the root. *)
Lemma proto_Subrouter_closed h mux n r nr :
  h !! mux = Some n → root n = Some r → h !! r = Some nr →
  Subrouter mux h
  = Some (length h,
          <[mux := set_subXXSMux (subXXSMux n ++ [length h]) n]> h
          ++ [mkNode ∅ "" (middlewares nr) (Some r) (Some mux) []]).
Proof.
  intros Hmux Hroot Hr. pose proof (lookup_lt_Some _ _ _ Hr) as Hlt.
  unfold Subrouter, NewXXSMux, alloc. heap_simpl.
  rewrite modify_fresh. heap_simpl.
  rewrite (get_kept _ _ _ _ _ Hmux). heap_simpl.
  rewrite modify_fresh. heap_simpl.
  rewrite (get_kept _ _ _ _ _ Hmux). heap_simpl.
  rewrite Hroot. cbn [get_at].
  rewrite (get_kept _ _ _ _ _ Hr). heap_simpl.
  rewrite (get_kept _ _ _ _ _ Hmux). heap_simpl. rewrite Hroot.
  rewrite (bool_decide_eq_true_2 (Some (length h) ≠ Some r))
    by (intros [= ?]; lia).
  rewrite andb_true_r.
  assert (∀ mws, modify mux (λ n0, set_subXXSMux (subXXSMux n0 ++ [length h]) n0)
                   (h ++ [mkNode ∅ "" mws (Some r) (Some mux) []])
                 = Some (tt, <[mux := set_subXXSMux (subXXSMux n ++ [length h]) n]> h
                             ++ [mkNode ∅ "" mws (Some r) (Some mux) []])) as Hlast.
  { intros mws. rewrite (modify_eq _ _ _ n) by (by apply lookup_app_l_Some).
    rewrite insert_app_l by (by eapply lookup_lt_Some). done. }
  case_bool_decide as Hnil; cbn [negb].
  - rewrite ret_eq. heap_simpl.
    change (set_root (Some r) (set_parent (Some mux) (mkNode ∅ "" [] None None [])))
      with (mkNode ∅ "" [] (Some r) (Some mux) []).
    rewrite Hlast. heap_simpl. rewrite ret_eq.
    destruct (middlewares nr); [done | done].
  - rewrite modify_fresh. heap_simpl.
    change (set_middlewares _ _)
      with (mkNode ∅ "" (middlewares nr) (Some r) (Some mux) []).
    rewrite Hlast. heap_simpl. by rewrite ret_eq.
Qed.

(** [Subrouter] of the prototype gives the new builder the middlewares of
    the root, whatever the builder it is called on has; the new builder has
    the caller as parent, the root of the caller as root, an empty prefix
    and no pattern; it is the last subrouter of the caller, and no other
    builder is changed. *)
Theorem proto_Subrouter_inherits_from_the_root h mux n r nr :
  h !! mux = Some n → root n = Some r → h !! r = Some nr →
  ∃ h' new caller,
    Subrouter mux h = Some (length h, h')
    ∧ h' !! length h = Some new
    ∧ middlewares new = middlewares nr
    ∧ parent new = Some mux ∧ root new = Some r
    ∧ patternPrefix new = "" ∧ patterns new = ∅ ∧ subXXSMux new = []
    ∧ h' !! mux = Some caller
    ∧ subXXSMux caller = subXXSMux n ++ [length h]
    ∧ middlewares caller = middlewares n
    ∧ ∀ p, p < length h → p ≠ mux → h' !! p = h !! p.
Proof.
  intros Hmux Hroot Hr. pose proof (lookup_lt_Some _ _ _ Hmux) as Hlt.
  eexists _, _, _. rewrite (proto_Subrouter_closed _ _ _ _ _ Hmux Hroot Hr).
  split; [done |].
  split; [apply list_lookup_middle; by rewrite length_insert |].
  do 6 (split; [done |]). split.
  { rewrite lookup_app_l by (by rewrite length_insert).
    by eapply lookup_written. }
  split; [done |]. split; [done |].
  intros p Hp Hne. rewrite lookup_app_l by (by rewrite length_insert).
  by apply list_lookup_insert_ne.
Qed.

Lemma proto_Subrouter_inherits_from_the_root_witness :
  Examples.proto_looped !! 0
    = Some (mkNode {["/v1/ping" := say "pong"]} "/v1" [] (Some 0) (Some 0) [0])
  ∧ Some 0 = Some 0
  ∧ Examples.proto_looped !! 0
    = Some (mkNode {["/v1/ping" := say "pong"]} "/v1" [] (Some 0) (Some 0) [0])
  ∧ ∃ h' new caller,
      Subrouter 0 Examples.proto_looped = Some (length Examples.proto_looped, h')
      ∧ h' !! length Examples.proto_looped = Some new
      ∧ middlewares new = []
      ∧ parent new = Some 0 ∧ root new = Some 0
      ∧ patternPrefix new = "" ∧ patterns new = ∅ ∧ subXXSMux new = []
      ∧ h' !! 0 = Some caller
      ∧ subXXSMux caller = [0] ++ [length Examples.proto_looped]
      ∧ middlewares caller = []
      ∧ ∀ p, p < length Examples.proto_looped → p ≠ 0 →
             h' !! p = Examples.proto_looped !! p.
Proof.
  split; [reflexivity |]. split; [reflexivity |]. split; [reflexivity |].
  exact (proto_Subrouter_inherits_from_the_root Examples.proto_looped 0
           (mkNode {["/v1/ping" := say "pong"]} "/v1" [] (Some 0) (Some 0) [0])
           0
           (mkNode {["/v1/ping" := say "pong"]} "/v1" [] (Some 0) (Some 0) [0])
           eq_refl eq_refl eq_refl).
Defined.

(** A builder fresh from [NewXXSMux] has no root: [Subrouter] and [Pattern]
    on it end in a nil dereference, which is why [main] sets the root and
    the parent of its router by hand. *)
Theorem proto_nil_root_panics h mux n (pats : gmap string Handler) :
  h !! mux = Some n → root n = None →
  Subrouter mux h = None ∧ Pattern mux pats h = None.
Proof.
  intros Hmux Hroot. split.
  - unfold Subrouter, NewXXSMux, alloc. heap_simpl.
    rewrite modify_fresh. heap_simpl.
    rewrite (get_kept _ _ _ _ _ Hmux). heap_simpl.
    rewrite modify_fresh. heap_simpl.
    rewrite (get_kept _ _ _ _ _ Hmux). heap_simpl.
    by rewrite Hroot.
  - unfold Pattern. heap_simpl.
    rewrite (get_eq _ _ _ _ Hmux). heap_simpl.
    rewrite (modify_eq _ _ _ _ Hmux). heap_simpl.
    rewrite (get_eq _ _ _ (set_patternPrefix "" n))
      by (by eapply lookup_written).
    heap_simpl. cbn [root set_patternPrefix]. by rewrite Hroot.
Qed.

Lemma proto_nil_root_panics_witness :
  [mkNode ∅ "" [] None None []] !! 0 = Some (mkNode ∅ "" [] None None [])
  ∧ root (mkNode ∅ "" [] None None []) = None
  ∧ Subrouter 0 [mkNode ∅ "" [] None None []] = None
  ∧ Pattern 0 {["GET /x" := say "x"]} [mkNode ∅ "" [] None None []] = None.
Proof.
  split; [reflexivity |]. split; [reflexivity |].
  exact (proto_nil_root_panics [mkNode ∅ "" [] None None []] 0
           (mkNode ∅ "" [] None None []) {["GET /x" := say "x"]} eq_refl eq_refl).
Defined.

(** [Pattern] of the prototype takes the second field of every registration
    string: on a map that holds a string without a space it ends in a panic,
    whatever the heap and the other strings (that of the index, if no nil
    pointer stops it before). *)
Theorem proto_Pattern_panics_without_space
    h mux (pats : gmap string Handler) (p : string) :
  p ∈ dom pats → has_byte " " p = false → Pattern mux pats h = None.
Proof.
  intros [hd Hhd]%elem_of_dom Hspace.
  assert (∀ h0, for_each (map_to_list pats) (λ '(pattern, handler),
             pp ← get patternPrefix mux;
             match Split pattern " "%char !! 1 with
             | Some path =>
                 modify mux (λ n, set_patterns
                   (<[removeDoubleSlash (pp +:+ path) := handler]> (patterns n)) n)
             | None => λ _, None
             end) h0 = None) as Hloop.
  { apply (for_each_None _ _ (p, hd)); [by apply elem_of_map_to_list |].
    intros h1. rewrite bind_eq. rewrite Split_no_sep by done.
    by destruct (get patternPrefix mux h1) as [[? ?]|]. }
  unfold Pattern.
  repeat (rewrite bind_eq;
          match goal with
          | |- match for_each (map_to_list _) _ _ with _ => _ end = None =>
              rewrite Hloop; reflexivity
          | |- match ?m with _ => _ end = None =>
              destruct m as [[? ?]|]; [|reflexivity]
          end).
Qed.

Lemma proto_Pattern_panics_without_space_witness :
  "/ping" ∈ dom ({["/ping" := say "pong"]} : gmap string Handler)
  ∧ has_byte " " "/ping" = false
  ∧ Pattern 0 {["/ping" := say "pong"]} Examples.proto_looped = None.
Proof.
  assert ("/ping" ∈ dom ({["/ping" := say "pong"]} : gmap string Handler)) as Hin.
  { rewrite dom_singleton_L. by apply elem_of_singleton. }
  split; [exact Hin |]. split; [reflexivity |].
  exact (proto_Pattern_panics_without_space Examples.proto_looped 0
           {["/ping" := say "pong"]} "/ping" Hin eq_refl).
Defined.

End Prototype.

(** ** The first version: registrations through nested subrouters *)

Section Nested.
Import Mux.

Lemma Mux_nested (mux : Mux) (prefixes : list string) :
  patternPrefix (foldl (λ m p, Prefix (Subrouter m) p) mux prefixes)
  = patternPrefix mux
    +:+ foldr (λ p rest, Spec.with_leading_slash p +:+ rest) "" prefixes
  ∧ middlewares (foldl (λ m p, Prefix (Subrouter m) p) mux prefixes)
    = middlewares mux.
Proof.
  revert mux. induction prefixes as [|p ps IH]; intros mux.
  - cbn [foldl foldr]. by rewrite append_nil_r.
  - cbn [foldl foldr]. destruct (IH (Prefix (Subrouter mux) p)) as [-> ->].
    unfold Prefix, Subrouter. cbn [patternPrefix middlewares].
    rewrite with_leading_slash_spec. by rewrite append_assoc.
Qed.

(** [Handle] on a mux reached from [mux] by [Subrouter] and [Prefix], once
    per prefix: into a dispatcher that takes every registration, the
    pattern registered is the method, the prefix of [mux], the prefixes in
    the order of the calls, each with a slash put before it if it has none,
    and the path, put together as they are (no slash is removed); the
    handler is wrapped in the middlewares of [mux]; the same pattern is
    appended to the list of registered patterns. *)
Theorem Mux_Handle_through_subrouters
    (mux : Mux) (prefixes : list string) (a b : string) (handler : Handler)
    (st : shared (list (string * Handler))) :
  has_byte " " a = false → has_byte " " b = false →
  let sub := foldl (λ m p, Prefix (Subrouter m) p) mux prefixes in
  let prefix := patternPrefix mux
    +:+ foldr (λ p rest, Spec.with_leading_slash p +:+ rest) "" prefixes in
  Handle (H:=recording) sub (a +:+ " " +:+ b) handler st
  = Some (mkShared
            (muxify st ++ [(a +:+ " " +:+ prefix +:+ b,
                            newHandler (middlewares mux) handler)])
            (registeredPatterns st ++ [a +:+ " " +:+ prefix +:+ b]))
  ∧ Handle (H:=recording) sub b handler st
    = Some (mkShared
              (muxify st ++ [(prefix +:+ b, newHandler (middlewares mux) handler)])
              (registeredPatterns st ++ [prefix +:+ b])).
Proof.
  intros Ha Hb sub prefix.
  destruct (Mux_nested mux prefixes) as [Hprefix Hmw].
  fold sub in Hprefix, Hmw. fold prefix in Hprefix.
  unfold Handle, splitPattern. split.
  - change (a +:+ " " +:+ b) with (a +:+ String " " b).
    rewrite Split_at_sep by done. rewrite Split_no_sep by done.
    rewrite Hprefix, Hmw. cbn. by rewrite !append_assoc.
  - rewrite Split_no_sep by done. rewrite Hprefix, Hmw. done.
Qed.

Lemma Mux_Handle_through_subrouters_witness :
  has_byte " " "GET" = false ∧ has_byte " " "/ping" = false
  ∧ Handle (H:=recording)
      (foldl (λ m p, Prefix (Subrouter m) p) (mkMux "/api" [announce "log"])
         ["v1"; "/admin/"])
      "GET /ping" (say "pong") (mkShared [] [])
    = Some (mkShared
              [("GET /api/v1/admin//ping",
                newHandler [announce "log"] (say "pong"))]
              ["GET /api/v1/admin//ping"])
  ∧ Handle (H:=recording)
      (foldl (λ m p, Prefix (Subrouter m) p) (mkMux "/api" [announce "log"])
         ["v1"; "/admin/"])
      "/ping" (say "pong") (mkShared [] [])
    = Some (mkShared
              [("/api/v1/admin//ping", newHandler [announce "log"] (say "pong"))]
              ["/api/v1/admin//ping"]).
Proof.
  split; [reflexivity |]. split; [reflexivity |].
  exact (Mux_Handle_through_subrouters (mkMux "/api" [announce "log"])
           ["v1"; "/admin/"] "GET" "/ping" (say "pong") (mkShared [] [])
           eq_refl eq_refl).
Defined.

End Nested.

(** ** The prototype: the first [Pattern] call on the router *)

Section ProtoPattern.
Import XXSMux.
Implicit Types (h : heap) (mux : ptr) (n cur : node).

Lemma get_inserted {A} (f : node → A) h mux cur :
  mux < length h →
  get f mux (<[mux := cur]> h) = Some (f cur, <[mux := cur]> h).
Proof. intros Hlt. apply get_eq. by apply list_lookup_insert_eq. Qed.

Lemma modify_inserted (g : node → node) h mux cur :
  mux < length h →
  modify mux g (<[mux := cur]> h) = Some (tt, <[mux := g cur]> h).
Proof.
  intros Hlt. rewrite (modify_eq _ _ _ cur) by (by apply list_lookup_insert_eq).
  by rewrite list_insert_insert_eq.
Qed.

(** A string that holds the separator has a second field. *)
Lemma Split_second (s : string) (sep : ascii) :
  has_byte sep s = true → ∃ path, Split s sep !! 1 = Some path.
Proof.
  induction s as [|c s IH]; [done |].
  cbn [has_byte Split]. destruct (Ascii.eqb c sep) eqn:Hc.
  - intros _. destruct (Split s sep) as [|f fs] eqn:Hsplit.
    + by apply Split_not_nil in Hsplit.
    + by exists f.
  - cbn [orb]. intros Hs. destruct (IH Hs) as [path Hpath].
    destruct (Split s sep) as [|f fs]; [done |]. by exists path.
Qed.

Lemma proto_store_loop h mux cur (l : list (string * Handler)) :
  mux < length h →
  (∀ p hd, (p, hd) ∈ l → has_byte " " p = true) →
  for_each l (λ '(pattern, handler),
    pp ← get patternPrefix mux;
    match Split pattern " "%char !! 1 with
    | Some path =>
        modify mux (λ n, set_patterns
          (<[removeDoubleSlash (pp +:+ path) := handler]> (patterns n)) n)
    | None => λ _, None
    end) (<[mux := cur]> h)
  = Some (tt, <[mux := set_patterns
                  (foldl (λ m '(p, hd), <[ProtoClosed.key (patternPrefix cur) p := hd]> m)
                     (patterns cur) l) cur]> h).
Proof.
  intros Hlt. revert cur. induction l as [|[p hd] l IH]; intros cur Hl.
  - cbn [for_each foldl]. by destruct cur.
  - rewrite for_each_cons. heap_simpl. rewrite get_inserted by done. heap_simpl.
    destruct (Split_second p " "%char) as [path Hpath].
    { apply (Hl p hd). by left. }
    rewrite Hpath. rewrite modify_inserted by done.
    rewrite IH by (intros ? ? ?; eapply Hl; by right).
    cbn [foldl patternPrefix patterns set_patterns].
    assert (ProtoClosed.key (patternPrefix cur) p
            = removeDoubleSlash (patternPrefix cur +:+ path)) as ->
      by (unfold ProtoClosed.key; by rewrite Hpath).
    by destruct cur.
Qed.

Lemma proto_keys_stored (prefix : string) (l : list (string * Handler))
    (m : gmap string Handler) (k : string) :
  k ∈ dom (foldl (λ m '(p, hd), <[ProtoClosed.key prefix p := hd]> m) m l)
  ↔ k ∈ dom m ∨ ∃ p hd, (p, hd) ∈ l ∧ k = ProtoClosed.key prefix p.
Proof.
  revert m. induction l as [|[p hd] l IH]; intros m.
  - cbn [foldl]. split; [by left |].
    intros [? | (? & ? & []%elem_of_nil & _)]. done.
  - cbn [foldl]. rewrite IH, dom_insert_L, elem_of_union, elem_of_singleton. split.
    + intros [[-> | Hk] | (q & hq & Hq & ->)].
      * right. exists p, hd. split; [by left | done].
      * by left.
      * right. exists q, hq. split; [by right | done].
    + intros [Hk | (q & hq & [[= -> ->] | Hq]%elem_of_cons & ->)].
      * left. by right.
      * left. by left.
      * right. by exists q, hq.
Qed.

(** The first [Pattern] call on the router of [main] (its own root and
    parent, no subrouter yet), with registration strings that all hold a
    space: the call returns; the keys of the router are those it had and,
    for every registration string, the stored prefix with a slash before it
    followed by the second field of the string, runs of slashes collapsed:
    the method is not part of the key.  The stored prefix gets the slash
    too, the router becomes its own subrouter, and no other builder is
    changed. *)
Theorem proto_Pattern_on_fresh_router h mux n (pats : gmap string Handler) :
  h !! mux = Some n → root n = Some mux → parent n = Some mux →
  subXXSMux n = [] →
  (∀ p, p ∈ dom pats → has_byte " " p = true) →
  ∃ h' n',
    exec (Pattern mux pats) h = Some h'
    ∧ h' !! mux = Some n'
    ∧ (∀ k, k ∈ dom (patterns n')
            ↔ k ∈ dom (patterns n)
              ∨ ∃ p, p ∈ dom pats ∧ k = ProtoClosed.key ("/" +:+ patternPrefix n) p)
    ∧ patternPrefix n' = "/" +:+ patternPrefix n
    ∧ subXXSMux n' = [mux]
    ∧ middlewares n' = middlewares n
    ∧ root n' = Some mux ∧ parent n' = Some mux
    ∧ length h' = length h
    ∧ ∀ q, q ≠ mux → h' !! q = h !! q.
Proof.
  intros Hmux Hroot Hparent Hsub Hpats.
  pose proof (lookup_lt_Some _ _ _ Hmux) as Hlt.
  assert (∀ p hd, (p, hd) ∈ map_to_list pats → has_byte " " p = true) as Hl.
  { intros p hd Hin%elem_of_map_to_list. apply Hpats, elem_of_dom. by exists hd. }
  set (final := set_subXXSMux [mux]
         (set_patterns
            (foldl (λ m '(p, hd), <[ProtoClosed.key ("/" +:+ patternPrefix n) p := hd]> m)
               (patterns n) (map_to_list pats))
            (set_patternPrefix ("/" +:+ patternPrefix n) n))).
  assert (exec (Pattern mux pats) h = Some (<[mux := final]> h)) as Hexec.
  { unfold exec, Pattern.
    rewrite <- (list_insert_id h mux n Hmux) at 1.
    heap_simpl. rewrite get_inserted by done. heap_simpl.
    rewrite modify_inserted by done. heap_simpl.
    rewrite get_inserted by done. heap_simpl.
    cbn [root set_patternPrefix]. rewrite Hroot. cbn [get_at].
    rewrite get_inserted by done. heap_simpl.
    rewrite modify_inserted by done. heap_simpl.
    rewrite get_inserted by done. heap_simpl.
    cbn [parent set_patternPrefix]. rewrite Hparent. cbn [get_at].
    rewrite get_inserted by done. heap_simpl.
    cbn [subXXSMux set_patternPrefix]. rewrite Hsub. cbn [for_each].
    unfold ret. heap_simpl.
    rewrite modify_inserted by done. heap_simpl.
    rewrite proto_store_loop by done. heap_simpl.
    rewrite modify_inserted by done.
    cbn [fmap option_fmap option_map snd]. f_equal. f_equal.
    unfold final. destruct n; cbn in *. by subst. }
  exists (<[mux := final]> h), final. split; [exact Hexec |].
  split; [by apply list_lookup_insert_eq |]. split.
  { intros k. unfold final. cbn [patterns set_subXXSMux set_patterns].
    rewrite proto_keys_stored. split.
    - intros [Hk | (p & hd & Hin%elem_of_map_to_list & ->)]; [by left |].
      right. exists p. split; [|done]. apply elem_of_dom. by exists hd.
    - intros [Hk | (p & [hd Hin]%elem_of_dom & ->)]; [by left |].
      right. exists p, hd. split; [|done]. by apply elem_of_map_to_list. }
  unfold final. destruct n; cbn in *.
  do 5 (split; [done |]). split; [by rewrite length_insert |].
  intros q Hq. by apply list_lookup_insert_ne.
Qed.

Lemma proto_Pattern_on_fresh_router_witness :
  [(mkNode ∅ "v1" [] (Some 0) (Some 0) [])] !! 0 = Some (mkNode ∅ "v1" [] (Some 0) (Some 0) [])
  ∧ (∀ p, p ∈ dom ({["GET /ping" := say "pong"]} : gmap string Handler) → has_byte " " p = true)
  ∧ ∃ h' n',
      exec (Pattern 0 {["GET /ping" := say "pong"]}) [(mkNode ∅ "v1" [] (Some 0) (Some 0) [])] = Some h'
      ∧ h' !! 0 = Some n'
      ∧ (∀ k, k ∈ dom (patterns n')
              ↔ k ∈ dom (∅ : gmap string Handler)
                ∨ ∃ p, p ∈ dom ({["GET /ping" := say "pong"]} : gmap string Handler) ∧ k = ProtoClosed.key ("/" +:+ "v1") p)
      ∧ patternPrefix n' = "/" +:+ "v1"
      ∧ subXXSMux n' = [0]
      ∧ middlewares n' = []
      ∧ root n' = Some 0 ∧ parent n' = Some 0
      ∧ length h' = 1
      ∧ ∀ q, q ≠ 0 → h' !! q = [(mkNode ∅ "v1" [] (Some 0) (Some 0) [])] !! q.
Proof.
  assert (∀ p, p ∈ dom ({["GET /ping" := say "pong"]} : gmap string Handler) → has_byte " " p = true) as Hpats.
  { intros p Hp. rewrite dom_singleton_L in Hp.
    apply elem_of_singleton in Hp. by subst p. }
  split; [reflexivity |]. split; [exact Hpats |].
  exact (proto_Pattern_on_fresh_router [(mkNode ∅ "v1" [] (Some 0) (Some 0) [])] 0 (mkNode ∅ "v1" [] (Some 0) (Some 0) []) {["GET /ping" := say "pong"]}
           eq_refl eq_refl eq_refl eq_refl Hpats).
Defined.

End ProtoPattern.

(** ** The stored prefix after [Pattern], in both builders *)

Section HeapInversion.
Context {node : Type}.
Implicit Types (h : list node) (b : nat).

Lemma get_inv {A} (f : node → A) b h v h' :
  get f b h = Some (v, h') → ∃ x, h !! b = Some x ∧ v = f x ∧ h' = h.
Proof.
  unfold get. destruct (h !! b) as [x|]; [|done].
  intros [= <- <-]. by exists x.
Qed.

Lemma modify_inv (g : node → node) b h u h' :
  modify b g h = Some (u, h') → ∃ x, h !! b = Some x ∧ h' = <[b := g x]> h.
Proof.
  unfold modify. destruct (h !! b) as [x|]; [|done].
  intros [= <- <-]. by exists x.
Qed.

(** What every turn of a loop keeps holds when the loop ends. *)
Lemma for_each_inv {A} (I : list node → Prop) (l : list A)
    (body : A → M (node:=node) unit) :
  (∀ x h h', I h → body x h = Some (tt, h') → I h') →
  ∀ h h', I h → for_each l body h = Some (tt, h') → I h'.
Proof.
  intros Hbody. induction l as [|x l IH]; intros h h' HI.
  - by intros [= <-].
  - rewrite for_each_cons. destruct (body x h) as [[[] h1]|] eqn:Hx; [|done].
    apply IH. by eapply Hbody.
Qed.

End HeapInversion.

Section ProtoPrefix.
Import XXSMux ProtoClosed.
Implicit Types (h : heap) (mux : ptr) (n : node).

Lemma slashes_snoc (k : nat) : slashes k +:+ "/" = slashes (S k).
Proof.
  induction k as [|k IH]; [done |].
  cbn [slashes]. by rewrite append_assoc, IH.
Qed.

Lemma scanned_nonempty h mux s : scanned h mux s → 0 < String.length s.
Proof.
  intros (x & k & -> & _). rewrite append_length. cbn [slashes].
  rewrite append_length. simpl. lia.
Qed.

(** A prefix read while [mux] holds a scanned prefix, with a slash after
    it, is a scanned prefix. *)
Lemma scanned_read h mux n s p x :
  h !! mux = Some n → scanned h mux s →
  <[mux := set_patternPrefix s n]> h !! p = Some x →
  scanned h mux (patternPrefix x +:+ "/").
Proof.
  intros Hmux (x0 & k & -> & Hx0) Hp.
  destruct (decide (p = mux)) as [->|Hne].
  - rewrite (lookup_written _ _ _ _ Hmux) in Hp. injection Hp as <-.
    exists x0, (S k). split; [|done].
    cbn [patternPrefix set_patternPrefix].
    by rewrite !append_assoc, slashes_snoc.
  - rewrite list_lookup_insert_ne in Hp by done.
    exists (patternPrefix x), 0. split; [done |]. right. by exists p, x.
Qed.

Lemma proto_scan_step h mux n h1 h2 (subSubMux : ptr) :
  h !! mux = Some n →
  (∃ s, h1 = <[mux := set_patternPrefix s n]> h ∧ scanned h mux s) →
  (pp ← get patternPrefix subSubMux;
   modify mux (set_patternPrefix (pp +:+ "/"))) h1 = Some (tt, h2) →
  ∃ s, h2 = <[mux := set_patternPrefix s n]> h ∧ scanned h mux s.
Proof.
  intros Hmux (s & -> & Hs) Hstep. rewrite bind_eq in Hstep.
  destruct (get patternPrefix subSubMux _) as [[pp h1]|] eqn:Hget; [|done].
  apply get_inv in Hget as (x & Hx & -> & ->).
  apply modify_inv in Hstep as (cur & Hcur & ->).
  rewrite (lookup_written _ _ _ _ Hmux) in Hcur. injection Hcur as <-.
  exists (patternPrefix x +:+ "/"). split.
  - by rewrite list_insert_insert_eq.
  - by eapply scanned_read.
Qed.

Lemma proto_scan_loop h mux n h1 h2 (subSubMuxes : list ptr) :
  h !! mux = Some n →
  (∃ s, h1 = <[mux := set_patternPrefix s n]> h ∧ scanned h mux s) →
  for_each subSubMuxes (λ subSubMux,
    pp ← get patternPrefix subSubMux;
    modify mux (set_patternPrefix (pp +:+ "/"))) h1 = Some (tt, h2) →
  ∃ s, h2 = <[mux := set_patternPrefix s n]> h ∧ scanned h mux s.
Proof.
  intros Hmux. revert h1 h2.
  apply (for_each_inv
           (λ h1, ∃ s, h1 = <[mux := set_patternPrefix s n]> h ∧ scanned h mux s)).
  intros x h1 h2. by apply proto_scan_step.
Qed.

(** [Pattern] of the prototype, when it returns: the builder has got the
    patterns, a prefix that the scans left before the prefix it had, and
    itself as its last subrouter; its root is a builder of the heap. *)
Lemma proto_Pattern_shape h mux n (pats : gmap string Handler) h' :
  h !! mux = Some n → exec (Pattern mux pats) h = Some h' →
  ∃ base stored r,
    scanned h mux base ∧ root n = Some r ∧ r < length h
    ∧ h' = <[mux := mkNode stored (base +:+ patternPrefix n) (middlewares n)
                      (root n) (parent n) (subXXSMux n ++ [mux])]> h.
Proof.
  intros Hmux Hexec. unfold exec in Hexec.
  destruct (Pattern mux pats h) as [[[] h0]|] eqn:HP; [|done].
  cbn in Hexec. injection Hexec as ->.
  unfold Pattern in HP. heap_simpl_in HP.
  rewrite (get_eq _ _ _ _ Hmux) in HP. heap_simpl_in HP.
  rewrite (modify_eq _ _ _ _ Hmux) in HP. heap_simpl_in HP.
  rewrite (get_eq _ _ _ (set_patternPrefix "" n)) in HP
    by (by eapply lookup_written).
  heap_simpl_in HP. cbn [root set_patternPrefix] in HP.
  destruct (root n) as [r|] eqn:Hroot; [|done]. cbn [get_at] in HP.
  destruct (get patternPrefix r _) as [[rootPrefix h1]|] eqn:Hget; [|done].
  apply get_inv in Hget as (x & Hx & -> & ->). heap_simpl_in HP.
  assert (r < length h) as Hr.
  { apply lookup_lt_Some in Hx. by rewrite length_insert in Hx. }
  assert (scanned h mux (patternPrefix x +:+ "/")) as Hs0.
  { destruct (decide (r = mux)) as [->|Hne].
    - rewrite (lookup_written _ _ _ _ Hmux) in Hx. injection Hx as <-.
      exists "", 0. split; [done | by left].
    - rewrite list_lookup_insert_ne in Hx by done.
      exists (patternPrefix x), 0. split; [done |]. right. by exists r, x. }
  rewrite (modify_eq _ _ _ (set_patternPrefix "" n)) in HP
    by (by eapply lookup_written).
  rewrite list_insert_insert_eq in HP. heap_simpl_in HP.
  change (set_patternPrefix (patternPrefix x +:+ "/") (set_patternPrefix "" n))
    with (set_patternPrefix (patternPrefix x +:+ "/") n) in HP.
  rewrite (get_eq _ _ _ (set_patternPrefix (patternPrefix x +:+ "/") n)) in HP
    by (by eapply lookup_written).
  heap_simpl_in HP. cbn [parent set_patternPrefix] in HP.
  destruct (parent n) as [p|] eqn:Hparent; [|done]. cbn [get_at] in HP.
  destruct (get subXXSMux p _) as [[subMuxes h1]|] eqn:Hget; [|done].
  apply get_inv in Hget as (np & Hnp & -> & ->). heap_simpl_in HP.
  destruct (for_each (subXXSMux np) _ _) as [[[] h2]|] eqn:Hscan; [|done].
  assert (∃ s, h2 = <[mux := set_patternPrefix s n]> h ∧ scanned h mux s)
    as (s & -> & Hs).
  { revert Hscan.
    apply (for_each_inv
             (λ h1, ∃ s, h1 = <[mux := set_patternPrefix s n]> h
                         ∧ scanned h mux s)); [|by eexists].
    intros subMux h1 h5 (s & -> & Hs) Hstep. heap_simpl_in Hstep.
    rewrite (get_eq _ _ _ (set_patternPrefix s n)) in Hstep
      by (by eapply lookup_written).
    heap_simpl_in Hstep.
    rewrite (get_eq _ _ _ (set_patternPrefix s n)) in Hstep
      by (by eapply lookup_written).
    heap_simpl_in Hstep.
    assert (∀ h3, (subSubMuxes ← get subXXSMux subMux;
                   for_each subSubMuxes (λ subSubMux,
                     pp ← get patternPrefix subSubMux;
                     modify mux (set_patternPrefix (pp +:+ "/"))))
                    (<[mux := set_patternPrefix s n]> h) = Some (tt, h3) →
                  ∃ s', h3 = <[mux := set_patternPrefix s' n]> h
                        ∧ scanned h mux s') as Hinner.
    { intros h3 Hin. rewrite bind_eq in Hin.
      destruct (get subXXSMux subMux _) as [[l h4]|] eqn:Hget; [|done].
      apply get_inv in Hget as (? & _ & _ & ->).
      eapply proto_scan_loop; [done | by eexists | done]. }
    case_bool_decide; [case_bool_decide |]; try (by apply Hinner).
    injection Hstep as <-. by eexists. }
  heap_simpl_in HP.
  rewrite (modify_eq _ _ _ (set_patternPrefix s n)) in HP
    by (by eapply lookup_written).
  rewrite list_insert_insert_eq in HP. heap_simpl_in HP.
  cbn [patternPrefix set_patternPrefix] in HP.
  destruct (for_each (map_to_list pats) _ _) as [[[] h3]|] eqn:Hstore; [|done].
  assert (∃ stored,
            h3 = <[mux := mkNode stored (s +:+ patternPrefix n) (middlewares n)
                            (root n) (parent n) (subXXSMux n)]> h)
    as (stored & ->).
  { revert Hstore.
    apply (for_each_inv
             (λ h1, ∃ stored,
                h1 = <[mux := mkNode stored (s +:+ patternPrefix n) (middlewares n)
                                (root n) (parent n) (subXXSMux n)]> h)).
    - intros [pattern handler] h1 h5 (stored & ->) Hstep.
      heap_simpl_in Hstep.
      destruct (get patternPrefix mux _) as [[pp h4]|] eqn:Hget; [|done].
      apply get_inv in Hget as (? & _ & _ & ->).
      destruct (Split pattern " "%char !! 1) as [path|]; [|done].
      apply modify_inv in Hstep as (cur & Hcur & ->).
      rewrite (lookup_written _ _ _ _ Hmux) in Hcur. injection Hcur as <-.
      eexists. by rewrite list_insert_insert_eq.
    - exists (patterns n). by destruct n. }
  apply modify_inv in HP as (cur & Hcur & ->).
  rewrite (lookup_written _ _ _ _ Hmux) in Hcur. injection Hcur as <-.
  exists s, stored, r. split; [done |]. split; [done |].
  split; [done |]. rewrite list_insert_insert_eq.
  unfold set_subXXSMux. cbn. by rewrite ?Hroot, ?Hparent.
Qed.

End ProtoPrefix.

Section StoredPrefix.
Import ProtoClosed.

(** C10, amended.  [ServeMuxBuilder.Pattern] overwrites the stored prefix
    of the builder with the prefix that its scans leave (the prefix of the
    root, or the one of the last builder in the subrouter lists of the
    subrouters of the parent) followed by the prefix stored before; on the
    root builder the scans leave the empty prefix and the stored prefix is
    the same as before.  [XXSMux.Pattern] of the prototype puts a slash
    after what its scans read, so what it puts before the stored prefix is
    never empty: the stored prefix changes at every call, on the root too.
    In both, a later [Pattern] on the builder starts from the stored prefix
    and puts the result of its scans before it once more, and a later
    [Subrouter] on the builder does not read the stored prefix: the new
    builder starts with the empty prefix. *)
Theorem Pattern_rewrites_stored_prefix
    (h : ServeMuxBuilder.heap) b n (patterns later : gmap string Handler)
    (ph ph' ph'' : XXSMux.heap) mux pn (pats plater : gmap string Handler) :
  Closed.wf h → h !! b = Some n →
  ph !! mux = Some pn →
  exec (XXSMux.Pattern mux pats) ph = Some ph' →
  exec (XXSMux.Pattern mux plater) ph' = Some ph'' →
  (∃ h' n' h'' n'' h3 c,
     exec (ServeMuxBuilder.Pattern b patterns) h = Some h' ∧ h' !! b = Some n'
     ∧ ServeMuxBuilder.PatternPrefix n'
       = Closed.Pattern_base h b +:+ ServeMuxBuilder.PatternPrefix n
     ∧ (ServeMuxBuilder.Root n = b → ServeMuxBuilder.Parent n = b →
        ServeMuxBuilder.PatternPrefix n' = ServeMuxBuilder.PatternPrefix n)
     ∧ exec (ServeMuxBuilder.Pattern b later) h' = Some h'' ∧ h'' !! b = Some n''
     ∧ ServeMuxBuilder.PatternPrefix n''
       = Closed.Pattern_base h' b +:+ Closed.Pattern_base h b
         +:+ ServeMuxBuilder.PatternPrefix n
     ∧ ServeMuxBuilder.Subrouter b h' = Some (length h', h3)
     ∧ h3 !! length h' = Some c
     ∧ ServeMuxBuilder.PatternPrefix c = "")
  ∧ (∃ pn' pn'' base base' ph3 c,
       ph' !! mux = Some pn'
       ∧ XXSMux.patternPrefix pn' = base +:+ XXSMux.patternPrefix pn
       ∧ scanned ph mux base
       ∧ XXSMux.patternPrefix pn' ≠ XXSMux.patternPrefix pn
       ∧ ph'' !! mux = Some pn''
       ∧ XXSMux.patternPrefix pn'' = base' +:+ base +:+ XXSMux.patternPrefix pn
       ∧ scanned ph' mux base'
       ∧ XXSMux.patternPrefix pn'' ≠ XXSMux.patternPrefix pn'
       ∧ XXSMux.Subrouter mux ph' = Some (length ph', ph3)
       ∧ ph3 !! length ph' = Some c
       ∧ XXSMux.patternPrefix c = "").
Proof.
  intros Hwf Hb Hmux Hfirst Hsecond.
  split; [by apply Pattern_stored_prefix |].
  assert (∀ (s t : string), 0 < String.length s → s +:+ t ≠ t) as Hlonger.
  { intros s t Hs Heq. apply (f_equal String.length) in Heq.
    rewrite append_length in Heq. lia. }
  destruct (proto_Pattern_shape _ _ _ _ _ Hmux Hfirst)
    as (base & stored & r & Hbase & Hroot & Hr & ->).
  pose proof (lookup_written _ _ _
                (XXSMux.mkNode stored (base +:+ XXSMux.patternPrefix pn)
                   (XXSMux.middlewares pn) (XXSMux.root pn) (XXSMux.parent pn)
                   (XXSMux.subXXSMux pn ++ [mux])) Hmux) as Hmux'.
  destruct (proto_Pattern_shape _ _ _ _ _ Hmux' Hsecond)
    as (base' & stored' & r' & Hbase' & _ & _ & ->).
  destruct (lookup_lt_is_Some_2
              (<[mux := XXSMux.mkNode stored (base +:+ XXSMux.patternPrefix pn)
                          (XXSMux.middlewares pn) (XXSMux.root pn)
                          (XXSMux.parent pn) (XXSMux.subXXSMux pn ++ [mux])]> ph) r)
    as [nr Hnr]; [by rewrite length_insert |].
  eexists _, _, base, base', _, _.
  split; [exact Hmux' |]. split; [done |]. split; [done |].
  split; [apply Hlonger; by eapply scanned_nonempty |].
  split; [by eapply lookup_written |]. split; [done |]. split; [done |].
  split; [apply Hlonger; by eapply scanned_nonempty |].
  split; [exact (proto_Subrouter_closed _ _ _ _ _ Hmux' Hroot Hnr) |].
  split; [apply list_lookup_middle; by rewrite !length_insert | done].
Qed.

Lemma Pattern_rewrites_stored_prefix_witness :
  Closed.wf Examples.one_root
  ∧ Examples.one_root !! 0
    = Some (ServeMuxBuilder.mkNode ∅ "/v1" [] 0 0 [] false [])
  ∧ [XXSMux.mkNode ∅ "v1" [] (Some 0) (Some 0) []] !! 0
    = Some (XXSMux.mkNode ∅ "v1" [] (Some 0) (Some 0) [])
  ∧ exec (XXSMux.Pattern 0 {["GET /ping" := say "pong"]})
         [XXSMux.mkNode ∅ "v1" [] (Some 0) (Some 0) []]
    = Some Examples.proto_looped
  ∧ exec (XXSMux.Pattern 0 ∅) Examples.proto_looped
    = Some [XXSMux.mkNode {["/v1/ping" := say "pong"]} "///v1" []
                          (Some 0) (Some 0) [0; 0]]
  ∧ (∃ h' n' h'' n'' h3 c,
       exec (ServeMuxBuilder.Pattern 0 {["GET /ping" := say "pong"]})
            Examples.one_root = Some h'
       ∧ h' !! 0 = Some n'
       ∧ ServeMuxBuilder.PatternPrefix n'
         = Closed.Pattern_base Examples.one_root 0 +:+ "/v1"
       ∧ (0 = 0 → 0 = 0 → ServeMuxBuilder.PatternPrefix n' = "/v1")
       ∧ exec (ServeMuxBuilder.Pattern 0 ∅) h' = Some h'' ∧ h'' !! 0 = Some n''
       ∧ ServeMuxBuilder.PatternPrefix n''
         = Closed.Pattern_base h' 0 +:+ Closed.Pattern_base Examples.one_root 0
           +:+ "/v1"
       ∧ ServeMuxBuilder.Subrouter 0 h' = Some (length h', h3)
       ∧ h3 !! length h' = Some c
       ∧ ServeMuxBuilder.PatternPrefix c = "")
  ∧ (∃ pn' pn'' base base' ph3 c,
       Examples.proto_looped !! 0 = Some pn'
       ∧ XXSMux.patternPrefix pn' = base +:+ "v1"
       ∧ scanned [XXSMux.mkNode ∅ "v1" [] (Some 0) (Some 0) []] 0 base
       ∧ XXSMux.patternPrefix pn' ≠ "v1"
       ∧ [XXSMux.mkNode {["/v1/ping" := say "pong"]} "///v1" []
                        (Some 0) (Some 0) [0; 0]] !! 0 = Some pn''
       ∧ XXSMux.patternPrefix pn'' = base' +:+ base +:+ "v1"
       ∧ scanned Examples.proto_looped 0 base'
       ∧ XXSMux.patternPrefix pn'' ≠ XXSMux.patternPrefix pn'
       ∧ XXSMux.Subrouter 0 Examples.proto_looped
         = Some (length Examples.proto_looped, ph3)
       ∧ ph3 !! length Examples.proto_looped = Some c
       ∧ XXSMux.patternPrefix c = "").
Proof.
  assert (Closed.wf Examples.one_root) as Hwf.
  { apply Forall_singleton. simpl. repeat split; (lia || constructor). }
  assert (exec (XXSMux.Pattern 0 {["GET /ping" := say "pong"]})
               [XXSMux.mkNode ∅ "v1" [] (Some 0) (Some 0) []]
          = Some Examples.proto_looped) as Hfirst by (vm_compute; reflexivity).
  assert (exec (XXSMux.Pattern 0 ∅) Examples.proto_looped
          = Some [XXSMux.mkNode {["/v1/ping" := say "pong"]} "///v1" []
                                (Some 0) (Some 0) [0; 0]]) as Hsecond
    by (vm_compute; reflexivity).
  split; [exact Hwf |]. split; [reflexivity |]. split; [reflexivity |].
  split; [exact Hfirst |]. split; [exact Hsecond |].
  exact (Pattern_rewrites_stored_prefix Examples.one_root 0
           (ServeMuxBuilder.mkNode ∅ "/v1" [] 0 0 [] false [])
           {["GET /ping" := say "pong"]} ∅
           [XXSMux.mkNode ∅ "v1" [] (Some 0) (Some 0) []]
           Examples.proto_looped
           [XXSMux.mkNode {["/v1/ping" := say "pong"]} "///v1" []
                          (Some 0) (Some 0) [0; 0]]
           0 (XXSMux.mkNode ∅ "v1" [] (Some 0) (Some 0) [])
           {["GET /ping" := say "pong"]} ∅
           Hwf eq_refl eq_refl Hfirst Hsecond).
Defined.

End StoredPrefix.
